(* ===== verification/_CoqProject ===== *)
-Q . S2P
Prelude.v
JsBuiltins.v
Crisis.v
SessionId.v
Store.v
Prompt.v
Chat.v
Routes.v
Server.v
Client.v
System.v
Network.v
