(* ===== verification/Prelude.v ===== *)
(** * A verification development of Saathi (src/saathi-backend/server.js
      and src/saathi-frontend/src/App.js)

    Saathi is a small chat service: an Express server proxies a user's
    messages to a generative-language API, keeps the conversation of each
    anonymous session in an in-memory [Map], and runs a keyword filter that
    attaches crisis helplines to the reply.  A React client ([App] in
    App.js) starts a session, sends messages and shows the answers.

    ** The program's parts and how they interact

    - The crisis lexicon matcher: [crisisKeywords], [containsCrisisKeywords]
      and [getCrisisResources] (server.js lines 28-32, 106-145).  A pure
      function of the message text.
    - The session store: the module-level [sessions] Map of session objects
      {id, messages, createdAt, lastActivity}.  It is written by
      [POST /api/session/start], by the chat handler (auto-creation under a
      client-supplied id, two pushes, the 20-message window) and by the
      hourly sweep ([setInterval], lines 330-339).  Ids come from
      [generateSessionId] (random digits and [Date.now()] in base 36).
    - The prompt assembler: the part of [callGeminiAPI] that builds the
      request text from the persona, the last five stored messages and the
      new message (lines 45-93), followed by the provider call.
    - The chat orchestrator: [POST /api/chat/:sessionId] (lines 185-261).
      It validates the body, resolves the session, pushes the user turn,
      classifies, awaits the provider (the one suspension point), pushes
      the assistant turn, trims to 20 and answers.  Every error is caught
      and answered with status 500.
    - The HTTP layer: the middleware chain (lines 11-25: helmet, CORS, the
      JSON body parser, the rate limiter on [/api]), the five routes, the
      JSON bodies they send, the error middleware and the 404 handler.  The
      limiter counts each client address's requests in a fifteen-minute
      window and answers 429 with a text body past the hundredth.
    - The React client: seven state cells, [startSession] with its
      one-second welcome timer, [sendMessage] with its [try/catch/finally],
      the key and quick-message handlers, and the view that decides which
      controls exist and are enabled.  It talks to the server only through
      the start and chat routes, at URLs built from [API_BASE_URL], and
      reads [data.success], never the status.

    ** Files of the development (in the order of _CoqProject)

    - [Prelude] (this file): the scope [js_scope] with [`infix_of`], the
      hint database [saathi], the tactics [elem_cases], [z_cases] and
      [decide_by_vm], the list lemmas the components share (suffixes by
      [drop], the 20-message window as a suffix, loops that append,
      weights of deleted elements), and the progress tools: the inductive
      [eventually] over a step relation, liveness and termination from a
      variant ([eventually_by_measure], [Acc_by_measure]) and invariants
      along runs ([rtc_invariant]).
    - [JsBuiltins]: the JavaScript built-ins the code calls, modelled from
      the ECMAScript specification (not code of the repository, so not in
      the map): strings as lists of UTF-16 code units ([jsstring]), parsed
      JSON values and truthiness, [trim], [toLowerCase], [includes],
      [substr], [slice], base-36 [toString] and [Date.prototype.toISOString].
    - [Crisis] (Module [Crisis]): the lexicon and the payload; C1
      characterises the matcher (some lowercased keyword is an infix of
      the lowercased message), C2 bounds it below (the shortest keyword);
      the lemmas [containsCrisisKeywords_occurrence],
      [containsCrisisKeywords_upper] and [containsCrisisKeywords_misses]
      give its consequences and the phrasings it misses.
    - [SessionId] (Module [SessionId]): [generateSessionId] with its random
      part and clock as inputs; C34 (unique decomposition for 1972-2059);
      the lemma [generateSessionId_collision] shows a collision across
      eras.
    - [Store] (Module [Store]): the [sessions] Map as a [gmap] from ids to
      locations plus a heap of session objects (so a reference held across
      the await is modelled), [getOrCreate], [startSession], [getHistory],
      the sweep both as a filter ([sweep]) and as the source's loop
      ([sweepLoop], equal to it by [sweepLoop_sweep]), the window
      [trimMessages]; well-formedness [wf] is preserved by each operation;
      C7 (window), C26 ([getOrCreate] on each branch: lookup,
      auto-creation, idempotence), C27 (the sweep's effect on every
      history, exact at the one-hour boundary), C28 (start overwrites).
    - [Prompt] (Module [Prompt]): [systemPrompt] verbatim,
      [buildConversationContext] as the source's loop, [callGeminiAPI]'s
      key check; C29 (the prompt's format: persona, header, one labelled
      line per message of the last five, the new message and the cue),
      and the lemma [buildConversationContext_last5].
    - [Chat] (Module [Chat]): the chat route split at its [await] into
      [chatBegin] and [chatFinish], composed by [chatHandler]; C3-C6 give
      every branch (success, 400, provider or key failure, non-string
      body), C8 the growth under failures, C30 the duplicated message in
      the prompt; the lemma [chat_25_exchanges] runs the spec's
      25-exchange example.
    - [Routes] (Module [Routes]): JSON values, the body of every route as
      [res.json] serializes it, routing ([matchRoute], case-insensitive,
      tolerant of a trailing slash, HEAD answered by the GET routes, as
      Express does), the application [appHandle] in middleware order, the
      limiter's verdict an input; C32 (status and [success] agree on
      every request).
    - [Server] (Module [Server]): the process as a step relation [step]
      (Section [Steps] over the configuration [env]) over start, chat
      begin, chat finish, sweep and clock ticks, and an executable runner
      [runEvent]/[runTrace]; C9 (the invariant of every reachable state,
      by rule induction), C20 (the runner and the relation have the same
      runs), C19 (whenever the sweep removes a session during a request's
      await, the reply goes into the orphaned object, the answer is 200
      and the history 404); the lemma [reachable_eventually_quiescent]
      and the example [interleaved_requests].
    - [Client] (Module [Client]): the App component as a [World] of state
      cells and outstanding tasks, one definition per handler, the view
      [render], and [clientEvent], which admits a user event only on a
      control the view shows enabled; C13 (one request in flight, the
      flags in step), C23 (message shapes), C21 (liveness), C22
      (termination of settlements), C18 (send and answer), C14 (every
      failure shows the helpline), C24 (a message sent while the welcome
      timer is pending is erased and its answer shown without it), C25
      (a failed start changes nothing the user sees).
    - [System] (Module [System]): one client against the server's store,
      the client's requests answered by the route handlers, the bodies
      read as App.js reads them; C10 (the server's history is a suffix of
      the conversation the user sees, of at least 20 messages or all of
      it), C15 (a provider failure reaches the user with the helpline
      number), C31 (the client reads back exactly what the server sends),
      C33 (the header label is the start time); the example
      [double_start].
    - [Network] (Module [Network]): what lies between the two programs.
      The URLs App.js builds ([API_BASE_URL], [startUrl], [chatUrl]) and
      their path segments; the rate limiter as express-rate-limit
      implements it, behind an interface: the class [HitCounter] (the
      library's store, [increment]) with the laws [FixedWindow], which the
      library's [MemoryStore] satisfies; [httpHandle], one request through
      CORS, the body parser, the limiter and [appHandle], and its runner
      [httpRun]; [Net], the composition of [System] with these layers
      ([netEvent]).  C11 (every step that serves a request the limiter
      lets through is the step of [System]: a refinement), C12 (hence
      the agreement of C10 holds through the network as long as the
      limiter refuses nothing), C16 (a request over the limit leaves the
      store alone and shows the user the fallback bubble under a message
      the server never recorded: there the agreement ends), C17 (of an
      address's requests in one window exactly the first hundred are
      served, whatever else is interleaved; proved in Section [Window]
      against the laws).

    ** Modelling choices and bounds

    - Dates are integers of milliseconds; each synchronous segment of a
      handler reads the clock once (the source calls [new Date()] several
      times in one segment, which differ by at most the segment's run
      time).  The server's clock advances only by [step_tick] with [d >= 0];
      client events carry their own time.
    - [digits36] takes fuel [log2 n + 1]: base 2 needs that many digits, so
      base 36 never needs more ([log2_digits_enough]); the round trip
      [parse36_toString36] shows the fuel is enough for every [n >= 0].
    - [toLowerCase] is the simple per-unit mapping of Basic Latin,
      Latin-1, Greek, Cyrillic and the Kelvin and Angstrom signs; other
      units are unchanged, which is exact for Devanagari and for every
      keyword.  Length-changing and context-dependent mappings are not
      modelled.
    - The provider call is an input: [ProviderText] or [ProviderFailure];
      a missing key rejects before any request.  JSON numbers are integers.
    - React: each handler runs on the state of the last committed render
      (React flushes discrete events such as clicks and key presses before
      the next one), state updates of one handler are applied in order,
      and the moments at which fetches and the timer settle are arbitrary:
      the model admits every interleaving of settlements and user events,
      which includes the real ones.
    - The composition [System] answers the client's request atomically:
      the client has at most one chat request in flight (C13), so the
      server sees this client's requests one at a time; interleavings of
      several clients are the subject of [Server].  [Net] refines this
      per request (C11): the same step through the URLs, the middleware
      and the JSON of both sides.
    - In [Server] the sweep may run at any moment, not only on the hour:
      the relation admits every run of the process and more, so what
      holds of every reachable state holds of the real ones.
    - The limiter is modelled from express-rate-limit's in-memory store
      (the version is not pinned: there is no package.json under src/;
      the fixed window per key is the behaviour of its current
      [MemoryStore]).  Its key is [req.ip], an input of each request.
      The store's periodic removal of expired records is left out: an
      expired record is reset at its next hit anyway, so no verdict
      changes.

    ** Not modelled

    - helmet's and CORS's headers (the CORS preflight answer is
      modelled) and the limiter's [RateLimit-*] headers: they do not
      change status codes, bodies or the store.
    - Percent-encoding in URLs and the decoding of route parameters:
      generated session ids (letters, digits, [_]) need neither; C11 is
      stated for such ids.
    - The Gemini request itself (model selection and network): external.
    - In the client: scrolling ([scrollIntoView] in an effect; it changes
      no state), CSS classes, the animation delays of the typing dots,
      [toLocaleTimeString] formatting and [label.split(' ')].
    - [app.listen], [PORT], [dotenv] and the [require]s: process start-up,
      no behaviour of a request. *)

From stdpp Require Export base list gmap.
From Stdlib Require Export ZArith.

Declare Scope js_scope.
Delimit Scope js_scope with js.

(** The hint database of the development. *)
Create HintDb saathi discriminated.

(** ** Generic list lemmas *)

(** [k] occurs contiguously in [s]. *)
Definition infix_of {A} (k s : list A) : Prop := ∃ a b, s = a ++ k ++ b.
Infix "`infix_of`" := infix_of (at level 70) : js_scope.
Open Scope js_scope.

Section ListFacts.
Context {A : Type}.

(** The suffix of the last [n] elements (as [drop]). *)
Lemma drop_last_length (l : list A) n :
  length (drop (length l - n) l) = Nat.min n (length l).
Proof. rewrite length_drop. lia. Qed.

Lemma drop_is_suffix (l : list A) n : ∃ p, l = p ++ drop n l.
Proof. exists (take n l). by rewrite take_drop. Qed.

Lemma drop_last_idem (l : list A) n :
  length l ≤ n → drop (length l - n) l = l.
Proof. intros H. replace (length l - n) with 0 by lia. done. Qed.

Lemma drop_app_tail (l : list A) x n :
  length l < n → drop (length (l ++ [x]) - n) (l ++ [x]) = l ++ [x].
Proof. intros H. apply drop_last_idem. rewrite length_app; simpl; lia. Qed.

Lemma drop_drop_last (l : list A) m n :
  n ≤ m → drop (length (drop (length l - m) l) - n) (drop (length l - m) l)
         = drop (length l - n) l.
Proof.
  intros H. rewrite length_drop, drop_drop. f_equal. lia.
Qed.

Lemma infix_of_nil_inv (k : list A) : k `infix_of` [] → k = [].
Proof. intros [a [b H]]. symmetry in H. apply app_nil in H as [_ H]. by apply app_nil in H as [? _]. Qed.

Lemma prefix_infix_of (k s : list A) : k `prefix_of` s → k `infix_of` s.
Proof. intros [b ->]. by exists [], b. Qed.

Lemma infix_of_cons (k s : list A) x : k `infix_of` s → k `infix_of` x :: s.
Proof. intros [a [b ->]]. by exists (x :: a), b. Qed.

(** Infix occurrence survives any extension on both sides. *)
Lemma infix_of_app (k s p q : list A) : k `infix_of` s → k `infix_of` p ++ s ++ q.
Proof.
  intros [a [b ->]]. exists (p ++ a), (b ++ q). by rewrite <- !app_assoc.
Qed.

Lemma infix_of_map {B} (f : A → B) (k s : list A) :
  k `infix_of` s → map f k `infix_of` map f s.
Proof. intros [a [b ->]]. exists (map f a), (map f b). by rewrite !map_app. Qed.

(** A loop [acc += f(x)] over [l] appends the concatenation. *)
Lemma foldl_app_concat {B} (f : A → list B) (c : list B) (l : list A) :
  foldl (λ ctx x, ctx ++ f x) c l = c ++ concat (map f l).
Proof.
  revert c. induction l as [|x l IH]; intros c; simpl; [by rewrite app_nil_r |].
  by rewrite IH, app_assoc.
Qed.

Lemma drop_last_app (p q : list A) n :
  length q = n → drop (length (p ++ q) - n) (p ++ q) = q.
Proof.
  intros <-. rewrite length_app, Nat.add_sub. apply drop_app_length.
Qed.

Lemma drop_last_snoc (l : list A) x n :
  drop (length (l ++ [x]) - S n) (l ++ [x]) = drop (length l - n) l ++ [x].
Proof. rewrite length_app. simpl. rewrite drop_app_le by lia. f_equal. f_equal. lia. Qed.

(** Cutting [l] to its last [n] elements keeps it a suffix of everything
    before, of length at least [n] unless nothing was cut. *)
Lemma window_suffix (p l : list A) n :
  (p = [] ∨ n ≤ length l) →
  ∃ p', p ++ l = p' ++ drop (length l - n) l ∧
        (p' = [] ∨ n ≤ length (drop (length l - n) l)).
Proof.
  intros Hp. exists (p ++ take (length l - n) l).
  split; [by rewrite <- app_assoc, take_drop |].
  destruct (decide (n ≤ length l)) as [Hn | Hn]; [right; rewrite length_drop; lia |].
  left. destruct Hp as [-> | Hp]; [| lia]. by replace (length l - n) with 0 by lia.
Qed.

(** Removing the element at a valid index removes its weight. *)
Lemma sum_list_with_delete (f : A → nat) (l : list A) i x :
  l !! i = Some x → sum_list_with f (delete i l) + f x = sum_list_with f l.
Proof.
  intros Hi. rewrite delete_take_drop.
  transitivity (sum_list_with f (take i l ++ x :: drop (S i) l));
    [rewrite !sum_list_with_app; simpl; lia | by rewrite take_drop_middle].
Qed.
(** Deleting an element in front keeps an appended one last. *)
Lemma delete_snoc_lookup (l : list A) i x :
  (i < length l)%nat → delete i (l ++ [x]) !! (length l - 1)%nat = Some x.
Proof.
  revert i. induction l as [|a l IH]; intros i Hi; simpl in *; [lia |].
  destruct i as [|i]; simpl.
  - by rewrite Nat.sub_0_r, lookup_app_r, Nat.sub_diag by lia.
  - destruct l as [|b l]; simpl in Hi; [lia |].
    specialize (IH i ltac:(simpl; lia)). simpl in IH |- *. rewrite Nat.sub_0_r in IH. exact IH.
Qed.

End ListFacts.

(** ** Progress and termination of step relations *)

(** [P] holds after finitely many [R]-steps: the [eventually] of
    coqutil's small-step combinators, for a relation. *)
Inductive eventually {S} (R : S → S → Prop) (P : S → Prop) : S → Prop :=
  | eventually_done s : P s → eventually R P s
  | eventually_step s s' : R s s' → eventually R P s' → eventually R P s.

Section Progress.
Context {S : Type} (R : S → S → Prop) (m : S → nat).

(** Liveness from a variant: if every state of [I] satisfies [P] or has a
    step into [I] that lowers [m], then [P] is eventually reached. *)
Lemma eventually_by_measure (P I : S → Prop) :
  (∀ s, I s → P s ∨ ∃ s', R s s' ∧ I s' ∧ m s' < m s) →
  ∀ s, I s → eventually R P s.
Proof.
  intros Hprog s. remember (m s) as n eqn:En. revert s En.
  induction n as [n IH] using lt_wf_ind. intros s -> Hs.
  destruct (Hprog s Hs) as [HP | (s' & HR & Hs' & Hlt)]; [by constructor |].
  eapply eventually_step; [exact HR |]. by eapply (IH (m s')).
Qed.

(** An invariant of every step holds along every run. *)
Lemma rtc_invariant (I : S → Prop) x y :
  (∀ a b, I a → R a b → I b) → I x → rtc R x y → I y.
Proof. intros Hstep Hx Hr. induction Hr; eauto. Qed.

(** Termination from a variant: a relation that lowers [m] has no
    infinite chain. *)
Lemma Acc_by_measure :
  (∀ s s', R s s' → m s' < m s) → ∀ s, Acc (λ s' s, R s s') s.
Proof.
  intros Hdec s. remember (m s) as n eqn:En. revert s En.
  induction n as [n IH] using lt_wf_ind. intros s ->.
  constructor. intros s' HR. eapply IH; [apply Hdec, HR | done].
Qed.
End Progress.

#[export] Hint Resolve drop_last_idem drop_app_tail : saathi.


(** Split [x ∈ [a; b; ...]] into one goal per element and close each by
    [tac]. *)
Ltac elem_cases H tac :=
  repeat (apply elem_of_cons in H as [->|H]; [tac |]);
  by apply elem_of_nil in H.

(** Case on every boolean comparison of integers in the goal and close
    each branch by [lia]. *)
Ltac z_cases :=
  repeat (match goal with
          | |- context [if ?b then _ else _] => destruct b eqn:?
          end; rewrite ?andb_true_iff, ?andb_false_iff, ?negb_true_iff,
                 ?negb_false_iff, ?Z.leb_le, ?Z.leb_gt, ?Z.eqb_eq, ?Z.eqb_neq in *;
          try lia).

(** Prove a decidable proposition by evaluating its decision procedure. *)
Ltac decide_by_vm := apply (bool_decide_unpack _); vm_compute; exact I.
