(* ===== verification/JsBuiltins.v ===== *)
(** * The JavaScript built-ins that server.js calls

    These are not code of the repository: they are modelled from the
    ECMAScript specification.  A JS string is its sequence of UTF-16 code
    units ([jsstring], a list of integers in [0, 65535]); [length] of the
    list is the string's [.length].  String literals of the sources are
    written with [str], which reads a Rocq ASCII literal as code units;
    non-ASCII text (Devanagari, emoji) is written as its code units. *)

From S2P Require Import Prelude.
From Stdlib Require Strings.String Strings.Ascii.
Import (notations) Stdlib.Strings.String.

Local Open Scope Z_scope.

Abbreviation jsstring := (list Z).

(** An ASCII literal as the code units of the same JS string. *)
Fixpoint str (s : String.string) : jsstring :=
  match s with
  | String.EmptyString => []
  | String.String c s => Z.of_nat (Ascii.nat_of_ascii c) :: str s
  end.

(** ** Values of a parsed JSON body and JS truthiness ([!v]) *)

Inductive JsValue :=
  | JUndefined
  | JNull
  | JBool (b : bool)
  | JNum (n : Z)
  | JStr (s : jsstring)
  | JObject.

(** [!v] is [negb (js_truthy v)]: [undefined], [null], [false], [0] and
    [""] are falsy.  JSON has no NaN; a non-integer number is truthy like
    the nonzero integers that stand for it here.  [JObject] is any array
    or object: all are truthy and none has a [trim] method. *)
Definition js_truthy (v : JsValue) : bool :=
  match v with
  | JUndefined | JNull => false
  | JBool b => b
  | JNum n => negb (n =? 0)
  | JStr s => negb (bool_decide (s = []))
  | JObject => true
  end.

(** ** [String.prototype.trim] *)

(** WhiteSpace and LineTerminator code points of ECMA-262 (all in the BMP,
    so code units and code points agree). *)
Definition is_js_whitespace (c : Z) : bool :=
  bool_decide (c ∈ [9; 10; 11; 12; 13; 32; 160; 5760; 8232; 8233; 8239;
                    8287; 12288; 65279]) || ((8192 <=? c) && (c <=? 8202)).

Fixpoint trim_start (s : jsstring) : jsstring :=
  match s with
  | [] => []
  | c :: s' => if is_js_whitespace c then trim_start s' else s
  end.

Definition js_trim (s : jsstring) : jsstring :=
  rev (trim_start (rev (trim_start s))).

(** ** [String.prototype.toLowerCase], code unit by code unit

    The simple lowercase mapping for Basic Latin, Latin-1, Greek and
    Cyrillic capitals and the Kelvin and Angstrom signs; other code units
    are returned unchanged, which is exact for Devanagari (it has no case).
    Mappings that change the length (U+0130) or depend on context (final
    sigma) are outside the model. *)
Definition js_lower_unit (c : Z) : Z :=
  if (65 <=? c) && (c <=? 90) then c + 32
  else if (192 <=? c) && (c <=? 222) && negb (c =? 215) then c + 32
  else if (913 <=? c) && (c <=? 937) && negb (c =? 930) then c + 32
  else if (1040 <=? c) && (c <=? 1071) then c + 32
  else if (1024 <=? c) && (c <=? 1039) then c + 80
  else if c =? 8490 then 107
  else if c =? 8491 then 229
  else c.

Definition js_toLowerCase (s : jsstring) : jsstring := map js_lower_unit s.

(** ** [String.prototype.includes] and [substr] *)

Fixpoint is_prefixb (p s : jsstring) : bool :=
  match p, s with
  | [], _ => true
  | _ :: _, [] => false
  | a :: p', b :: s' => (a =? b) && is_prefixb p' s'
  end.

(** [s.includes(k)]: [k] occurs in [s] at some position. *)
Fixpoint js_includes (s k : jsstring) : bool :=
  is_prefixb k s || match s with [] => false | _ :: s' => js_includes s' k end.

(** [s.substr(start, len)] for non-negative arguments. *)
Definition js_substr (s : jsstring) (start len : nat) : jsstring :=
  take len (drop start s).

(** ** [Array.prototype.slice(start)] with an integer [start] *)
Definition js_slice {A} (start : Z) (l : list A) : list A :=
  let len := Z.of_nat (length l) in
  let k := if start <? 0 then Z.max (len + start) 0 else Z.min start len in
  drop (Z.to_nat k) l.

(** ** [Number.prototype.toString(36)] on non-negative integers *)

Definition digit36 (d : Z) : Z := if d <? 10 then 48 + d else 87 + d.

Definition undigit36 (c : Z) : Z := if c <? 97 then c - 48 else c - 87.

(** Most significant digit first; the fuel bounds the number of digits. *)
Fixpoint digits36 (fuel : nat) (n : Z) : jsstring :=
  match fuel with
  | O => []
  | S f => if n <? 36 then [digit36 n] else digits36 f (n / 36) ++ [digit36 (n mod 36)]
  end.

(** [log2 n + 1] digits of base 2 are enough for base 36. *)
Definition js_toString36 (n : Z) : jsstring :=
  digits36 (S (Z.to_nat (Z.log2 n))) n.

Definition parse36 (s : jsstring) : Z :=
  fold_left (fun acc c => acc * 36 + undigit36 c) s 0.

(** ** Laws of the built-ins *)

Lemma is_prefixb_spec (p s : jsstring) : is_prefixb p s = true ↔ p `prefix_of` s.
Proof.
  revert s. induction p as [|a p IH]; intros [|b s]; simpl.
  - split; [intros _; apply prefix_nil | done].
  - split; [intros _; apply prefix_nil | done].
  - split; [done | intros [k Hk]; discriminate].
  - rewrite andb_true_iff, Z.eqb_eq, IH. split.
    + intros [-> Hp]. by apply prefix_cons.
    + intros Hp. pose proof (prefix_cons_inv_1 _ _ _ _ Hp).
      subst. split; [done | by eapply prefix_cons_inv_2].
Qed.

(** [includes] decides the infix relation. *)
Lemma js_includes_spec (s k : jsstring) : js_includes s k = true ↔ k `infix_of` s.
Proof.
  induction s as [|b s IH]; simpl; rewrite orb_true_iff, is_prefixb_spec.
  - split; [intros [Hp|Hf]; [by apply prefix_infix_of | discriminate] |].
    intros Hi. left. apply infix_of_nil_inv in Hi. subst. apply prefix_nil.
  - rewrite IH. split.
    + intros [Hp|Hi]; [by apply prefix_infix_of | by apply infix_of_cons].
    + intros [l1 [l2 Hs]]. destruct l1 as [|c l1]; simpl in Hs.
      * left. rewrite Hs. by exists l2.
      * right. injection Hs as _ Hs. by exists l1, l2.
Qed.

Lemma trim_start_nil_iff (s : jsstring) :
  trim_start s = [] ↔ Forall (λ c, is_js_whitespace c = true) s.
Proof.
  induction s as [|c s IH]; simpl; [split; auto |].
  rewrite Forall_cons. destruct (is_js_whitespace c) eqn:E.
  - rewrite IH. naive_solver.
  - split; [discriminate | intros [? _]; discriminate].
Qed.

Lemma trim_start_snoc_ne (l : jsstring) c :
  is_js_whitespace c = false → trim_start (l ++ [c]) ≠ [].
Proof.
  intros Hc. induction l as [|a l IH]; simpl; [by rewrite Hc |].
  destruct (is_js_whitespace a); [done | discriminate].
Qed.

Lemma trim_start_head (s : jsstring) c t :
  trim_start s = c :: t → is_js_whitespace c = false.
Proof.
  induction s as [|a s IH]; simpl; [discriminate |].
  destruct (is_js_whitespace a) eqn:Ea; [auto | congruence].
Qed.

(** [s.trim().length === 0] exactly when every code unit is white space. *)
Lemma js_trim_empty_iff (s : jsstring) :
  length (js_trim s) = 0%nat ↔ Forall (λ c, is_js_whitespace c = true) s.
Proof.
  unfold js_trim. rewrite length_rev, length_zero_iff_nil, <- trim_start_nil_iff.
  split; [| intros ->; done].
  destruct (trim_start s) as [|c t] eqn:E; [done |]. simpl.
  apply trim_start_head in E. intros Hnil. by apply trim_start_snoc_ne in Hnil.
Qed.

(** A non-empty trimmed string is not blank: it ends with a unit that is
    not white space. *)
Lemma js_trim_not_blank (s : jsstring) :
  js_trim s ≠ [] → ¬ Forall (λ c, is_js_whitespace c = true) (js_trim s).
Proof.
  unfold js_trim. destruct (trim_start (rev (trim_start s))) as [|c t] eqn:E; [done |].
  intros _ Hall. apply trim_start_head in E. cbn [rev] in Hall.
  apply Forall_app in Hall as [_ Hc]. apply Forall_inv in Hc. congruence.
Qed.

(** Lowercasing a lowercased unit changes nothing. *)
Lemma js_lower_unit_idem c : js_lower_unit (js_lower_unit c) = js_lower_unit c.
Proof.
  unfold js_lower_unit. z_cases.
Qed.

Lemma js_toLowerCase_idem s : js_toLowerCase (js_toLowerCase s) = js_toLowerCase s.
Proof.
  unfold js_toLowerCase. rewrite map_map. apply map_ext, js_lower_unit_idem.
Qed.

Lemma js_toLowerCase_app s t :
  js_toLowerCase (s ++ t) = js_toLowerCase s ++ js_toLowerCase t.
Proof. apply map_app. Qed.

(** [slice(-n)] keeps the last [n] elements, for [n > 0] (a negative
    literal [-p] is [Z.neg p]). *)
Lemma js_slice_neg {A} (l : list A) (p : positive) :
  js_slice (Z.neg p) l = drop (length l - Pos.to_nat p) l.
Proof.
  unfold js_slice. replace (Z.neg p <? 0) with true by reflexivity.
  f_equal. lia.
Qed.

(** ** The base-36 round trip *)

(** [s.slice(-n)] of a string ending in [n] known units gives them. *)
Lemma js_slice_last {A} (p q : list A) (n : positive) :
  length q = Pos.to_nat n → js_slice (Z.neg n) (p ++ q) = q.
Proof. intros Hq. rewrite js_slice_neg. by apply drop_last_app. Qed.

Lemma parse36_snoc s c : parse36 (s ++ [c]) = parse36 s * 36 + undigit36 c.
Proof. unfold parse36. by rewrite fold_left_app. Qed.

Lemma undigit36_digit36 d : 0 <= d < 36 → undigit36 (digit36 d) = d.
Proof.
  intros Hd. unfold digit36, undigit36.
  destruct (d <? 10) eqn:E; [apply Z.ltb_lt in E | apply Z.ltb_ge in E].
  - replace (48 + d <? 97) with true by (symmetry; apply Z.ltb_lt; lia). lia.
  - replace (87 + d <? 97) with false by (symmetry; apply Z.ltb_ge; lia). lia.
Qed.

Lemma digits36_correct fuel n :
  0 <= n < 36 ^ Z.of_nat fuel → parse36 (digits36 fuel n) = n.
Proof.
  revert n. induction fuel as [|f IH]; intros n Hn; simpl.
  - simpl in Hn. unfold parse36. simpl. lia.
  - destruct (n <? 36) eqn:E.
    + apply Z.ltb_lt in E. unfold parse36. simpl. apply undigit36_digit36. lia.
    + apply Z.ltb_ge in E. rewrite parse36_snoc, IH, undigit36_digit36.
      * pose proof (Z.div_mod n 36). lia.
      * apply Z.mod_pos_bound. lia.
      * rewrite Nat2Z.inj_succ, Z.pow_succ_r in Hn by lia.
        split; [apply Z.div_pos; lia | apply Z.div_lt_upper_bound; lia].
Qed.

Lemma log2_digits_enough n : 0 <= n → n < 36 ^ Z.of_nat (S (Z.to_nat (Z.log2 n))).
Proof.
  intros Hn. rewrite Nat2Z.inj_succ, Z2Nat.id by apply Z.log2_nonneg.
  destruct (Z.eq_dec n 0) as [->|Hne]; [simpl; lia |].
  pose proof (Z.log2_spec n ltac:(lia)) as [_ Hlt].
  eapply Z.lt_le_trans; [exact Hlt |].
  rewrite <- Z.add_1_r. apply Z.pow_le_mono_l. lia.
Qed.

(** Reading back [n.toString(36)] gives [n]. *)
Lemma parse36_toString36 n : 0 <= n → parse36 (js_toString36 n) = n.
Proof.
  intros Hn. apply digits36_correct. split; [lia | by apply log2_digits_enough].
Qed.

(** ** [Date.prototype.toISOString] (ECMA-262 21.4.4.36)

    A time value [t] in milliseconds since the epoch, printed as
    [YYYY-MM-DDTHH:mm:ss.sssZ], with a signed six-digit year outside
    0..9999.  Time values beyond 8.64e15 ms are invalid and make it throw
    a RangeError ([None]).  The calendar date of a day number is the
    proleptic Gregorian one, computed by era arithmetic. *)

(** [n >= 0] written with exactly [width] digits, zero-padded. *)
Fixpoint decimal (width : nat) (n : Z) : jsstring :=
  match width with
  | O => []
  | S w => decimal w (n / 10) ++ [48 + n mod 10]
  end.

(** Year, month (1-12) and day (1-31) of day [z0] counted from 1970-01-01. *)
Definition civil_from_days (z0 : Z) : Z * Z * Z :=
  let z := z0 + 719468 in
  let era := z / 146097 in
  let doe := z - era * 146097 in
  let yoe := (doe - doe / 1460 + doe / 36524 - doe / 146096) / 365 in
  let doy := doe - (365 * yoe + yoe / 4 - yoe / 100) in
  let mp := (5 * doy + 2) / 153 in
  let d := doy - (153 * mp + 2) / 5 + 1 in
  let m := if mp <? 10 then mp + 3 else mp - 9 in
  (yoe + era * 400 + (if m <=? 2 then 1 else 0), m, d).

Definition js_toISOString (t : Z) : option jsstring :=
  if 8640000000000000 <? Z.abs t then None else
  let ms := t mod 86400000 in
  let '(y, m, d) := civil_from_days (t / 86400000) in
  let year := if (0 <=? y) && (y <=? 9999) then decimal 4 y
              else (if y <? 0 then str "-" else str "+") ++ decimal 6 (Z.abs y) in
  Some (year ++ str "-" ++ decimal 2 m ++ str "-" ++ decimal 2 d ++ str "T" ++
        decimal 2 (ms / 3600000) ++ str ":" ++ decimal 2 (ms / 60000 mod 60) ++ str ":" ++
        decimal 2 (ms / 1000 mod 60) ++ str "." ++ decimal 3 (ms mod 1000) ++ str "Z").

(** The printer on the epoch, a date of 2023, a leap day and a date
    before the epoch. *)
Lemma js_toISOString_examples :
  js_toISOString 0 = Some (str "1970-01-01T00:00:00.000Z") ∧
  js_toISOString 1700000000000 = Some (str "2023-11-14T22:13:20.000Z") ∧
  js_toISOString 951782400123 = Some (str "2000-02-29T00:00:00.123Z") ∧
  js_toISOString (-1) = Some (str "1969-12-31T23:59:59.999Z").
Proof. vm_compute. repeat split. Qed.
