(* ===== verification/Crisis.v ===== *)
(** * The crisis lexicon matcher (server.js lines 27-32, 105-145)

    [crisisKeywords] is the source's list, Devanagari keywords written as
    their UTF-16 code units; [containsCrisisKeywords] lowercases the
    message and every keyword and asks whether some keyword occurs in the
    message; [getCrisisResources] is the static payload attached to flagged
    replies.  The theorems characterise the matcher (some keyword is an
    infix of the lowercased message), show it is insensitive to case and
    monotone under extension of the message, bound the length of a flagged
    message from below, and evaluate it on the spec's examples and on the
    inputs where the code disagrees with the spec's intent. *)

From S2P Require Import Prelude JsBuiltins.
From Stdlib Require Strings.String.
Import (notations) Stdlib.Strings.String.

Local Open Scope Z_scope.

Module Crisis.

(** [const crisisKeywords = [...]] *)
Definition crisisKeywords : list jsstring :=
  [ str "suicide"; str "kill myself"; str "end it all"; str "hurt myself";
    str "self harm"; str "want to die"; str "no point living";
    str "better off dead";
    (* मरना चाहता *)
    [0x092E; 0x0930; 0x0928; 0x093E; 0x0020; 0x091A; 0x093E; 0x0939; 0x0924; 0x093E];
    (* आत्महत्या *)
    [0x0906; 0x0924; 0x094D; 0x092E; 0x0939; 0x0924; 0x094D; 0x092F; 0x093E];
    (* जीना नही चाहता *)
    [0x091C; 0x0940; 0x0928; 0x093E; 0x0020; 0x0928; 0x0939; 0x0940; 0x0020;
     0x091A; 0x093E; 0x0939; 0x0924; 0x093E];
    (* मौत चाहिए *)
    [0x092E; 0x094C; 0x0924; 0x0020; 0x091A; 0x093E; 0x0939; 0x093F; 0x090F] ].

(** [containsCrisisKeywords(message)]: [crisisKeywords.some(keyword =>
    lowerMessage.includes(keyword.toLowerCase()))]. *)
Definition containsCrisisKeywords (message : jsstring) : bool :=
  let lowerMessage := js_toLowerCase message in
  existsb (λ keyword, js_includes lowerMessage (js_toLowerCase keyword))
    crisisKeywords.

(** One helpline record of the payload. *)
Record CrisisResource := {
  name : jsstring;
  phone : jsstring;
  description : jsstring;
  availability : jsstring
}.

(** The object returned by [getCrisisResources()]. *)
Record CrisisInfo := {
  isEmergency : bool;
  resources : list CrisisResource;
  message : jsstring
}.

Definition getCrisisResources : CrisisInfo := {|
  isEmergency := true;
  resources := [
    {| name := str "Vandrevala Foundation"; phone := str "+91-9999-666-555";
       description := str "24/7 Free Crisis Helpline"; availability := str "24/7" |};
    {| name := str "AASRA"; phone := str "+91-22-2754-6669";
       description := str "Suicide Prevention Helpline"; availability := str "24/7" |};
    {| name := str "Sneha India"; phone := str "+91-44-2464-0050";
       description := str "Emotional Support Helpline"; availability := str "24/7" |};
    {| name := str "iCall"; phone := str "+91-9152-987-821";
       description := str "Psychosocial Helpline";
       availability := str "Mon-Sat 8AM-10PM" |} ];
  (* U+1F6A8 and U+1F499 are surrogate pairs *)
  message := [0xD83D; 0xDEA8] ++
    str " I'm concerned about you. Please reach out to one of these helplines or talk to someone you trust - a family member, friend, teacher, or counselor. You're not alone, and your life matters. "
    ++ [0xD83D; 0xDC99]
|}.

(** ASCII uppercasing, to state case insensitivity (not code of the
    repository: a test transformation of the input). *)
Definition ascii_upper_unit (c : Z) : Z :=
  if (97 <=? c) && (c <=? 122) then c - 32 else c.

(** ** Facts about the lexicon *)

(** Every keyword is already lowercase: [keyword.toLowerCase()] is the
    keyword itself. *)
Lemma crisisKeywords_lower_in k : k ∈ crisisKeywords → js_toLowerCase k = k.
Proof. intros Hk. elem_cases Hk ltac:(vm_compute; reflexivity). Qed.

Lemma crisisKeywords_min_length k : k ∈ crisisKeywords → (7 ≤ length k)%nat.
Proof. intros Hk. elem_cases Hk ltac:(simpl; lia). Qed.

Lemma lower_upper_unit c : js_lower_unit (ascii_upper_unit c) = js_lower_unit c.
Proof.
  unfold ascii_upper_unit.
  destruct ((97 <=? c) && (c <=? 122)) eqn:E; [| reflexivity].
  apply andb_true_iff in E as [E1 E2]. apply Z.leb_le in E1, E2.
  unfold js_lower_unit. z_cases.
Qed.

Lemma includes_lower_keyword m k :
  k ∈ crisisKeywords →
  js_includes (js_toLowerCase m) (js_toLowerCase k) = true ↔
  k `infix_of` js_toLowerCase m.
Proof. intros Hk. by rewrite js_includes_spec, crisisKeywords_lower_in. Qed.

(** ** The matcher *)

(** The matcher as an [Exists] over the lexicon. *)
Lemma containsCrisisKeywords_Exists m :
  containsCrisisKeywords m = true ↔
  Exists (λ k, k `infix_of` js_toLowerCase m) crisisKeywords.
Proof.
  unfold containsCrisisKeywords. rewrite existsb_exists, Exists_exists. split.
  - intros [k [Hin Hk]]. apply list_elem_of_In in Hin.
    exists k. split; [done |]. by apply includes_lower_keyword.
  - intros [k [Hin Hk]]. exists k. rewrite <- list_elem_of_In.
    split; [done |]. by apply includes_lower_keyword.
Qed.

(** C1. The message is flagged exactly when some keyword occurs, as a
    contiguous run of code units, in the lowercased message. *)
Theorem containsCrisisKeywords_spec m :
  containsCrisisKeywords m = true ↔
  ∃ k, k ∈ crisisKeywords ∧ k `infix_of` js_toLowerCase m.
Proof. by rewrite containsCrisisKeywords_Exists, Exists_exists. Qed.

(** A message in which some case variant of a keyword occurs anywhere,
    even inside another word, is flagged. *)
Theorem containsCrisisKeywords_occurrence k w p q :
  k ∈ crisisKeywords → js_toLowerCase w = k →
  containsCrisisKeywords (p ++ w ++ q) = true.
Proof.
  intros Hk Hw. apply containsCrisisKeywords_Exists, Exists_exists. exists k. split; [done |].
  rewrite !js_toLowerCase_app, Hw. by exists (js_toLowerCase p), (js_toLowerCase q).
Qed.

(** Flagging does not depend on the case of ASCII letters. *)
Theorem containsCrisisKeywords_upper m :
  containsCrisisKeywords (map ascii_upper_unit m) = containsCrisisKeywords m.
Proof.
  unfold containsCrisisKeywords, js_toLowerCase. rewrite map_map.
  by rewrite (map_ext _ _ lower_upper_unit).
Qed.

(** Extending a flagged message on either side keeps it flagged. *)
Theorem containsCrisisKeywords_extend m p q :
  containsCrisisKeywords m = true → containsCrisisKeywords (p ++ m ++ q) = true.
Proof.
  rewrite !containsCrisisKeywords_Exists, !Exists_exists. intros [k [Hin Hk]].
  exists k. split; [done |]. rewrite !js_toLowerCase_app. by apply infix_of_app.
Qed.

(** C2. A message shorter than seven code units is never flagged; in
    particular the empty message is not. *)
Theorem containsCrisisKeywords_short m :
  (length m < 7)%nat → containsCrisisKeywords m = false.
Proof.
  intros Hlen. apply not_true_iff_false. rewrite containsCrisisKeywords_Exists, Exists_exists.
  intros [k [Hin [a [b Hab]]]].
  apply crisisKeywords_min_length in Hin.
  apply (f_equal length) in Hab. unfold js_toLowerCase in Hab.
  rewrite length_map, !length_app in Hab. lia.
Qed.

(** ** The matcher on concrete messages *)

(** The spec's examples: "I want to die" is flagged, also in capitals,
    and "I want pizza" is not; a benign mention of a keyword is flagged too
    (the accepted over-trigger policy). *)
Theorem containsCrisisKeywords_spec_examples :
  containsCrisisKeywords (str "I want to die") = true ∧
  containsCrisisKeywords (str "I WANT TO DIE") = true ∧
  containsCrisisKeywords (str "I want pizza") = false ∧
  containsCrisisKeywords (str "We read an article on suicide prevention") = true.
Proof. vm_compute. repeat split. Qed.

(** The lexicon misses common phrasings of the same intent.  The
    romanised Hindi message of the spec's end-to-end example, "mujhe marna
    hai", contains no keyword.  The Devanagari keywords are gendered and
    spelled one way: the masculine "मैं मरना चाहता हूँ" is flagged, but the
    feminine "मैं मरना चाहती हूँ" and the standard spelling "मैं जीना नहीं
    चाहता" (with anusvara) are not.  Of the English phrasings, "I feel
    suicidal" and "self-harm" with a hyphen are missed while "I want to
    kill myself" is flagged. *)
Theorem containsCrisisKeywords_misses :
  containsCrisisKeywords (str "mujhe marna hai") = false ∧
  containsCrisisKeywords
    [0x092E; 0x0948; 0x0902; 0x0020; 0x092E; 0x0930; 0x0928; 0x093E; 0x0020;
     0x091A; 0x093E; 0x0939; 0x0924; 0x093E; 0x0020; 0x0939; 0x0942; 0x0901] = true ∧
  containsCrisisKeywords
    [0x092E; 0x0948; 0x0902; 0x0020; 0x092E; 0x0930; 0x0928; 0x093E; 0x0020;
     0x091A; 0x093E; 0x0939; 0x0924; 0x0940; 0x0020; 0x0939; 0x0942; 0x0901] = false ∧
  containsCrisisKeywords
    [0x092E; 0x0948; 0x0902; 0x0020; 0x091C; 0x0940; 0x0928; 0x093E; 0x0020;
     0x0928; 0x0939; 0x0940; 0x0902; 0x0020; 0x091A; 0x093E; 0x0939; 0x0924;
     0x093E] = false ∧
  containsCrisisKeywords (str "I feel suicidal") = false ∧
  containsCrisisKeywords (str "thinking about self-harm") = false ∧
  containsCrisisKeywords (str "I want to kill myself") = true.
Proof. vm_compute. repeat split. Qed.

(** ** Witnesses *)

Lemma containsCrisisKeywords_occurrence_witness :
  containsCrisisKeywords (str "I read " ++ str "SuIcIdE" ++ str " notes") = true.
Proof.
  apply (containsCrisisKeywords_occurrence (str "suicide")); [decide_by_vm |].
  vm_compute. reflexivity.
Defined.

Lemma containsCrisisKeywords_extend_witness :
  containsCrisisKeywords (str "Honestly " ++ str "I want to die" ++ str " today") = true.
Proof. apply containsCrisisKeywords_extend. vm_compute. reflexivity. Defined.

Lemma containsCrisisKeywords_short_witness : containsCrisisKeywords (str "die") = false.
Proof. apply containsCrisisKeywords_short. simpl. lia. Defined.

End Crisis.
