(* ===== verification/SessionId.v ===== *)
(** * Session identifiers: [generateSessionId] (server.js lines 150-153)

    [generateSessionId()] concatenates ["session_"], nine characters of
    [Math.random().toString(36)] after its ["0."] and [Date.now()] in base
    36.  The two sources of the id are the arguments here: [random] is the
    string [Math.random().toString(36)] and [now] the clock in
    milliseconds.  The theorems show that for clock values with eight
    base-36 digits (from 1972 to 2059) an id determines its random part
    and its time, and that across eras two different pairs can give the
    same id, since the random part has no fixed length. *)

From S2P Require Import Prelude JsBuiltins.
From Stdlib Require Strings.String.
Import (notations) Stdlib.Strings.String.

Local Open Scope Z_scope.

Module SessionId.

Definition generateSessionId (random : jsstring) (now : Z) : jsstring :=
  str "session_" ++ js_substr random 2 9 ++ js_toString36 now.

(** The number of base-36 digits of [n] is [k + 1] when
    [36^k <= n < 36^(k+1)], provided the fuel covers them. *)
Lemma length_digits36 fuel k n :
  36 ^ Z.of_nat k <= n < 36 ^ Z.of_nat (S k) → (k < fuel)%nat →
  length (digits36 fuel n) = S k.
Proof.
  revert k n. induction fuel as [|f IH]; intros k n Hn Hf; [lia |]. simpl.
  rewrite Nat2Z.inj_succ, Z.pow_succ_r in Hn by lia.
  destruct (n <? 36) eqn:E; [apply Z.ltb_lt in E | apply Z.ltb_ge in E].
  - destruct k as [|k]; [done |].
    rewrite Nat2Z.inj_succ, Z.pow_succ_r in Hn by lia.
    pose proof (Z.pow_pos_nonneg 36 (Z.of_nat k)). lia.
  - destruct k as [|k]; [simpl in Hn; lia |].
    rewrite length_app, (IH k); [simpl; lia | | lia].
    rewrite Nat2Z.inj_succ, Z.pow_succ_r in Hn by lia.
    rewrite Nat2Z.inj_succ, Z.pow_succ_r by lia.
    split; [apply Z.div_le_lower_bound | apply Z.div_lt_upper_bound]; lia.
Qed.

Lemma length_toString36 k n :
  36 ^ Z.of_nat k <= n < 36 ^ Z.of_nat (S k) → length (js_toString36 n) = S k.
Proof.
  intros Hn. apply length_digits36; [done |].
  destruct (Nat.lt_ge_cases k (S (Z.to_nat (Z.log2 n)))) as [|Hge]; [done |].
  exfalso. pose proof (log2_digits_enough n ltac:(lia)) as Hlt.
  assert (36 ^ Z.of_nat (S (Z.to_nat (Z.log2 n))) <= 36 ^ Z.of_nat k).
  { apply Z.pow_le_mono_r; lia. }
  lia.
Qed.

(** C34. Between 1972 and 2059 ([36^7 <= now < 36^8] milliseconds) the clock
    has eight base-36 digits, and an id determines both the nine-character
    random part and the clock value that produced it. *)
Theorem generateSessionId_injective_era r1 r2 t1 t2 :
  36 ^ 7 <= t1 < 36 ^ 8 → 36 ^ 7 <= t2 < 36 ^ 8 →
  generateSessionId r1 t1 = generateSessionId r2 t2 →
  js_substr r1 2 9 = js_substr r2 2 9 ∧ t1 = t2.
Proof.
  intros H1 H2 Heq. unfold generateSessionId in Heq.
  apply app_inv_head in Heq.
  apply app_inj_2 in Heq as [Hr Ht];
    [| by rewrite (length_toString36 7 t1), (length_toString36 7 t2)].
  split; [done |].
  rewrite <- (parse36_toString36 t1), <- (parse36_toString36 t2) by lia.
  by rewrite Ht.
Qed.

Lemma generateSessionId_injective_era_witness :
  (36 ^ 7 <= 1700000000000 < 36 ^ 8) ∧
  js_substr (str "0.k3j9x2m1qz") 2 9 = js_substr (str "0.k3j9x2m1qz") 2 9 ∧
  1700000000000 = 1700000000000.
Proof.
  split; [lia |].
  apply (generateSessionId_injective_era _ _ 1700000000000 1700000000000); [lia | lia |].
  reflexivity.
Defined.

(** Outside one era the decomposition is ambiguous: a shorter random
    part with a longer clock value gives the same id as a longer random
    part with a shorter one, so ids are not unique. *)
Theorem generateSessionId_collision :
  generateSessionId (str "0.ab") 35 = generateSessionId (str "0.a") 431 ∧
  js_substr (str "0.ab") 2 9 ≠ js_substr (str "0.a") 2 9.
Proof. vm_compute. split; [reflexivity | discriminate]. Qed.

End SessionId.
