(* ===== verification/Store.v ===== *)
(** * The session store (server.js lines 147-148, 166-182, 197-207,
      240-243, 263-285, 329-339)

    The module-level [sessions] Map holds session objects, and the chat
    handler keeps a reference to its session object across its [await]; a
    sweep or a restart of the same id can remove or replace the Map entry
    while the handler still writes into the old object.  The store is
    therefore modelled as a Map from ids to locations ([sessions]) and a
    heap from locations to session objects ([heap]), with the next free
    location.  Operations: [sessions_set] ([sessions.set] of a new object),
    [modify] (a field update through a reference), [getOrCreate] (lines
    197-207), [startSession] (the start route), [getHistory] (the history
    route), [sweep] (the hourly interval callback, as a filter, and
    [sweepLoop], the same callback as the source's loop, proved equal) and
    [trimMessages] (the 20-message window).  Well-formedness [wf]: every entry points to an
    allocated object whose [id] is the entry's key, and every allocated
    location is below [next_loc]. *)

From S2P Require Import Prelude JsBuiltins Crisis SessionId.
From Stdlib Require Strings.String.
Import (notations) Stdlib.Strings.String.
Import Crisis SessionId.

Local Open Scope Z_scope.

Module Store.

(** A stored message: [{role: 'user', content, timestamp}] (line 213) or
    [{role: 'assistant', content, timestamp, crisis}] (line 232). *)
Inductive ChatMessage :=
  | UserMessage (content : jsstring) (timestamp : Z)
  | AiMessage (content : jsstring) (timestamp : Z) (crisis : option CrisisInfo).

Definition msg_content (m : ChatMessage) : jsstring :=
  match m with UserMessage c _ | AiMessage c _ _ => c end.

(** [msg.role === 'user'] *)
Definition is_user (m : ChatMessage) : bool :=
  match m with UserMessage _ _ => true | AiMessage _ _ _ => false end.

(** A session object [{id, messages, createdAt, lastActivity}]; dates are
    milliseconds since the epoch. *)
Record Session := mkSession {
  id : jsstring;
  messages : list ChatMessage;
  createdAt : Z;
  lastActivity : Z
}.

Abbreviation loc := positive.

(** [const sessions = new Map()] and the heap of session objects. *)
Record Store := mkStore {
  sessions : gmap jsstring loc;
  heap : gmap loc Session;
  next_loc : loc
}.

Definition emptyStore : Store := mkStore ∅ ∅ 1.

(** The object literal of lines 170-175 and 200-205: both dates are read
    from one clock value. *)
Definition newSession (sessionId : jsstring) (now : Z) : Session :=
  mkSession sessionId [] now now.

(** [sessions.set(k, obj)] for a freshly allocated [obj]. *)
Definition sessions_set (k : jsstring) (obj : Session) (st : Store) : Store * loc :=
  let l := next_loc st in
  (mkStore (<[k := l]> (sessions st)) (<[l := obj]> (heap st)) (Pos.succ l), l).

(** An assignment through a reference to the object at [l]. *)
Definition modify (l : loc) (f : Session → Session) (st : Store) : Store :=
  mkStore (sessions st) (alter f l (heap st)) (next_loc st).

Definition setLastActivity (now : Z) (s : Session) : Session :=
  mkSession (id s) (messages s) (createdAt s) now.

(** [session.messages.push(m)] *)
Definition pushMessage (m : ChatMessage) (s : Session) : Session :=
  mkSession (id s) (messages s ++ [m]) (createdAt s) (lastActivity s).

(** Lines 240-243: [if (session.messages.length > 20)
    session.messages = session.messages.slice(-20)]. *)
Definition trimMessages (ms : list ChatMessage) : list ChatMessage :=
  if (20 <? length ms)%nat then js_slice (-20) ms else ms.

Definition trimSession (s : Session) : Session :=
  mkSession (id s) (trimMessages (messages s)) (createdAt s) (lastActivity s).

(** Lines 197-207: [let session = sessions.get(sessionId); if (!session)
    { session = {...}; sessions.set(sessionId, session) }]. *)
Definition getOrCreate (sessionId : jsstring) (now : Z) (st : Store) : loc * Store :=
  match sessions st !! sessionId with
  | Some l => (l, st)
  | None => let '(st', l) := sessions_set sessionId (newSession sessionId now) st in (l, st')
  end.

(** The body of [POST /api/session/start]. *)
Record StartResponse := {
  start_success : bool;
  start_sessionId : jsstring;
  start_message : jsstring
}.

Definition startSession (random : jsstring) (now : Z) (st : Store) : StartResponse * Store :=
  let sessionId := generateSessionId random now in
  let '(st', _) := sessions_set sessionId (newSession sessionId now) st in
  ({| start_success := true; start_sessionId := sessionId;
      start_message := str "Session started successfully" |}, st').

(** [GET /api/session/:sessionId/history]: 404 or the messages and the
    session info. *)
Inductive HistoryResponse :=
  | HistoryNotFound
  | HistoryOk (msgs : list ChatMessage) (sid : jsstring) (created last : Z)
      (messageCount : nat).

Definition getHistory (sessionId : jsstring) (st : Store) : HistoryResponse :=
  match sessions st !! sessionId ≫= λ l, heap st !! l with
  | None => HistoryNotFound
  | Some s => HistoryOk (messages s) (id s) (createdAt s) (lastActivity s)
                (length (messages s))
  end.

(** The sweep (lines 330-339): delete every entry whose session has
    [lastActivity < now - 60 * 60 * 1000]. *)
Definition isStale (now : Z) (s : Session) : bool :=
  lastActivity s <? now - 60 * 60 * 1000.

Definition keepEntry (now : Z) (st : Store) (l : loc) : bool :=
  match heap st !! l with Some s => negb (isStale now s) | None => true end.

Definition sweep (now : Z) (st : Store) : Store :=
  mkStore (filter (λ kl : jsstring * loc, keepEntry now st kl.2 = true) (sessions st))
    (heap st) (next_loc st).

(** The interval callback as written (lines 334-338): a [for ... of] over
    [sessions.entries()] that deletes the current entry when it is stale.
    Deleting the entry being visited does not change the entries still to
    come, so iterating over the entries as they were at the start is the
    same loop. *)
Definition sweepStep (now : Z) (st : Store) (acc : gmap jsstring loc)
    (kl : jsstring * loc) : gmap jsstring loc :=
  if keepEntry now st kl.2 then acc else delete kl.1 acc.

Definition sweepLoop (now : Z) (st : Store) : Store :=
  mkStore (foldl (sweepStep now st) (sessions st) (map_to_list (sessions st)))
    (heap st) (next_loc st).

(** ** Well-formedness *)

Definition wf (st : Store) : Prop :=
  (∀ k l, sessions st !! k = Some l → ∃ s, heap st !! l = Some s ∧ id s = k) ∧
  (∀ l, is_Some (heap st !! l) → (l < next_loc st)%positive).

(** The object the Map holds under [k], and the object [getOrCreate]
    resolves [k] to. *)
Definition lookupSession (k : jsstring) (st : Store) : option Session :=
  sessions st !! k ≫= λ l, heap st !! l.

Definition resolve (k : jsstring) (now : Z) (st : Store) : Session :=
  default (newSession k now) (lookupSession k st).

(** ** The window policy *)

(** The window keeps the last [min 20 n] messages. *)
Lemma trimMessages_drop ms : trimMessages ms = drop (length ms - 20) ms.
Proof.
  unfold trimMessages. destruct (20 <? length ms)%nat eqn:E.
  - by rewrite js_slice_neg.
  - apply Nat.ltb_ge in E. by rewrite drop_last_idem.
Qed.

(** C7. The window never holds more than 20 messages, keeps exactly the
    last [min 20 n] of them in their original order, and leaves a list of
    at most 20 messages unchanged. *)
Theorem trimMessages_spec ms :
  length (trimMessages ms) = Nat.min 20 (length ms) ∧
  (∃ p, ms = p ++ trimMessages ms) ∧
  ((length ms ≤ 20)%nat → trimMessages ms = ms).
Proof.
  rewrite trimMessages_drop. split; [apply drop_last_length |]. split.
  - apply drop_is_suffix.
  - apply drop_last_idem.
Qed.

Lemma trimMessages_idem ms : trimMessages (trimMessages ms) = trimMessages ms.
Proof. rewrite !trimMessages_drop. by apply drop_drop_last. Qed.

(** ** Well-formedness of the store operations *)

Lemma wf_emptyStore : wf emptyStore.
Proof. split; intros *; rewrite ?lookup_empty; [discriminate | by intros []]. Qed.

Lemma wf_fresh st : wf st → heap st !! next_loc st = None.
Proof.
  intros [_ Hfresh]. destruct (heap st !! next_loc st) eqn:E; [| done].
  exfalso. specialize (Hfresh (next_loc st) ltac:(by eexists)). lia.
Qed.

Lemma sessions_set_wf k obj st :
  wf st → id obj = k → wf (sessions_set k obj st).1.
Proof.
  intros [Hent Hfresh] Hid. split; simpl.
  - intros k' l'. rewrite lookup_insert. case_decide as Hk; [intros [= <-]; subst |].
    + exists obj. by rewrite lookup_insert_eq.
    + intros Hl'. destruct (Hent _ _ Hl') as (s' & Hs' & Hid').
      exists s'. rewrite lookup_insert_ne; [done |].
      intros Heq. rewrite <- Heq in Hs'. specialize (Hfresh _ ltac:(by eexists)). lia.
  - intros l. rewrite lookup_insert. case_decide; [lia |].
    intros Hl. specialize (Hfresh _ Hl). lia.
Qed.

Lemma modify_wf l f st : wf st → (∀ s, id (f s) = id s) → wf (modify l f st).
Proof.
  intros [Hent Hfresh] Hf. split; simpl.
  - intros k l' Hl'. destruct (Hent _ _ Hl') as (s & Hs & Hid).
    rewrite lookup_alter. case_decide; subst; [| by exists s].
    rewrite Hs. exists (f s). by rewrite Hf.
  - intros l'. rewrite lookup_alter. intros Hl'. apply Hfresh.
    case_decide; subst; [| done]. destruct (heap st !! l'); [done |].
    by destruct Hl'.
Qed.

Lemma getOrCreate_wf k now st : wf st → wf (getOrCreate k now st).2.
Proof.
  intros Hwf. unfold getOrCreate. destruct (sessions st !! k); [done |].
  by apply sessions_set_wf.
Qed.

Lemma sweep_wf now st : wf st → wf (sweep now st).
Proof.
  intros [Hent Hfresh]. split; [| done]. simpl.
  intros k l [Hl _]%map_lookup_filter_Some. by apply Hent.
Qed.

#[export] Hint Resolve sessions_set_wf modify_wf getOrCreate_wf sweep_wf
  wf_emptyStore : saathi.

(** ** getOrCreate *)

Lemma getOrCreate_found k now st l :
  sessions st !! k = Some l → getOrCreate k now st = (l, st).
Proof. unfold getOrCreate. by intros ->. Qed.

(** Auto-creation: an unknown id gets a fresh, empty session object under
    exactly that id, and no other entry or object changes. *)
Theorem getOrCreate_new k now st :
  wf st → sessions st !! k = None →
  let '(l, st') := getOrCreate k now st in
  sessions st' !! k = Some l ∧ heap st' !! l = Some (newSession k now) ∧
  heap st !! l = None ∧
  (∀ k', k' ≠ k → sessions st' !! k' = sessions st !! k') ∧
  (∀ l', l' ≠ l → heap st' !! l' = heap st !! l').
Proof.
  intros Hwf Hk. unfold getOrCreate. rewrite Hk. simpl.
  split; [apply lookup_insert_eq |]. split; [apply lookup_insert_eq |].
  split; [by apply wf_fresh |].
  split; intros; by apply lookup_insert_ne.
Qed.

(** [getOrCreate] is idempotent: a second call with the same id, at any
    time, returns the same object and changes nothing. *)
Theorem getOrCreate_idem k t1 t2 st :
  getOrCreate k t2 (getOrCreate k t1 st).2 = getOrCreate k t1 st.
Proof.
  unfold getOrCreate at 2 3. destruct (sessions st !! k) as [l|] eqn:E.
  - by apply getOrCreate_found.
  - apply getOrCreate_found. simpl. apply lookup_insert_eq.
Qed.

(** C26. [getOrCreate] on each branch of lines 198-207: a known id gives
    back its object and changes nothing; an unknown id, whatever string
    the client chose, gets a fresh, empty session object under exactly
    that id, no other entry or object changing; and a second call with
    the same id, at any time, returns the same object and changes
    nothing. *)
Theorem getOrCreate_spec k t1 t2 st :
  wf st →
  (∀ l, sessions st !! k = Some l → getOrCreate k t1 st = (l, st)) ∧
  (sessions st !! k = None →
   let '(l, st') := getOrCreate k t1 st in
   sessions st' !! k = Some l ∧ heap st' !! l = Some (newSession k t1) ∧
   heap st !! l = None ∧
   (∀ k', k' ≠ k → sessions st' !! k' = sessions st !! k') ∧
   (∀ l', l' ≠ l → heap st' !! l' = heap st !! l')) ∧
  getOrCreate k t2 (getOrCreate k t1 st).2 = getOrCreate k t1 st.
Proof.
  intros Hwf. split; [intros l; apply getOrCreate_found |].
  split; [by apply getOrCreate_new | apply getOrCreate_idem].
Qed.

(** [getOrCreate] returns the location the Map now holds for the id, and
    the object there is the resolved one. *)
Lemma getOrCreate_lookup k now st l st' :
  wf st → getOrCreate k now st = (l, st') →
  sessions st' !! k = Some l ∧ heap st' !! l = Some (resolve k now st) ∧ wf st'.
Proof.
  intros Hwf Hg. pose proof (getOrCreate_wf k now st Hwf) as Hwf'. rewrite Hg in Hwf'.
  unfold resolve, lookupSession. revert Hg. unfold getOrCreate.
  destruct (sessions st !! k) as [l0|] eqn:Hk; simpl.
  - intros [= <- <-]. destruct (proj1 Hwf _ _ Hk) as (s & Hs & _). by rewrite Hs.
  - intros [= <- <-]. simpl. by rewrite !lookup_insert_eq.
Qed.

Lemma modify_lookup_eq l f st s :
  heap st !! l = Some s → heap (modify l f st) !! l = Some (f s).
Proof. intros Hs. simpl. by rewrite lookup_alter_eq, Hs. Qed.

Lemma getHistory_at k l st s :
  sessions st !! k = Some l → heap st !! l = Some s →
  getHistory k st = HistoryOk (messages s) (id s) (createdAt s) (lastActivity s)
                      (length (messages s)).
Proof. intros Hk Hs. unfold getHistory. by rewrite Hk; simpl; rewrite Hs. Qed.

(** ** History and sweep *)

(** C27. The sweep removes exactly the sessions idle for more than an hour:
    after it, the history of a session is the same as before if its last
    activity is at least [now - 3600000], and 404 otherwise. *)
Theorem sweep_history now st k :
  wf st →
  getHistory k (sweep now st) =
  match getHistory k st with
  | HistoryOk ms sid c last n =>
      if last <? now - 3600000 then HistoryNotFound else HistoryOk ms sid c last n
  | HistoryNotFound => HistoryNotFound
  end.
Proof.
  intros [Hent _]. unfold getHistory, sweep. simpl. rewrite map_lookup_filter.
  destruct (sessions st !! k) as [l|] eqn:Hk; [simpl | done].
  destruct (Hent _ _ Hk) as (s & Hs & _). unfold keepEntry. rewrite Hs. simpl.
  unfold isStale. change (60 * 60 * 1000) with 3600000.
  destruct (lastActivity s <? now - 3600000); simpl; [done | by rewrite Hs].
Qed.

(** After the loop over [l], a key is gone exactly when one of its
    entries in [l] was stale. *)
Lemma foldl_sweepStep_lookup now st (l : list (jsstring * loc)) acc k :
  foldl (sweepStep now st) acc l !! k =
    if existsb (λ kl, bool_decide (kl.1 = k) && negb (keepEntry now st kl.2)) l
    then None else acc !! k.
Proof.
  revert acc. induction l as [|[k' l'] l IH]; intros acc; simpl; [done |].
  rewrite IH. unfold sweepStep. simpl.
  destruct (existsb _ l); [by rewrite orb_true_r |]. rewrite orb_false_r.
  destruct (keepEntry now st l'); simpl; [by rewrite andb_false_r |].
  rewrite andb_true_r. case_bool_decide as Hk.
  - subst. apply lookup_delete_eq.
  - by apply lookup_delete_ne.
Qed.

(** The loop of the source that deletes stale entries while iterating
    over the Map computes the same store as the filter [sweep] that the
    rest of the development reasons about. *)
Theorem sweepLoop_sweep now st : sweepLoop now st = sweep now st.
Proof.
  unfold sweepLoop, sweep. f_equal. apply map_eq. intros k.
  rewrite foldl_sweepStep_lookup, map_lookup_filter.
  destruct (sessions st !! k) as [l|] eqn:Hk; simpl.
  - destruct (existsb _ _) eqn:He.
    + apply existsb_exists in He as [[k' l'] [Hin Hc]].
      apply andb_true_iff in Hc as [Hkk Hkeep]. apply bool_decide_eq_true_1 in Hkk.
      simpl in *. subst k'. apply list_elem_of_In, elem_of_map_to_list in Hin.
      rewrite Hin in Hk. simplify_eq. apply negb_true_iff in Hkeep.
      by rewrite option_guard_False by congruence.
    + rewrite option_guard_True; [done |].
      destruct (keepEntry now st l) eqn:Hkeep; [done |].
      assert (existsb (λ kl, bool_decide (kl.1 = k) && negb (keepEntry now st kl.2))
                (map_to_list (sessions st)) = true) as Hc; [| congruence].
      apply existsb_exists. exists (k, l). split.
      * by apply list_elem_of_In, elem_of_map_to_list.
      * simpl. rewrite Hkeep. by rewrite bool_decide_eq_true_2.
  - by destruct (existsb _ _).
Qed.

(** Sweeping twice at the same time is sweeping once. *)
Lemma sweep_idem now st : sweep now (sweep now st) = sweep now st.
Proof.
  unfold sweep. simpl. f_equal. unfold keepEntry. simpl.
  apply map_filter_filter_l. naive_solver.
Qed.

(** C28. [POST /api/session/start] never checks the Map: whatever session
    was stored under the generated id before, the id now names a fresh,
    empty session created at [now]. *)
Theorem startSession_overwrites random now st :
  let '(resp, st') := startSession random now st in
  start_sessionId resp = generateSessionId random now ∧
  getHistory (generateSessionId random now) st' =
    HistoryOk [] (generateSessionId random now) now now 0.
Proof.
  unfold startSession. simpl. split; [done |].
  by erewrite getHistory_at; [| apply lookup_insert_eq | apply lookup_insert_eq].
Qed.

(** The spec's sweep example: of two sessions last active two hours
    and thirty minutes before [now], the sweep at [now] removes the first
    and keeps the second. *)
Theorem sweep_example :
  let now := 1700000000000 in
  let st := (getOrCreate (str "b") (now - 1800000)
               (getOrCreate (str "a") (now - 7200000) emptyStore).2).2 in
  getHistory (str "a") (sweep now st) = HistoryNotFound ∧
  getHistory (str "b") (sweep now st) =
    HistoryOk [] (str "b") (now - 1800000) (now - 1800000) 0.
Proof. vm_compute. split; reflexivity. Qed.

(** ** Witnesses *)

Lemma getOrCreate_spec_witness :
  (∀ l, sessions emptyStore !! str "s" = Some l → getOrCreate (str "s") 0 emptyStore = (l, emptyStore)) ∧
  (sessions emptyStore !! str "s" = None →
   let '(l, st') := getOrCreate (str "s") 0 emptyStore in
   sessions st' !! str "s" = Some l ∧ heap st' !! l = Some (newSession (str "s") 0) ∧
   heap emptyStore !! l = None ∧
   (∀ k', k' ≠ str "s" → sessions st' !! k' = sessions emptyStore !! k') ∧
   (∀ l', l' ≠ l → heap st' !! l' = heap emptyStore !! l')) ∧
  getOrCreate (str "s") 5 (getOrCreate (str "s") 0 emptyStore).2 = getOrCreate (str "s") 0 emptyStore.
Proof. exact (getOrCreate_spec (str "s") 0 5 emptyStore wf_emptyStore). Defined.

(** A session created at time 0 is still listed at 3600000 and gone
    from the sweep at 3600001. *)
Lemma sweep_history_witness :
  getHistory (str "s") (sweep 3600000 (getOrCreate (str "s") 0 emptyStore).2) =
    HistoryOk [] (str "s") 0 0 0 ∧
  getHistory (str "s") (sweep 3600001 (getOrCreate (str "s") 0 emptyStore).2) =
    HistoryNotFound.
Proof.
  pose proof (getOrCreate_wf (str "s") 0 emptyStore wf_emptyStore) as Hwf.
  split; [rewrite (sweep_history 3600000 _ (str "s") Hwf)
         | rewrite (sweep_history 3600001 _ (str "s") Hwf)]; vm_compute; reflexivity.
Defined.

End Store.
