(* ===== verification/Prompt.v ===== *)
(** * The prompt assembler and the provider call (server.js lines 34-103)

    [callGeminiAPI(message, conversationHistory)] first checks the API
    key (it throws before any request when it is missing), then builds one
    text block: the persona [systemPrompt], a header, one line
    ["User: ..."] or ["Saathi: ..."] per message of the last five of the
    history ([slice(-5)] and [forEach] with [+=]), and the new message with
    the assistant cue.  The request itself ([model.generateContent]) is the
    external collaborator: its outcome is an input of the chat handler.
    The theorems show that the loop builds the concatenation of the rendered
    lines (an equivalence of the imperative loop with a declarative
    definition), that at most five history lines are sent, which ones, and
    the exact text for an empty history. *)

From S2P Require Import Prelude JsBuiltins Crisis Store.
From Stdlib Require Strings.String.
Import (notations) Stdlib.Strings.String.
Import Store.

Local Open Scope Z_scope.

Module Prompt.

(** A line feed, ["\n"] in the source. *)
Definition nl : jsstring := [10].

(** The template literal of lines 45-82 (its four double quotes are
    written as the code unit 34). *)
Definition systemPrompt : jsstring :=
    str "You are Saathi, a compassionate AI mental wellness companion specifically designed for Indian youth (16-25 years). 

CORE IDENTITY:
- Warm, empathetic, non-judgmental friend
- Understands Indian cultural context deeply
- Speaks naturally in Hindi-English mix (Hinglish) when appropriate
- Focuses on mental wellness support

CULTURAL AWARENESS:
- Indian family dynamics (joint families, parental expectations)
- Academic pressure (JEE, NEET, boards, competitive exams)
- Career stress and societal expectations
- Economic constraints and accessibility issues
- Social stigma around mental health
- Regional diversity and languages

RESPONSE STYLE:
- Use simple, relatable language
- Mix Hindi-English naturally (like: " ++ [34] ++
    str "Main samajh sakta hun" ++ [34] ++
    str ", " ++ [34] ++
    str "Yeh tough situation hai" ++ [34] ++
    str ")
- Be encouraging but realistic
- Never diagnose or give medical advice
- Always validate their feelings first
- Keep responses under 150 words
- Be conversational and friendly

CRISIS PROTOCOL:
If user mentions self-harm, suicide, or severe distress:
1. Show immediate empathy and concern
2. Provide crisis helpline numbers
3. Encourage reaching trusted person
4. Offer continued support

GUIDELINES:
- Never provide medical diagnoses
- Always encourage professional help for serious issues
- Respect cultural sensitivities
- Be patient with academic and family pressures
- Use appropriate emojis sparingly".

(** Line 90: [`${msg.role === 'user' ? 'User' : 'Saathi'}: ${msg.content}\n`]. *)
Definition historyLine (msg : ChatMessage) : jsstring :=
  (if is_user msg then str "User" else str "Saathi") ++ str ": " ++ msg_content msg ++ nl.

(** Lines 85-93, the loop as written. *)
Definition buildConversationContext (message : jsstring)
    (conversationHistory : list ChatMessage) : jsstring :=
  let conversationContext := systemPrompt ++ nl ++ nl ++ str "Conversation History:" ++ nl in
  let recentHistory := js_slice (-5) conversationHistory in
  let conversationContext :=
    foldl (λ ctx msg, ctx ++ historyLine msg) conversationContext recentHistory in
  conversationContext ++ nl ++ str "User: " ++ message ++ nl ++ nl ++ str "Saathi:".

(** The configuration the function reads. *)
Record Env := {
  GEMINI_API_KEY : option jsstring;
  NODE_ENV_is_development : bool
}.

(** What calling [callGeminiAPI] starts: a promise rejected before any
    request (no key), or a request carrying the prompt. *)
Inductive ProviderCall :=
  | CallRejected (reason : jsstring)
  | CallIssued (prompt : jsstring).

(** The outcome of [model.generateContent] and [response.text()]. *)
Inductive ProviderResult :=
  | ProviderText (text : jsstring)
  | ProviderFailure (errorMessage : jsstring).

Definition missingKeyMessage : jsstring :=
  str "GEMINI_API_KEY not found in environment variables".

(** Lines 35-93: the key check ([!process.env.GEMINI_API_KEY]: absent or
    empty) and the prompt. *)
Definition callGeminiAPI (env : Env) (message : jsstring)
    (conversationHistory : list ChatMessage) : ProviderCall :=
  match GEMINI_API_KEY env with
  | Some key =>
      if bool_decide (key = []) then CallRejected missingKeyMessage
      else CallIssued (buildConversationContext message conversationHistory)
  | None => CallRejected missingKeyMessage
  end.

(** The header and the tail around the history lines. *)
Definition contextHeader : jsstring := nl ++ nl ++ str "Conversation History:" ++ nl.

Definition contextTail (message : jsstring) : jsstring :=
  nl ++ str "User: " ++ message ++ nl ++ nl ++ str "Saathi:".

Lemma buildConversationContext_concat message h :
  buildConversationContext message h =
  systemPrompt ++ contextHeader ++
  concat (map historyLine (js_slice (-5) h)) ++ contextTail message.
Proof.
  unfold buildConversationContext, contextHeader, contextTail.
  rewrite foldl_app_concat. by rewrite <- !app_assoc.
Qed.

(** C29. The prompt the loop builds is the persona, the header, then one
    line per message of the last [min 5 n], in order, reading
    ["User: <content>"] for a user message and ["Saathi: <content>"] for a
    reply, then the new message as a user line and the cue for the reply. *)
Theorem buildConversationContext_eq message h :
  buildConversationContext message h =
  systemPrompt ++ nl ++ nl ++ str "Conversation History:" ++ nl ++
  concat (map (λ m, match m with
                    | UserMessage c _ => str "User: " ++ c ++ nl
                    | AiMessage c _ _ => str "Saathi: " ++ c ++ nl
                    end) (drop (length h - 5) h)) ++
  nl ++ str "User: " ++ message ++ nl ++ nl ++ str "Saathi:".
Proof.
  rewrite buildConversationContext_concat, js_slice_neg. unfold contextHeader, contextTail.
  rewrite (map_ext historyLine (λ m, match m with
                                      | UserMessage c _ => str "User: " ++ c ++ nl
                                      | AiMessage c _ _ => str "Saathi: " ++ c ++ nl
                                      end)) by (by intros []).
  by rewrite <- !app_assoc.
Qed.

(** Only the last five messages reach the provider: any older history
    in front of them leaves the prompt unchanged. *)
Theorem buildConversationContext_last5 message p q :
  length q = 5%nat →
  buildConversationContext message (p ++ q) = buildConversationContext message q.
Proof.
  intros Hq. rewrite !buildConversationContext_concat, !js_slice_neg, drop_last_app by done.
  by rewrite Hq, Nat.sub_diag, drop_0.
Qed.

(** ** Witnesses *)

Definition fiveTurns : list ChatMessage :=
  [UserMessage (str "a") 1; AiMessage (str "b") 2 None; UserMessage (str "c") 3;
   AiMessage (str "d") 4 None; UserMessage (str "e") 5].

Lemma buildConversationContext_last5_witness :
  buildConversationContext (str "f") ([UserMessage (str "old") 0] ++ fiveTurns) =
  buildConversationContext (str "f") fiveTurns.
Proof. apply buildConversationContext_last5. reflexivity. Defined.

End Prompt.
