(* ===== verification/Chat.v ===== *)
(** * The chat orchestrator: [POST /api/chat/:sessionId] (server.js lines
      184-261)

    The handler is split at its one suspension point, [await
    callGeminiAPI(...)].  [chatBegin] runs lines 187-229 up to the await:
    validation (400 on a falsy or blank message; a non-string message
    throws inside [try] and gives 500), [getOrCreate], the [lastActivity]
    update, the push of the user message, classification, and the call,
    which reads the session's messages {e after} the push.  [Pending] is
    what the suspended handler holds: its [session] reference, its id and
    its crisis result.  [chatFinish] runs lines 229-260 when the provider
    settles: on success it pushes the assistant message through the held
    reference, trims to 20 and answers; on failure it answers 500 and
    changes nothing.  [chatHandler] composes them for a request that runs
    alone.  The theorems give the functional behaviour on every branch,
    the agreement of the answered and the stored crisis payload, the text
    sent to the provider, and the growth of a session under failures. *)

From S2P Require Import Prelude JsBuiltins Crisis Store Prompt.
From Stdlib Require Strings.String.
Import (notations) Stdlib.Strings.String.
Import Crisis Store Prompt.

Local Open Scope Z_scope.

Module Chat.

(** The handler's answer: 200 with its body, 400, or 500 with the
    optional [details] (the error's message in development mode). *)
Inductive ChatResponse :=
  | ChatOk (message : jsstring) (crisis : option CrisisInfo) (sessionId : jsstring)
      (messageCount : nat)
  | ChatEmpty
  | ChatError (details : option jsstring).

Definition status (r : ChatResponse) : Z :=
  match r with ChatOk _ _ _ _ => 200 | ChatEmpty => 400 | ChatError _ => 500 end.

Definition emptyMessageError : jsstring := str "Message cannot be empty".

Definition apologyMessage : jsstring :=
  str "I'm having trouble connecting right now. Please try again in a moment.".

(** [details: process.env.NODE_ENV === 'development' ? error.message : undefined] *)
Definition errorDetails (env : Env) (msg : jsstring) : option jsstring :=
  if NODE_ENV_is_development env then Some msg else None.

(** The message of the TypeError thrown by [message.trim()] on a
    non-string. *)
Definition trimTypeError : jsstring := str "message.trim is not a function".

(** The state of a request suspended at the await. *)
Record Pending := {
  p_sessionId : jsstring;
  p_loc : loc;
  p_isCrisis : bool;
  p_crisisInfo : option CrisisInfo;
  p_call : ProviderCall
}.

Definition sessionMessages (l : loc) (st : Store) : list ChatMessage :=
  default [] (messages <$> heap st !! l).

(** Lines 187-229, up to the await. *)
Definition chatBegin (env : Env) (sessionId : jsstring) (body : JsValue) (now : Z)
    (st : Store) : ChatResponse + (Pending * Store) :=
  if negb (js_truthy body) then inl ChatEmpty else
  match body with
  | JStr message =>
      if (length (js_trim message) =? 0)%nat then inl ChatEmpty else
      let '(l, st1) := getOrCreate sessionId now st in
      let st2 := modify l (setLastActivity now) st1 in
      let st3 := modify l (pushMessage (UserMessage message now)) st2 in
      let isCrisis := containsCrisisKeywords message in
      let crisisInfo := if isCrisis then Some getCrisisResources else None in
      inr ({| p_sessionId := sessionId; p_loc := l; p_isCrisis := isCrisis;
              p_crisisInfo := crisisInfo;
              p_call := callGeminiAPI env message (sessionMessages l st3) |}, st3)
  | _ => inl (ChatError (errorDetails env trimTypeError))
  end.

(** Lines 229-260, when the provider settles at time [now]. *)
Definition chatFinish (env : Env) (p : Pending) (outcome : ProviderResult) (now : Z)
    (st : Store) : ChatResponse * Store :=
  match p_call p with
  | CallRejected reason => (ChatError (errorDetails env reason), st)
  | CallIssued _ =>
      match outcome with
      | ProviderFailure e => (ChatError (errorDetails env e), st)
      | ProviderText aiResponse =>
          let crisis := if p_isCrisis p then p_crisisInfo p else None in
          let st1 := modify (p_loc p) (pushMessage (AiMessage aiResponse now crisis)) st in
          let st2 := modify (p_loc p) trimSession st1 in
          (ChatOk aiResponse crisis (p_sessionId p)
             (length (sessionMessages (p_loc p) st2)), st2)
      end
  end.

(** A request that runs alone: begin, the provider's outcome, finish. *)
Definition chatHandler (env : Env) (sessionId : jsstring) (body : JsValue)
    (now1 : Z) (outcome : ProviderResult) (now2 : Z) (st : Store)
    : ChatResponse * Store :=
  match chatBegin env sessionId body now1 st with
  | inl r => (r, st)
  | inr (p, st1) => chatFinish env p outcome now2 st1
  end.

(** The crisis payload of a message, computed once (lines 221-226). *)
Definition crisisOf (message : jsstring) : option CrisisInfo :=
  if containsCrisisKeywords message then Some getCrisisResources else None.

(** A usable key: present and non-empty. *)
Definition keyPresent (env : Env) : Prop :=
  ∃ key, GEMINI_API_KEY env = Some key ∧ key ≠ [].

#[export] Instance keyPresent_decision env : Decision (keyPresent env).
Proof.
  unfold keyPresent. destruct (GEMINI_API_KEY env) as [key|].
  - destruct (decide (key = [])) as [->|Hne].
    + right. intros (k & Hk & Hne). congruence.
    + left. eauto.
  - right. intros (k & Hk & _). discriminate.
Defined.

Definition blank (message : jsstring) : Prop :=
  Forall (λ c, is_js_whitespace c = true) message.

#[export] Instance blank_decision message : Decision (blank message).
Proof. unfold blank. apply _. Defined.

Lemma blank_dec message : (length (js_trim message) =? 0)%nat = bool_decide (blank message).
Proof.
  destruct (length (js_trim message) =? 0)%nat eqn:E; symmetry.
  - apply bool_decide_eq_true_2, js_trim_empty_iff. by apply Nat.eqb_eq.
  - apply bool_decide_eq_false_2. rewrite <- js_trim_empty_iff. by apply Nat.eqb_neq.
Qed.

(** The effect of [chatBegin] on a non-blank string message. *)
Lemma chatBegin_ok env k message now st :
  wf st → ¬ blank message →
  ∃ l st3, chatBegin env k (JStr message) now st =
    inr ({| p_sessionId := k; p_loc := l; p_isCrisis := containsCrisisKeywords message;
            p_crisisInfo := crisisOf message;
            p_call := callGeminiAPI env message
                        (messages (resolve k now st) ++ [UserMessage message now]) |}, st3) ∧
    sessions st3 !! k = Some l ∧
    heap st3 !! l = Some (mkSession k (messages (resolve k now st) ++
                            [UserMessage message now])
                            (createdAt (resolve k now st)) now) ∧
    wf st3.
Proof.
  intros Hwf Hnb. unfold chatBegin.
  assert (js_truthy (JStr message) = true) as ->.
  { simpl. destruct message; [destruct Hnb; constructor | done]. }
  simpl. rewrite blank_dec, bool_decide_eq_false_2 by done.
  destruct (getOrCreate k now st) as [l st1] eqn:Hg.
  destruct (getOrCreate_lookup _ _ _ _ _ Hwf Hg) as (Hk & Hs & Hwf1).
  assert (id (resolve k now st) = k) as Hid.
  { unfold resolve, lookupSession. destruct (sessions st !! k) as [l0|] eqn:Hk0; [| done].
    simpl. destruct (proj1 Hwf _ _ Hk0) as (s & Hs0 & Hid). by rewrite Hs0. }
  pose proof (modify_lookup_eq _ (setLastActivity now) _ _ Hs) as Hs2.
  pose proof (modify_lookup_eq _ (pushMessage (UserMessage message now)) _ _ Hs2) as Hs3.
  exists l, (modify l (pushMessage (UserMessage message now))
              (modify l (setLastActivity now) st1)).
  split; [| split; [exact Hk | split]].
  - unfold sessionMessages. rewrite Hs3. reflexivity.
  - rewrite Hs3. unfold pushMessage, setLastActivity. simpl. by rewrite Hid.
  - apply modify_wf; [apply modify_wf |]; auto.
Qed.

Lemma callGeminiAPI_issued env m h :
  keyPresent env → callGeminiAPI env m h = CallIssued (buildConversationContext m h).
Proof.
  intros (key & Hkey & Hne). unfold callGeminiAPI. rewrite Hkey.
  by rewrite bool_decide_eq_false_2.
Qed.

Lemma callGeminiAPI_rejected env m h :
  ¬ keyPresent env → callGeminiAPI env m h = CallRejected missingKeyMessage.
Proof.
  intros Hno. unfold callGeminiAPI. destruct (GEMINI_API_KEY env) as [key|] eqn:E; [| done].
  rewrite bool_decide_eq_true_2; [done |].
  destruct (decide (key = [])); [done |]. destruct Hno. by exists key.
Qed.

Lemma finish_crisis message :
  (if containsCrisisKeywords message then crisisOf message else None) = crisisOf message.
Proof. unfold crisisOf. by destruct (containsCrisisKeywords message). Qed.

(** C4. A blank or falsy message is answered with 400 and changes nothing:
    in particular no session is created for an unknown id. *)
Theorem chatHandler_empty env k body t1 out t2 st :
  (js_truthy body = false ∨ ∃ m, body = JStr m ∧ blank m) →
  chatHandler env k body t1 out t2 st = (ChatEmpty, st).
Proof.
  intros [Hf | (m & -> & Hb)]; unfold chatHandler, chatBegin.
  - by rewrite Hf.
  - rewrite blank_dec, bool_decide_eq_true_2 by done.
    by destruct (js_truthy (JStr m)).
Qed.

(** C6. A truthy message that is not a string ([5], [true], an object)
    makes [message.trim()] throw inside the [try]: the answer is 500 with
    the apology, not 400, and nothing changes. *)
Theorem chatHandler_nonstring env k body t1 out t2 st :
  js_truthy body = true → (∀ m, body ≠ JStr m) →
  chatHandler env k body t1 out t2 st = (ChatError (errorDetails env trimTypeError), st).
Proof.
  intros Ht Hns. unfold chatHandler, chatBegin. rewrite Ht. simpl.
  destruct body; try done. by destruct (Hns s).
Qed.

(** The success path, with the object the Map holds afterwards. *)
Lemma chatHandler_ok_store env k message t1 ai t2 st :
  wf st → ¬ blank message → keyPresent env →
  let ms := trimMessages (messages (resolve k t1 st) ++
              [UserMessage message t1; AiMessage ai t2 (crisisOf message)]) in
  ∃ st', chatHandler env k (JStr message) t1 (ProviderText ai) t2 st =
           (ChatOk ai (crisisOf message) k (length ms), st') ∧
         lookupSession k st' = Some (mkSession k ms (createdAt (resolve k t1 st)) t1) ∧
         wf st'.
Proof.
  intros Hwf Hnb Hkey ms.
  destruct (chatBegin_ok env k message t1 st Hwf Hnb) as (l & st3 & Hb & Hk & Hs & Hwf3).
  unfold chatHandler. rewrite Hb. unfold chatFinish. simpl.
  rewrite callGeminiAPI_issued by done. rewrite finish_crisis.
  pose proof (modify_lookup_eq _ (pushMessage (AiMessage ai t2 (crisisOf message))) _ _ Hs)
    as Hs4.
  pose proof (modify_lookup_eq _ trimSession _ _ Hs4) as Hs5.
  eexists. split; [| split].
  - unfold sessionMessages. rewrite Hs5. simpl. by rewrite <- app_assoc.
  - unfold lookupSession. replace (sessions _) with (sessions st3) by reflexivity.
    rewrite Hk. cbn -[modify]. rewrite Hs5. unfold trimSession, pushMessage. simpl. by rewrite <- app_assoc.
  - apply modify_wf; [apply modify_wf |]; auto.
Qed.

(** C3. A successful exchange answers with the provider's text, the crisis
    payload computed once from the message, the id and the new count, and
    stores the window of the old messages followed by the user message and
    the assistant message carrying the same crisis payload. *)
Theorem chatHandler_success env k message t1 ai t2 st :
  wf st → ¬ blank message → keyPresent env →
  let ms := trimMessages (messages (resolve k t1 st) ++
              [UserMessage message t1; AiMessage ai t2 (crisisOf message)]) in
  ∃ st', chatHandler env k (JStr message) t1 (ProviderText ai) t2 st =
           (ChatOk ai (crisisOf message) k (length ms), st') ∧
         getHistory k st' = HistoryOk ms k (createdAt (resolve k t1 st)) t1 (length ms) ∧
         wf st'.
Proof.
  intros Hwf Hnb Hkey ms.
  destruct (chatHandler_ok_store env k message t1 ai t2 st Hwf Hnb Hkey) as (st' & He & Hl & Hw).
  exists st'. split; [done | split; [| done]].
  unfold getHistory. unfold lookupSession in Hl. by rewrite Hl.
Qed.

(** The error paths, as used by the lemmas below. *)
Lemma chatHandler_error_store env k message t1 out t2 st d :
  wf st → ¬ blank message →
  ((keyPresent env ∧ out = ProviderFailure d) ∨ (¬ keyPresent env ∧ d = missingKeyMessage)) →
  ∃ st', chatHandler env k (JStr message) t1 out t2 st = (ChatError (errorDetails env d), st') ∧
         lookupSession k st' =
           Some (mkSession k (messages (resolve k t1 st) ++ [UserMessage message t1])
                   (createdAt (resolve k t1 st)) t1) ∧
         wf st'.
Proof.
  intros Hwf Hnb Hcase.
  destruct (chatBegin_ok env k message t1 st Hwf Hnb) as (l & st3 & Hb & Hk & Hs & Hwf3).
  unfold chatHandler. rewrite Hb. unfold chatFinish. simpl.
  exists st3. split; [| split; [| done]].
  - destruct Hcase as [[Hkey ->] | [Hno ->]].
    + by rewrite callGeminiAPI_issued.
    + by rewrite callGeminiAPI_rejected.
  - unfold lookupSession. by rewrite Hk; simpl; rewrite Hs.
Qed.

(** C5. When the provider fails, or the key is missing, the answer is 500
    with the failure's message as [details] in development mode; the user
    message stays recorded and the window is not applied. *)
Theorem chatHandler_error env k message t1 out t2 st d :
  wf st → ¬ blank message →
  ((keyPresent env ∧ out = ProviderFailure d) ∨ (¬ keyPresent env ∧ d = missingKeyMessage)) →
  ∃ st', chatHandler env k (JStr message) t1 out t2 st = (ChatError (errorDetails env d), st') ∧
         lookupSession k st' =
           Some (mkSession k (messages (resolve k t1 st) ++ [UserMessage message t1])
                   (createdAt (resolve k t1 st)) t1) ∧
         wf st'.
Proof. apply chatHandler_error_store. Qed.

(** Whatever the key, a failing request leaves the user message behind. *)
Lemma chatHandler_failure_store env k message t e st :
  wf st → ¬ blank message →
  ∃ d st', chatHandler env k (JStr message) t (ProviderFailure e) t st =
             (ChatError (errorDetails env d), st') ∧
           lookupSession k st' =
             Some (mkSession k (messages (resolve k t st) ++ [UserMessage message t])
                     (createdAt (resolve k t st)) t) ∧
           wf st'.
Proof.
  intros Hwf Hnb.
  destruct (GEMINI_API_KEY env) as [key|] eqn:Ek; [destruct (decide (key = [])) as [->|Hne] |].
  - exists missingKeyMessage. apply chatHandler_error_store; auto.
    right. split; [| done]. intros (key & Hk & Hne). congruence.
  - exists e. apply chatHandler_error_store; auto. left. split; [by exists key | done].
  - exists missingKeyMessage. apply chatHandler_error_store; auto.
    right. split; [| done]. intros (key & Hk & _). congruence.
Qed.

(** Every request with a non-blank message either succeeds and stores the
    window with both turns, or fails with 500 and keeps the user turn. *)
Lemma chatHandler_cases env k message t1 out t2 st :
  wf st → ¬ blank message →
  ∃ r st', chatHandler env k (JStr message) t1 out t2 st = (r, st') ∧ wf st' ∧
    ((∃ ai, out = ProviderText ai ∧ r = ChatOk ai (crisisOf message) k
               (length (trimMessages (messages (resolve k t1 st) ++
                  [UserMessage message t1; AiMessage ai t2 (crisisOf message)]))) ∧
       lookupSession k st' =
         Some (mkSession k (trimMessages (messages (resolve k t1 st) ++
                 [UserMessage message t1; AiMessage ai t2 (crisisOf message)]))
                 (createdAt (resolve k t1 st)) t1)) ∨
     (∃ d, r = ChatError d ∧
       lookupSession k st' =
         Some (mkSession k (messages (resolve k t1 st) ++ [UserMessage message t1])
                 (createdAt (resolve k t1 st)) t1))).
Proof.
  intros Hwf Hnb.
  destruct (decide (keyPresent env)) as [Hkey | Hno].
  - destruct out as [ai | e].
    + destruct (chatHandler_ok_store env k message t1 ai t2 st Hwf Hnb Hkey)
        as (st' & He & Hl & Hw).
      eexists _, st'. split; [exact He |]. split; [done |]. left. by exists ai.
    + destruct (chatHandler_error_store env k message t1 (ProviderFailure e) t2 st e Hwf Hnb
                  (or_introl (conj Hkey eq_refl))) as (st' & He & Hl & Hw).
      eexists _, st'. split; [exact He |]. split; [done |]. right. by eexists.
  - destruct (chatHandler_error_store env k message t1 out t2 st missingKeyMessage Hwf Hnb
                (or_intror (conj Hno eq_refl))) as (st' & He & Hl & Hw).
    eexists _, st'. split; [exact He |]. split; [done |]. right. by eexists.
Qed.

(** The store after a request whose provider call fails. *)
Definition failingRequest (env : Env) (k message : jsstring) (t : Z) (e : jsstring)
    (st : Store) : Store :=
  (chatHandler env k (JStr message) t (ProviderFailure e) t st).2.

(** C8. Each failed request adds the user message and never applies the
    window, so [n] failures grow a session by [n] messages, past any bound:
    the 20-message cap holds only for sessions whose requests succeed. *)
Theorem chat_failures_grow env k message t e n st :
  wf st → ¬ blank message →
  wf (Nat.iter n (failingRequest env k message t e) st) ∧
  length (messages (resolve k t (Nat.iter n (failingRequest env k message t e) st)))
  = (length (messages (resolve k t st)) + n)%nat.
Proof.
  intros Hwf Hnb. induction n as [|n [Hwfn IH]]; simpl; [split; [done | lia] |].
  destruct (chatHandler_failure_store env k message t e _ Hwfn Hnb)
    as (d & st' & Heq & Hlook & Hwf').
  assert (failingRequest env k message t e
            (Nat.iter n (failingRequest env k message t e) st) = st') as ->.
  { unfold failingRequest at 1. by rewrite Heq. }
  split; [done |].
  assert (resolve k t st' = mkSession k (messages (resolve k t
            (Nat.iter n (failingRequest env k message t e) st)) ++ [UserMessage message t])
            (createdAt (resolve k t (Nat.iter n (failingRequest env k message t e) st))) t)
    as -> by (unfold resolve at 1; by rewrite Hlook).
  simpl. rewrite length_app, IH. simpl. lia.
Qed.

Definition devEnv : Env := {| GEMINI_API_KEY := Some (str "key"); NODE_ENV_is_development := true |}.

Lemma chat_failures_grow_witness :
  wf emptyStore ∧ ¬ blank (str "hello") ∧
  wf (Nat.iter 30 (failingRequest devEnv (str "s") (str "hello") 0 (str "quota")) emptyStore) ∧
  length (messages (resolve (str "s") 0
    (Nat.iter 30 (failingRequest devEnv (str "s") (str "hello") 0 (str "quota")) emptyStore)))
  = (length (messages (resolve (str "s") 0 emptyStore)) + 30)%nat.
Proof.
  assert (¬ blank (str "hello")) as Hnb.
  { intros Hb. inversion Hb as [|? ? Hh]. discriminate. }
  split; [apply wf_emptyStore |]. split; [exact Hnb |].
  exact (chat_failures_grow devEnv (str "s") (str "hello") 0 (str "quota") 30 emptyStore
           wf_emptyStore Hnb).
Defined.

(** C30. The text sent to the provider ends with the new message twice: the
    history passed to [callGeminiAPI] already holds the user message just
    pushed, so its last history line is ["User: " ++ message] and the tail
    adds ["User: " ++ message] again. *)
Theorem chatBegin_prompt_duplicates env k message now st :
  wf st → ¬ blank message → keyPresent env →
  ∃ p st3 pre, chatBegin env k (JStr message) now st = inr (p, st3) ∧
    p_call p = CallIssued (pre ++ historyLine (UserMessage message now) ++ contextTail message).
Proof.
  intros Hwf Hnb Hkey.
  destruct (chatBegin_ok env k message now st Hwf Hnb) as (l & st3 & Hb & _).
  eexists _, st3, (systemPrompt ++ contextHeader ++
    concat (map historyLine (drop (length (messages (resolve k now st)) - 4)
                               (messages (resolve k now st))))).
  split; [exact Hb |]. cbn [p_call].
  rewrite callGeminiAPI_issued, buildConversationContext_concat, js_slice_neg by done.
  rewrite (drop_last_snoc _ _ 4), map_app, concat_app. cbn [map concat].
  by rewrite app_nil_r, <- !app_assoc.
Qed.

(** [n] successful exchanges on one session; the [j]-th message stored
    (user and assistant alternating, from 1) has the single code unit
    [99 + j] as content. *)
Definition exchangeRun (n : nat) : Store :=
  foldl (λ st i, (chatHandler devEnv (str "s") (JStr [100 + 2 * Z.of_nat i]) (Z.of_nat i)
                    (ProviderText [101 + 2 * Z.of_nat i]) (Z.of_nat i) st).2)
    emptyStore (seq 0 n).

(** The spec's window example: after 25 exchanges (50 messages) the
    session holds 20 messages, the 31st to the 50th in order; the first
    retained message is the 31st appended. *)
Theorem chat_25_exchanges :
  match getHistory (str "s") (exchangeRun 25) with
  | HistoryOk ms _ _ _ count =>
      count = 20%nat ∧ map msg_content ms = map (λ j, [99 + Z.of_nat j]) (seq 31 20)
  | HistoryNotFound => False
  end.
Proof. vm_compute. split; reflexivity. Qed.

(** ** Witnesses *)

Lemma devEnv_key : keyPresent devEnv.
Proof. by exists (str "key"). Qed.

Lemma hello_not_blank : ¬ blank (str "hello").
Proof. decide_by_vm. Qed.

Lemma chatHandler_success_witness :
  let ms := trimMessages (messages (resolve (str "s") 0 emptyStore) ++
              [UserMessage (str "hello") 0; AiMessage (str "hi") 1 (crisisOf (str "hello"))]) in
  ∃ st', chatHandler devEnv (str "s") (JStr (str "hello")) 0 (ProviderText (str "hi")) 1
           emptyStore = (ChatOk (str "hi") (crisisOf (str "hello")) (str "s") (length ms), st') ∧
         getHistory (str "s") st' =
           HistoryOk ms (str "s") (createdAt (resolve (str "s") 0 emptyStore)) 0 (length ms) ∧
         wf st'.
Proof.
  exact (chatHandler_success devEnv (str "s") (str "hello") 0 (str "hi") 1 emptyStore
           wf_emptyStore hello_not_blank devEnv_key).
Defined.

Lemma chatHandler_empty_witness :
  chatHandler devEnv (str "s") (JStr (str "  ")) 0 (ProviderText (str "hi")) 1 emptyStore =
  (ChatEmpty, emptyStore).
Proof. apply chatHandler_empty. right. exists (str "  "). split; [done | decide_by_vm]. Defined.

Lemma chatHandler_nonstring_witness :
  chatHandler devEnv (str "s") (JNum 5) 0 (ProviderText (str "hi")) 1 emptyStore =
  (ChatError (errorDetails devEnv trimTypeError), emptyStore).
Proof. apply chatHandler_nonstring; [reflexivity | intros m; discriminate]. Defined.

Lemma chatHandler_error_witness :
  ∃ st', chatHandler devEnv (str "s") (JStr (str "hello")) 0 (ProviderFailure (str "quota")) 1
           emptyStore = (ChatError (errorDetails devEnv (str "quota")), st') ∧
         lookupSession (str "s") st' =
           Some (mkSession (str "s") (messages (resolve (str "s") 0 emptyStore) ++
                   [UserMessage (str "hello") 0])
                   (createdAt (resolve (str "s") 0 emptyStore)) 0) ∧
         wf st'.
Proof.
  apply (chatHandler_error devEnv (str "s") (str "hello") 0 (ProviderFailure (str "quota")) 1
           emptyStore (str "quota") wf_emptyStore hello_not_blank).
  left. split; [exact devEnv_key | reflexivity].
Defined.

Lemma chatBegin_prompt_duplicates_witness :
  ∃ p st3 pre, chatBegin devEnv (str "s") (JStr (str "hello")) 0 emptyStore = inr (p, st3) ∧
    p_call p = CallIssued (pre ++ historyLine (UserMessage (str "hello") 0) ++
                           contextTail (str "hello")).
Proof.
  exact (chatBegin_prompt_duplicates devEnv (str "s") (str "hello") 0 emptyStore
           wf_emptyStore hello_not_blank devEnv_key).
Defined.

End Chat.
