(* ===== verification/Routes.v ===== *)
(** * The HTTP layer of server.js: bodies, routing, middleware, errors

    What a request meets in the order [app.use] and the route
    registrations set up (lines 11-25, 157-357): the JSON body parser
    (a malformed or oversized body goes to the error middleware), the rate
    limiter mounted on [/api] (its counting is the library's and is an
    input here: [limited]), the five routes in their registration order,
    the error middleware and the 404 handler.  helmet and CORS only add
    headers and are not modelled, except that a CORS preflight is answered
    before any route.  Every response body is a [Json] value, written as
    [res.json] serializes the handler's object: fields that are
    [undefined] are left out and dates become their ISO strings. *)

From S2P Require Import Prelude JsBuiltins Crisis Store Prompt Chat.
From Stdlib Require Strings.String.
Import (notations) Stdlib.Strings.String.
Import Crisis Store Prompt Chat.

Local Open Scope Z_scope.

Module Routes.

(** ** JSON values and the serialization of the server's objects *)

Inductive Json :=
  | JsonNull
  | JsonBool (b : bool)
  | JsonNum (n : Z)
  | JsonStr (s : jsstring)
  | JsonArr (xs : list Json)
  | JsonObj (fields : list (jsstring * Json)).

(** [JSON.stringify] of a [Date]: [toJSON] gives the ISO string, or
    [null] for an invalid date. *)
Definition jsonDate (t : Z) : Json :=
  match js_toISOString t with Some s => JsonStr s | None => JsonNull end.

Definition resourceJson (r : CrisisResource) : Json :=
  JsonObj [(str "name", JsonStr (name r)); (str "phone", JsonStr (phone r));
           (str "description", JsonStr (description r));
           (str "availability", JsonStr (availability r))].

Definition crisisJson (c : CrisisInfo) : Json :=
  JsonObj [(str "isEmergency", JsonBool (isEmergency c));
           (str "resources", JsonArr (resourceJson <$> resources c));
           (str "message", JsonStr (message c))].

(** [crisis: isCrisis ? crisisInfo : null] *)
Definition optCrisisJson (c : option CrisisInfo) : Json :=
  match c with Some c => crisisJson c | None => JsonNull end.

(** A stored message object (lines 209-213, 232-237). *)
Definition messageJson (m : ChatMessage) : Json :=
  match m with
  | UserMessage c t =>
      JsonObj [(str "role", JsonStr (str "user")); (str "content", JsonStr c);
               (str "timestamp", jsonDate t)]
  | AiMessage c t cr =>
      JsonObj [(str "role", JsonStr (str "assistant")); (str "content", JsonStr c);
               (str "timestamp", jsonDate t); (str "crisis", optCrisisJson cr)]
  end.

(** ** Responses *)

Inductive Body :=
  | BodyJson (j : Json)
  | BodyText (s : jsstring)
  | BodyEmpty.

Record Response := mkResponse { status : Z; body : Body }.

(** [details: NODE_ENV === 'development' ? error.message : undefined] *)
Definition detailsField (d : option jsstring) : list (jsstring * Json) :=
  match d with Some m => [(str "details", JsonStr m)] | None => [] end.

(** The error middleware (lines 341-349). *)
Definition errorHandler (env : Env) (errMessage : jsstring) : Response :=
  mkResponse 500 (BodyJson (JsonObj ([(str "success", JsonBool false);
    (str "error", JsonStr (str "Internal server error"))] ++
    detailsField (errorDetails env errMessage)))).

(** The 404 handler (lines 351-357). *)
Definition notFound : Response :=
  mkResponse 404 (BodyJson (JsonObj [(str "success", JsonBool false);
    (str "error", JsonStr (str "Route not found"))])).

(** [GET /api/health] (lines 157-164); [toISOString] throws on an invalid
    date, and Express hands the exception to the error middleware. *)
Definition healthRoute (env : Env) (now : Z) : Response :=
  match js_toISOString now with
  | Some iso =>
      mkResponse 200 (BodyJson (JsonObj [(str "status", JsonStr (str "healthy"));
        (str "timestamp", JsonStr iso); (str "version", JsonStr (str "1.0.0"))]))
  | None => errorHandler env (str "Invalid time value")
  end.

(** The body of [POST /api/session/start] (lines 177-181). *)
Definition startJson (r : StartResponse) : Json :=
  JsonObj [(str "success", JsonBool (start_success r));
           (str "sessionId", JsonStr (start_sessionId r));
           (str "message", JsonStr (start_message r))].

(** The three answers of [POST /api/chat/:sessionId] (lines 190-193,
    251-257, 262-266). *)
Definition chatJson (r : ChatResponse) : Response :=
  match r with
  | ChatOk msg crisis sid count =>
      mkResponse 200 (BodyJson (JsonObj [(str "success", JsonBool true);
        (str "message", JsonStr msg); (str "crisis", optCrisisJson crisis);
        (str "sessionId", JsonStr sid); (str "messageCount", JsonNum (Z.of_nat count))]))
  | ChatEmpty =>
      mkResponse 400 (BodyJson (JsonObj [(str "success", JsonBool false);
        (str "error", JsonStr emptyMessageError)]))
  | ChatError d =>
      mkResponse 500 (BodyJson (JsonObj ([(str "success", JsonBool false);
        (str "error", JsonStr apologyMessage)] ++ detailsField d)))
  end.

(** [GET /api/session/:sessionId/history] (lines 264-285). *)
Definition historyJson (h : HistoryResponse) : Response :=
  match h with
  | HistoryNotFound =>
      mkResponse 404 (BodyJson (JsonObj [(str "success", JsonBool false);
        (str "error", JsonStr (str "Session not found"))]))
  | HistoryOk msgs sid created last count =>
      mkResponse 200 (BodyJson (JsonObj [(str "success", JsonBool true);
        (str "messages", JsonArr (messageJson <$> msgs));
        (str "sessionInfo", JsonObj [(str "id", JsonStr sid);
          (str "createdAt", jsonDate created); (str "lastActivity", jsonDate last);
          (str "messageCount", JsonNum (Z.of_nat count))])]))
  end.

(** [GET /api/resources] (lines 287-327): the crisis list shared with
    [getCrisisResources], then fixed self-help and educational entries. *)
Definition selfHelpJson (ty nm desc instr : String.string) : Json :=
  JsonObj [(str "type", JsonStr (str ty)); (str "name", JsonStr (str nm));
           (str "description", JsonStr (str desc)); (str "instructions", JsonStr (str instr))].

Definition educationalJson (title desc content : String.string) : Json :=
  JsonObj [(str "title", JsonStr (str title)); (str "description", JsonStr (str desc));
           (str "content", JsonStr (str content))].

Definition resourcesRoute : Response :=
  mkResponse 200 (BodyJson (JsonObj [(str "success", JsonBool true);
    (str "resources", JsonObj [
      (str "crisis", JsonArr (resourceJson <$> resources getCrisisResources));
      (str "selfHelp", JsonArr [
        selfHelpJson "breathing" "4-7-8 Breathing" "Inhale 4 seconds, hold 7, exhale 8"
          "Sit comfortably, breathe in through nose for 4 counts, hold breath for 7 counts, exhale through mouth for 8 counts. Repeat 3-4 times.";
        selfHelpJson "grounding" "5-4-3-2-1 Technique" "Grounding exercise for anxiety"
          "Name 5 things you can see, 4 you can touch, 3 you can hear, 2 you can smell, 1 you can taste.";
        selfHelpJson "meditation" "Quick Meditation" "5-minute mindfulness exercise"
          "Sit quietly, focus on your breath. When thoughts come, acknowledge them and return focus to breathing."]);
      (str "educational", JsonArr [
        educationalJson "Understanding Exam Stress" "Tips for managing academic pressure"
          "Academic stress is normal. Break study into small chunks, take regular breaks, and remember that one exam doesn't define your worth.";
        educationalJson "Dealing with Family Expectations" "Navigating parental pressure"
          "Communicate openly with family about your feelings. Set boundaries while respecting their concerns. Remember, your mental health matters."])])])).

(** ** Middleware configuration (lines 11-25) *)

(** [process.env.X || fallback]: an unset or empty variable falls back. *)
Definition orDefault (v : option jsstring) (fallback : jsstring) : jsstring :=
  match v with Some (c :: s) => c :: s | _ => fallback end.

Record CorsConfig := { origin : jsstring; credentials : bool }.

Definition corsConfig (FRONTEND_URL : option jsstring) : CorsConfig :=
  {| origin := orDefault FRONTEND_URL (str "http://localhost:3000"); credentials := true |}.

Record RateLimitConfig := { windowMs : Z; max : Z; limitMessage : jsstring }.

Definition limiter : RateLimitConfig :=
  {| windowMs := 15 * 60 * 1000; max := 100;
     limitMessage := str "Too many requests from this IP, please try again later." |}.

(** [express.json({ limit: '10mb' })]: the largest body it accepts. *)
Definition jsonLimitBytes : Z := 10 * 1024 * 1024.

(** ** Routing *)

Inductive Method := MGet | MHead | MPost | MOptions | MOther.

#[export] Instance Method_eq_dec : EqDecision Method.
Proof. solve_decision. Defined.

(** A literal segment of a route path: Express matches case-insensitively. *)
Definition segIs (lit seg : jsstring) : bool := bool_decide (js_toLowerCase seg = lit).

(** Non-strict routing: a trailing slash is ignored. *)
Definition normalizePath (p : list jsstring) : list jsstring :=
  match last p with Some [] => removelast p | _ => p end.

Inductive Route :=
  | RHealth | RStart | RChat (sessionId : jsstring) | RHistory (sessionId : jsstring)
  | RResources | RNone.

(** The routes of lines 157, 167, 185, 264 and 288; a [:sessionId]
    parameter is one non-empty segment.  Express answers a HEAD request
    with the route registered by [app.get] for the same path (Node then
    leaves the body out of the transmitted response). *)
Definition matchRoute (m : Method) (p : list jsstring) : Route :=
  match m, normalizePath p with
  | MGet, [a; b] | MHead, [a; b] =>
      if segIs (str "api") a && segIs (str "health") b then RHealth
      else if segIs (str "api") a && segIs (str "resources") b then RResources
      else RNone
  | MPost, [a; b; c] =>
      if segIs (str "api") a && segIs (str "session") b && segIs (str "start") c then RStart
      else if segIs (str "api") a && segIs (str "chat") b && bool_decide (c ≠ []) then RChat c
      else RNone
  | MGet, [a; b; c; d] | MHead, [a; b; c; d] =>
      if segIs (str "api") a && segIs (str "session") b && bool_decide (c ≠ [])
         && segIs (str "history") d then RHistory c
      else RNone
  | _, _ => RNone
  end.

(** [app.use('/api', limiter)] applies to every path under [/api]. *)
Definition apiPath (p : list jsstring) : bool :=
  match p with a :: _ => segIs (str "api") a | [] => false end.

(** What the JSON parser made of the body: no JSON body ([req.body] is
    [{}]), the value of its [message] field, or a parse error (malformed
    JSON, or more than [jsonLimitBytes]). *)
Inductive Payload :=
  | NoBody
  | MessageField (v : JsValue)
  | BadBody (errMessage : jsstring).

Record Request := mkRequest { method : Method; path : list jsstring; payload : Payload }.

(** What the world supplies to one request: the limiter's verdict, the
    random string of [generateSessionId], the provider's outcome, and the
    clock before and after the await. *)
Record Inputs := mkInputs {
  limited : bool; random : jsstring; outcome : ProviderResult; now : Z; later : Z
}.

(** [const { message } = req.body] *)
Definition messageOf (p : Payload) : JsValue :=
  match p with MessageField v => v | _ => JUndefined end.

(** The whole application on one request, in the order of lines 11-357:
    a CORS preflight is answered at once; a body the parser rejects goes
    to the error middleware; the limiter answers 429 with its text; then
    the matching route runs, or the 404 handler. *)
Definition appHandle (env : Env) (req : Request) (inp : Inputs) (st : Store)
    : Response * Store :=
  if bool_decide (method req = MOptions) then (mkResponse 204 BodyEmpty, st) else
  match payload req with
  | BadBody e => (errorHandler env e, st)
  | _ =>
      if apiPath (path req) && limited inp
      then (mkResponse 429 (BodyText (limitMessage limiter)), st) else
      match matchRoute (method req) (path req) with
      | RHealth => (healthRoute env (now inp), st)
      | RStart =>
          let '(r, st') := startSession (random inp) (now inp) st in
          (mkResponse 200 (BodyJson (startJson r)), st')
      | RChat sid =>
          let '(r, st') := chatHandler env sid (messageOf (payload req)) (now inp)
                             (outcome inp) (later inp) st in
          (chatJson r, st')
      | RHistory sid => (historyJson (getHistory sid st), st)
      | RResources => (resourcesRoute, st)
      | RNone => (notFound, st)
      end
  end.

(** ** Reading a JSON body *)

Fixpoint lookupField (k : jsstring) (fs : list (jsstring * Json)) : option Json :=
  match fs with
  | [] => None
  | (k', v) :: fs' => if bool_decide (k = k') then Some v else lookupField k fs'
  end.

(** [obj[k]]; [None] is [undefined]. *)
Definition field (k : jsstring) (j : Json) : option Json :=
  match j with JsonObj fs => lookupField k fs | _ => None end.

(** A field as a condition ([!!obj[k]]). *)
Definition jsonTruthy (o : option Json) : bool :=
  match o with
  | None | Some JsonNull => false
  | Some (JsonBool b) => b
  | Some (JsonNum n) => negb (n =? 0)
  | Some (JsonStr s) => negb (bool_decide (s = []))
  | Some _ => true
  end.

(** ** Theorems *)

(** C32. Status and body agree on every request the application answers:
    a JSON body with [success: true] comes with 200 and one with
    [success: false] with 400, 404 or 500; the health check answers 200
    without a [success] field; a text body is the limiter's 429 and an
    empty one the preflight's 204.  A client may read [success] instead of
    the status, as App.js does. *)
Theorem appHandle_status_body env req inp st :
  let r := (appHandle env req inp st).1 in
  match body r with
  | BodyJson j =>
      (field (str "success") j = Some (JsonBool true) ∧ status r = 200) ∨
      (field (str "success") j = Some (JsonBool false) ∧ status r ∈ [400; 404; 500]) ∨
      (field (str "success") j = None ∧ status r = 200 ∧
       field (str "status") j = Some (JsonStr (str "healthy")))
  | BodyText _ => status r = 429
  | BodyEmpty => status r = 204
  end.
Proof.
  unfold appHandle.
  destruct (bool_decide (method req = MOptions)); [reflexivity |].
  assert (∀ n : Z, n ∈ [400; 404; 500] ↔ n = 400 ∨ n = 404 ∨ n = 500) as Hin
    by (intros n; rewrite list_elem_of_In; simpl; naive_solver).
  destruct (payload req) as [| v | e];
    [| | right; left; split; [reflexivity | apply Hin; auto]].
  all: destruct (apiPath (path req) && limited inp); [reflexivity |].
  all: destruct (matchRoute (method req) (path req)); unfold healthRoute, startSession; cbn zeta.
  all: repeat match goal with
       | |- context [js_toISOString ?t] => destruct (js_toISOString t)
       | |- context [sessions_set ?a ?b ?c] => destruct (sessions_set a b c)
       | |- context [chatHandler ?a ?b ?c ?d ?e ?f ?g] => destruct (chatHandler a b c d e f g) as [[] ?]
       | |- context [getHistory ?a ?b] => destruct (getHistory a b)
       end; simpl.
  all: first [left; split; reflexivity | right; left; split; [reflexivity | apply Hin; auto]
             | right; right; repeat split].
Qed.

(** Only the limiter answers 429. *)
Lemma appHandle_status_429 env req inp st :
  status (appHandle env req inp st).1 = 429 → limited inp = true.
Proof.
  unfold appHandle.
  destruct (bool_decide (method req = MOptions)); [discriminate |].
  destruct (payload req) as [| v | e]; [| | discriminate].
  all: destruct (apiPath (path req) && limited inp) eqn:E; [by apply andb_prop in E as [_ ->] |].
  all: destruct (matchRoute (method req) (path req)); unfold healthRoute, startSession; cbn zeta.
  all: repeat match goal with
       | |- context [js_toISOString ?t] => destruct (js_toISOString t)
       | |- context [sessions_set ?a ?b ?c] => destruct (sessions_set a b c)
       | |- context [chatHandler ?a ?b ?c ?d ?e ?f ?g] => destruct (chatHandler a b c d e f g) as [[] ?]
       | |- context [getHistory ?a ?b] => destruct (getHistory a b)
       end; simpl; discriminate.
Qed.

(** A request that gets past the preflight and the body parser on a path
    under [/api] is refused by a limiting verdict, before any route. *)
Lemma appHandle_limited env req inp st :
  method req ≠ MOptions → (∀ e', payload req ≠ BadBody e') → apiPath (path req) = true →
  limited inp = true →
  appHandle env req inp st = (mkResponse 429 (BodyText (limitMessage limiter)), st).
Proof.
  intros Hm Hp Ha Hl. unfold appHandle. rewrite bool_decide_false by done.
  destruct (payload req) as [| v | e']; [| | by destruct (Hp e')]; by rewrite Ha, Hl.
Qed.

(** A chat request whose body the JSON parser rejects (malformed, or over
    10 MB) is answered by the error middleware with 500 "Internal server
    error", although the parser marks the error as the client's (400 or
    413). *)
Lemma malformed_body_is_500 env inp st e sid :
  appHandle env (mkRequest MPost [str "api"; str "chat"; sid] (BadBody e)) inp st =
    (errorHandler env e, st) ∧ status (errorHandler env e) = 500.
Proof. split; reflexivity. Qed.

End Routes.
