(* ===== verification/Server.v ===== *)
(** * The server as a step relation over interleaved requests

    Node runs one handler segment at a time, and the chat handler yields
    at its [await]: between the two halves of one chat request any other
    request, the provider's completion of another chat, the hourly sweep
    ([setInterval], server.js lines 330-339) or the passing of time can
    run.  The state is the store, the chat requests suspended at their
    await ([pending], each with its [session] reference) and the clock.
    [step] has one rule per event: a start request, the first half of a
    chat request, the second half of a pending one with the provider's
    outcome, a sweep, and a clock tick.  The invariant [Inv], proved for
    every reachable state by rule induction, says that the store is
    well-formed, that every pending request refers to an allocated object
    and holds a valid crisis payload, and that every object's messages are
    valid (user messages non-blank, assistant payloads absent or the
    static one) with [createdAt <= lastActivity <= clock].  The sweep may
    run at any moment (an over-approximation of the hourly timer).  The
    executable runner [runTrace] has exactly the runs of [step].  What the
    await allows: whenever the sweep removes a session during a request's
    await, the reply is recorded into the orphaned object; and, as a
    concrete interleaving, two requests on one session whose turns
    interleave. *)

From S2P Require Import Prelude JsBuiltins Crisis Store Prompt Chat.
From Stdlib Require Strings.String.
Import (notations) Stdlib.Strings.String.
Import Crisis Store Prompt Chat.

Local Open Scope Z_scope.

Module Server.

Record Server := mkServer {
  store : Store;
  pending : list Pending;
  clock : Z
}.

Definition initServer (t : Z) : Server := mkServer emptyStore [] t.

Section Steps.
Context (env : Env).

Inductive step : Server → Server → Prop :=
  | step_start random s :
      step s (mkServer (startSession random (clock s) (store s)).2 (pending s) (clock s))
  | step_chat_begin k body p st' s :
      chatBegin env k body (clock s) (store s) = inr (p, st') →
      step s (mkServer st' (pending s ++ [p]) (clock s))
  | step_chat_finish i p outcome s :
      pending s !! i = Some p →
      step s (mkServer (chatFinish env p outcome (clock s) (store s)).2
                (delete i (pending s)) (clock s))
  | step_sweep s :
      step s (mkServer (sweep (clock s) (store s)) (pending s) (clock s))
  | step_tick d s :
      0 <= d → step s (mkServer (store s) (pending s) (clock s + d)).

Definition reachable (t : Z) (s : Server) : Prop := rtc step (initServer t) s.
End Steps.

(** ** An executable run of events

    [runEvent] performs one event and returns the answer it sends, if
    any; a chat request answered before its await (400 or 500) changes
    nothing and is a stutter of [step]. *)

Inductive Event :=
  | EvStart (random : jsstring)
  | EvChat (sessionId : jsstring) (body : JsValue)
  | EvFinish (i : nat) (outcome : ProviderResult)
  | EvSweep
  | EvTick (d : Z).

Definition runEvent (env : Env) (e : Event) (s : Server) : option (Server * option ChatResponse) :=
  match e with
  | EvStart random =>
      Some (mkServer (startSession random (clock s) (store s)).2 (pending s) (clock s), None)
  | EvChat k body =>
      match chatBegin env k body (clock s) (store s) with
      | inl r => Some (s, Some r)
      | inr (p, st') => Some (mkServer st' (pending s ++ [p]) (clock s), None)
      end
  | EvFinish i outcome =>
      p ← pending s !! i;
      let '(r, st') := chatFinish env p outcome (clock s) (store s) in
      Some (mkServer st' (delete i (pending s)) (clock s), Some r)
  | EvSweep => Some (mkServer (sweep (clock s) (store s)) (pending s) (clock s), None)
  | EvTick d => if 0 <=? d then Some (mkServer (store s) (pending s) (clock s + d), None)
                else None
  end.

(** Run the events in order, collecting the answers sent. *)
Fixpoint runTrace (env : Env) (es : list Event) (s : Server)
    : option (Server * list ChatResponse) :=
  match es with
  | [] => Some (s, [])
  | e :: es' =>
      '(s1, r) ← runEvent env e s;
      '(s2, rs) ← runTrace env es' s1;
      Some (s2, option_list r ++ rs)
  end.

(** ** The invariant *)

Definition crisisOk (c : option CrisisInfo) : Prop :=
  c = None ∨ c = Some getCrisisResources.

Definition msgOk (m : ChatMessage) : Prop :=
  match m with
  | UserMessage c _ => ¬ blank c
  | AiMessage _ _ cr => crisisOk cr
  end.

Definition objOk (now : Z) (o : Session) : Prop :=
  Forall msgOk (messages o) ∧ createdAt o <= lastActivity o <= now.

Definition heapOk (now : Z) (st : Store) : Prop :=
  map_Forall (λ _ o, objOk now o) (heap st).

Definition pendingOk (st : Store) (p : Pending) : Prop :=
  is_Some (heap st !! p_loc p) ∧ crisisOk (p_crisisInfo p).

Definition Inv (s : Server) : Prop :=
  wf (store s) ∧ heapOk (clock s) (store s) ∧ Forall (pendingOk (store s)) (pending s).

(** ** Preservation by each operation *)

Definition grows (st st' : Store) : Prop :=
  ∀ l, is_Some (heap st !! l) → is_Some (heap st' !! l).

Lemma objOk_mono now now' o : now <= now' → objOk now o → objOk now' o.
Proof. intros ? [? ?]. split; [done | lia]. Qed.

Lemma heapOk_mono now now' st : now <= now' → heapOk now st → heapOk now' st.
Proof. intros Hle H l o Ho. eapply objOk_mono; [done | exact (H l o Ho)]. Qed.

Lemma heapOk_modify now l f st :
  (∀ o, objOk now o → objOk now (f o)) → heapOk now st → heapOk now (modify l f st).
Proof.
  intros Hf H l' o. simpl. destruct (decide (l = l')) as [<-|Hne].
  - rewrite lookup_alter_eq. destruct (heap st !! l) as [o0|] eqn:E; [| discriminate].
    intros [= <-]. apply Hf, (H l o0 E).
  - rewrite lookup_alter_ne by done. apply H.
Qed.

Lemma grows_modify l f st : grows st (modify l f st).
Proof. intros l' Hl'. simpl. by rewrite lookup_alter_is_Some. Qed.

Lemma heapOk_set now k obj st :
  objOk now obj → heapOk now st → heapOk now (sessions_set k obj st).1.
Proof. intros Ho H. simpl. by apply map_Forall_insert_2. Qed.

Lemma grows_set k obj st : grows st (sessions_set k obj st).1.
Proof.
  intros l Hl. simpl. rewrite lookup_insert_is_Some'. by right.
Qed.

Lemma grows_trans st1 st2 st3 : grows st1 st2 → grows st2 st3 → grows st1 st3.
Proof. intros H1 H2 l Hl. by apply H2, H1. Qed.

Lemma objOk_new now k : objOk now (newSession k now).
Proof. split; [constructor | simpl; lia]. Qed.

Lemma objOk_setLastActivity now o : objOk now o → objOk now (setLastActivity now o).
Proof. intros [Hm Ht]. split; [done | simpl; lia]. Qed.

Lemma objOk_push now m o : msgOk m → objOk now o → objOk now (pushMessage m o).
Proof. intros Hm [Hms Ht]. split; [simpl; apply Forall_app; auto | done]. Qed.

Lemma objOk_trim now o : objOk now o → objOk now (trimSession o).
Proof.
  intros [Hms Ht]. split; [| done]. simpl.
  rewrite trimMessages_drop. rewrite <- (take_drop (length (messages o) - 20) (messages o)) in Hms. by apply Forall_app in Hms as [_ ?].
Qed.

#[export] Hint Resolve objOk_new objOk_setLastActivity objOk_push objOk_trim
  heapOk_modify heapOk_set grows_modify grows_set : saathi.

Lemma getOrCreate_pres now k st l st' :
  getOrCreate k now st = (l, st') → heapOk now st → heapOk now st' ∧ grows st st'.
Proof.
  unfold getOrCreate. destruct (sessions st !! k).
  - intros [= <- <-] H. split; [done | by intros ?].
  - intros [= <- <-] H. split; [apply heapOk_set; auto with saathi | apply grows_set].
Qed.

Lemma crisisOf_ok message : crisisOk (crisisOf message).
Proof. unfold crisisOf, crisisOk. destruct (containsCrisisKeywords message); auto. Qed.

(** The first half of a chat request keeps the store valid, and the
    request it suspends refers to an allocated object. *)
Lemma chatBegin_pres env k body now st p st' :
  chatBegin env k body now st = inr (p, st') → wf st → heapOk now st →
  wf st' ∧ heapOk now st' ∧ pendingOk st' p ∧ grows st st'.
Proof.
  intros Hb Hwf Hok. unfold chatBegin in Hb.
  destruct (js_truthy body); [| discriminate]. destruct body as [| | | |message|]; try discriminate.
  simpl in Hb. rewrite blank_dec in Hb.
  destruct (bool_decide (blank message)) eqn:Hbl; [discriminate |].
  apply bool_decide_eq_false in Hbl.
  destruct (getOrCreate k now st) as [l st1] eqn:Hg. injection Hb as <- <-.
  destruct (getOrCreate_pres _ _ _ _ _ Hg Hok) as [Hok1 Hgr1].
  destruct (getOrCreate_lookup _ _ _ _ _ Hwf Hg) as (_ & Hs & Hwf1).
  split; [apply modify_wf; [apply modify_wf |]; auto |].
  split; [apply heapOk_modify; [intros; apply objOk_push; auto | auto with saathi] |].
  split; [split; [simpl; rewrite !lookup_alter_is_Some; by eexists | apply crisisOf_ok] |].
  eapply grows_trans; [exact Hgr1 |].
  eapply grows_trans; apply grows_modify.
Qed.

(** The second half keeps the store valid, whatever the outcome. *)
Lemma chatFinish_pres env p outcome now st :
  pendingOk st p → wf st → heapOk now st →
  wf (chatFinish env p outcome now st).2 ∧ heapOk now (chatFinish env p outcome now st).2 ∧
  grows st (chatFinish env p outcome now st).2.
Proof.
  intros [_ Hcr] Hwf Hok. unfold chatFinish.
  destruct (p_call p); [simpl; split; [done | split; [done | by intros ?]] |].
  destruct outcome as [ai|e]; [| simpl; split; [done | split; [done | by intros ?]]].
  simpl.
  assert (crisisOk (if p_isCrisis p then p_crisisInfo p else None)) as Hc.
  { destruct (p_isCrisis p); [done | by left]. }
  split; [apply modify_wf; [apply modify_wf |]; auto |].
  split; [apply heapOk_modify; [auto with saathi |] |].
  - apply heapOk_modify; [intros; by apply objOk_push | done].
  - eapply grows_trans; apply grows_modify.
Qed.

Lemma pending_grows st st' ps :
  grows st st' → Forall (pendingOk st) ps → Forall (pendingOk st') ps.
Proof.
  intros Hg Hf. eapply Forall_impl; [exact Hf |]. intros p [Hs Hc]. split; [by apply Hg | done].
Qed.

#[export] Hint Resolve pending_grows : saathi.

(** Every step preserves the invariant. *)
Lemma step_Inv env s s' : step env s s' → Inv s → Inv s'.
Proof.
  intros Hstep (Hwf & Hok & Hp). destruct Hstep as [random s | k body p st' s Hb
    | i p outcome s Hi | s | d s Hd]; unfold Inv; simpl.
  - unfold startSession. simpl. split; [by apply sessions_set_wf |].
    split; [apply heapOk_set; auto with saathi |].
    eapply pending_grows; [apply grows_set | done].
  - destruct (chatBegin_pres _ _ _ _ _ _ _ Hb Hwf Hok) as (Hwf' & Hok' & Hpo & Hg).
    split; [done |]. split; [done |].
    apply Forall_app. split; [eauto with saathi | by constructor].
  - pose proof (proj1 (Forall_lookup _ _) Hp _ _ Hi) as Hpi.
    destruct (chatFinish_pres env p outcome (clock s) (store s) Hpi Hwf Hok)
      as (Hwf' & Hok' & Hg).
    split; [done |]. split; [done |].
    apply Forall_delete. eauto with saathi.
  - split; [by apply sweep_wf |]. split; [done |].
    eapply Forall_impl; [exact Hp |]. intros p [Hs Hc]. by split.
  - split; [done |]. split; [eapply heapOk_mono; [| exact Hok]; lia | done].
Qed.

Lemma Inv_init t : Inv (initServer t).
Proof. split; [apply wf_emptyStore |]. split; [apply map_Forall_empty | constructor]. Qed.

Lemma rtc_Inv env s s' : rtc (step env) s s' → Inv s → Inv s'.
Proof. induction 1; eauto using step_Inv. Qed.

(** C9. Every state reachable from an empty server satisfies the invariant:
    the store is well-formed, every pending request refers to an allocated
    session object and holds the static crisis payload or none, every
    stored user message is non-blank, every stored crisis payload is the
    static one, and [createdAt <= lastActivity <= clock]. *)
Theorem reachable_Inv env t s : reachable env t s → Inv s.
Proof. intros Hr. apply (rtc_Inv env (initServer t)); [exact Hr | apply Inv_init]. Qed.

(** ** The executable run refines the step relation *)

Lemma runEvent_sound env e s s' r :
  runEvent env e s = Some (s', r) → rtc (step env) s s'.
Proof.
  destruct e as [random|k body|i outcome| |d]; simpl.
  - intros [= <- _]. apply rtc_once, step_start.
  - destruct (chatBegin env k body (clock s) (store s)) as [r'|[p st']] eqn:Hb.
    + intros [= <- _]. apply rtc_refl.
    + intros [= <- _]. apply rtc_once. by eapply step_chat_begin.
  - destruct (pending s !! i) as [p|] eqn:Hi; simpl; [| discriminate].
    destruct (chatFinish env p outcome (clock s) (store s)) as [r' st'] eqn:Hf.
    intros [= <- _]. apply rtc_once.
    replace st' with (chatFinish env p outcome (clock s) (store s)).2 by by rewrite Hf.
    by apply step_chat_finish.
  - intros [= <- _]. apply rtc_once, step_sweep.
  - destruct (0 <=? d) eqn:Hd; [| discriminate]. intros [= <- _].
    apply rtc_once, step_tick. by apply Z.leb_le.
Qed.

Lemma runTrace_rtc env es s s' rs :
  runTrace env es s = Some (s', rs) → rtc (step env) s s'.
Proof.
  revert s rs. induction es as [|e es IH]; intros s rs; simpl.
  - intros [= <- _]. apply rtc_refl.
  - destruct (runEvent env e s) as [[s1 r]|] eqn:He; simpl; [| discriminate].
    destruct (runTrace env es s1) as [[s2 rs']|] eqn:Ht; simpl; [| discriminate].
    intros [= <- _]. eapply rtc_trans; [by eapply runEvent_sound | by eapply IH].
Qed.

(** Conversely every step is one event of the executable server. *)
Theorem step_runEvent env s s' :
  step env s s' → ∃ e r, runEvent env e s = Some (s', r).
Proof.
  destruct 1 as [random s | k body p st' s Hb | i p outcome s Hi | s | d s Hd].
  - by exists (EvStart random), None.
  - exists (EvChat k body), None. simpl. by rewrite Hb.
  - exists (EvFinish i outcome), (Some (chatFinish env p outcome (clock s) (store s)).1).
    simpl. rewrite Hi. simpl. by destruct (chatFinish env p outcome (clock s) (store s)).
  - by exists EvSweep, None.
  - exists (EvTick d), None. simpl. apply Z.leb_le in Hd. by rewrite Hd.
Qed.


Definition t0 : Z := 1700000000000.

Definition orphanEvents : list Event :=
  [EvChat (str "s") (JStr (str "hello")); EvTick 3600001; EvSweep;
   EvFinish 0 (ProviderText (str "hi"))].

Definition orphanResult : Server * list ChatResponse :=
  default (initServer t0, []) (runTrace devEnv orphanEvents (initServer t0)).

(** The sweep drops the entry of a session found idle for more than an
    hour, and keeps its object in the heap. *)
Lemma sweep_drops k l obj now st :
  sessions st !! k = Some l → heap st !! l = Some obj → isStale now obj = true →
  sessions (sweep now st) !! k = None.
Proof.
  intros Hk Hl Hs. unfold sweep. simpl. rewrite map_lookup_filter, Hk. simpl.
  unfold keepEntry. by rewrite Hl, Hs.
Qed.

(** The handler's second half after a sweep that dropped its session. *)
Lemma chatFinish_after_sweep env p q ai ts tf st obj :
  p_call p = CallIssued q →
  sessions st !! p_sessionId p = Some (p_loc p) → heap st !! p_loc p = Some obj →
  isStale ts obj = true →
  let crisis := if p_isCrisis p then p_crisisInfo p else None in
  let kept := trimMessages (messages obj ++ [AiMessage ai tf crisis]) in
  chatFinish env p (ProviderText ai) tf (sweep ts st) =
    (ChatOk ai crisis (p_sessionId p) (length kept), (chatFinish env p (ProviderText ai) tf (sweep ts st)).2) ∧
  sessionMessages (p_loc p) (chatFinish env p (ProviderText ai) tf (sweep ts st)).2 = kept ∧
  getHistory (p_sessionId p) (chatFinish env p (ProviderText ai) tf (sweep ts st)).2 =
    HistoryNotFound.
Proof.
  intros Hc Hk Hl Hs. cbv zeta. unfold chatFinish. rewrite Hc. cbn [fst snd].
  assert (heap (sweep ts st) !! p_loc p = Some obj) as Hl' by exact Hl.
  pose proof (modify_lookup_eq _ (pushMessage (AiMessage ai tf
    (if p_isCrisis p then p_crisisInfo p else None))) _ _ Hl') as H1.
  pose proof (modify_lookup_eq _ trimSession _ _ H1) as H2.
  unfold sessionMessages. rewrite !H2. split; [reflexivity |]. split; [reflexivity |].
  unfold getHistory. cbn [modify sessions]. by rewrite (sweep_drops _ _ obj ts st Hk Hl Hs).
Qed.

(** C19. A reply can be recorded into a session that no longer exists.
    Whenever the sweep runs while a chat request waits at its await and
    finds the session idle for more than an hour (the provider took that
    long), it removes the entry; when the provider then answers, the
    handler, which holds the object, pushes the reply into the orphaned
    object and answers 200 with the reply and the orphan's message count,
    while the history of the id is 404. *)
Theorem reply_into_swept_session env s i p q ai obj :
  pending s !! i = Some p → p_call p = CallIssued q →
  sessions (store s) !! p_sessionId p = Some (p_loc p) →
  heap (store s) !! p_loc p = Some obj → isStale (clock s) obj = true →
  let crisis := if p_isCrisis p then p_crisisInfo p else None in
  let kept := trimMessages (messages obj ++ [AiMessage ai (clock s) crisis]) in
  ∃ s1 s2, runEvent env EvSweep s = Some (s1, None) ∧
    runEvent env (EvFinish i (ProviderText ai)) s1 =
      Some (s2, Some (ChatOk ai crisis (p_sessionId p) (length kept))) ∧
    sessionMessages (p_loc p) (store s2) = kept ∧
    getHistory (p_sessionId p) (store s2) = HistoryNotFound.
Proof.
  intros Hi Hc Hk Hl Hs. cbv zeta.
  destruct (chatFinish_after_sweep env p q ai (clock s) (clock s) (store s) obj Hc Hk Hl Hs)
    as (Hr & Hm & Hh).
  eexists _, _. split; [reflexivity |]. simpl. rewrite Hi. simpl. rewrite Hr.
  split; [reflexivity |]. by split.
Qed.

Definition interleavedEvents : list Event :=
  [EvChat (str "s") (JStr (str "a")); EvChat (str "s") (JStr (str "b"));
   EvFinish 0 (ProviderText (str "A")); EvFinish 0 (ProviderText (str "B"))].

(** Two requests on one session interleave at the await: both user
    messages are stored before either reply, so the history reads
    [a, b, A, B] and the answers report counts 3 and 4. *)
Theorem interleaved_requests :
  match runTrace devEnv interleavedEvents (initServer t0) with
  | Some (s, rs) =>
      rtc (step devEnv) (initServer t0) s ∧
      rs = [ChatOk (str "A") None (str "s") 3; ChatOk (str "B") None (str "s") 4] ∧
      match getHistory (str "s") (store s) with
      | HistoryOk ms _ _ _ _ => map msg_content ms = [str "a"; str "b"; str "A"; str "B"]
      | HistoryNotFound => False
      end
  | None => False
  end.
Proof.
  destruct (runTrace devEnv interleavedEvents (initServer t0)) as [[s rs]|] eqn:E.
  - split; [exact (runTrace_rtc _ _ _ _ _ E) |].
    vm_compute in E. injection E as <- <-. vm_compute. split; reflexivity.
  - vm_compute in E. discriminate.
Qed.

(** ** Progress *)

(** From every reachable state the server can answer every request
    suspended at its await (whatever the provider's outcome) and come to a
    state with nothing pending, the invariant holding there: no request
    waits on another, and answering one never blocks. *)
Theorem reachable_eventually_quiescent env t s :
  reachable env t s → eventually (step env) (λ s', pending s' = [] ∧ Inv s') s.
Proof.
  intros Hr.
  apply (eventually_by_measure (step env) (λ s, length (pending s)) _ Inv);
    [| apply (rtc_Inv env (initServer t)); [exact Hr | apply Inv_init]].
  intros s' HI. destruct (pending s') as [|p ps] eqn:Hp; [by left |]. right.
  assert (step env s' (mkServer (chatFinish env p (ProviderFailure []) (clock s') (store s')).2
                         (delete 0%nat (pending s')) (clock s'))) as Hs
    by (apply step_chat_finish; by rewrite Hp).
  eexists. split; [exact Hs |]. split; [exact (step_Inv env _ _ Hs HI) |].
  simpl. rewrite Hp. simpl. lia.
Qed.

(** ** Witnesses *)

(** A request on a fresh session, suspended at its await for an hour and
    a millisecond. *)
Definition awaitingEvents : list Event := [EvChat (str "s") (JStr (str "hello")); EvTick 3600001].

Definition awaiting : Server :=
  fst (default (initServer t0, []) (runTrace devEnv awaitingEvents (initServer t0))).

Definition awaitingReq : Pending :=
  default {| p_sessionId := []; p_loc := 1%positive; p_isCrisis := false;
             p_crisisInfo := None; p_call := CallRejected [] |} (pending awaiting !! 0%nat).

Definition awaitingPrompt : jsstring :=
  match p_call awaitingReq with CallIssued q => q | CallRejected _ => [] end.

Definition awaitingObj : Session :=
  default (newSession [] 0) (heap (store awaiting) !! p_loc awaitingReq).

Lemma awaiting_reachable : reachable devEnv t0 awaiting.
Proof. apply (runTrace_rtc devEnv awaitingEvents _ _ []). vm_compute. reflexivity. Qed.

Lemma reachable_Inv_witness : reachable devEnv t0 awaiting ∧ Inv awaiting.
Proof. split; [exact awaiting_reachable | exact (reachable_Inv devEnv t0 awaiting awaiting_reachable)]. Defined.

Lemma reply_into_swept_session_witness :
  let p := awaitingReq in
  let crisis := if p_isCrisis p then p_crisisInfo p else None in
  let kept := trimMessages (messages awaitingObj ++ [AiMessage (str "hi") (clock awaiting) crisis]) in
  ∃ s1 s2, runEvent devEnv EvSweep awaiting = Some (s1, None) ∧
    runEvent devEnv (EvFinish 0 (ProviderText (str "hi"))) s1 =
      Some (s2, Some (ChatOk (str "hi") crisis (p_sessionId p) (length kept))) ∧
    sessionMessages (p_loc p) (store s2) = kept ∧
    getHistory (p_sessionId p) (store s2) = HistoryNotFound.
Proof.
  exact (reply_into_swept_session devEnv awaiting 0 awaitingReq awaitingPrompt (str "hi")
           awaitingObj ltac:(vm_compute; reflexivity) ltac:(vm_compute; reflexivity)
           ltac:(vm_compute; reflexivity) ltac:(vm_compute; reflexivity)
           ltac:(vm_compute; reflexivity)).
Defined.

Lemma step_runEvent_witness :
  ∃ e r, runEvent devEnv e (initServer t0) =
    Some (mkServer (sweep t0 emptyStore) [] t0, r).
Proof. apply (step_runEvent devEnv (initServer t0)). apply (step_sweep devEnv (initServer t0)). Defined.

End Server.
