(* ===== verification/Client.v ===== *)
(** * The React client (src/saathi-frontend/src/App.js)

    The [App] component's seven [useState] cells are the record [Client];
    its asynchronous work in flight (the [fetch] of [startSession], the
    one-second welcome [setTimeout], the [fetch] of [sendMessage]) is the
    list of [Task]s of a [World].  Each handler is one definition, run on
    the state the last render committed: [startSession] is split at its
    [await] into the click ([ClickStart]) and the settlement
    ([settleStart]); [sendMessage] likewise into [sendMessage] and
    [settleChat], whose [finally] clears the two flags.  The view ([render],
    with [Message] and [CrisisAlert]) decides which controls exist and
    which are disabled, and [clientEvent] admits a user event only on a
    control the view shows enabled.  Replies are inputs: what
    [response.json()] resolves to, or a rejection with its message. *)

From S2P Require Import Prelude JsBuiltins Crisis.
From Stdlib Require Strings.String.
Import (notations) Stdlib.Strings.String.
Import Crisis.

Local Open Scope Z_scope.

Module Client.

(** ** State (lines 4-10) *)

Inductive Role := RoleUser | RoleAssistant.

#[export] Instance Role_eq_dec : EqDecision Role.
Proof. solve_decision. Defined.

(** A message object.  Fields a message lacks in the source ([crisis] on
    a user message, [isError] except on the error fallback) are [None] and
    [false]: the view reads them only for truthiness. *)
Record UiMessage := mkUiMessage {
  role : Role;
  content : jsstring;
  timestamp : Z;
  crisis : option CrisisInfo;
  isError : bool
}.

Record Client := mkClient {
  sessionId : option jsstring;
  messages : list UiMessage;
  inputMessage : jsstring;
  isLoading : bool;
  isTyping : bool;
  error : option jsstring;
  showWelcome : bool
}.

Definition initClient : Client := mkClient None [] [] false false None true.

(** Asynchronous work the component has started and not yet seen settle. *)
Inductive Task :=
  | StartFetch
  | WelcomeTimer
  | ChatFetch (sid message : jsstring).

Record World := mkWorld { ui : Client; tasks : list Task }.

Definition initWorld : World := mkWorld initClient [].

(** A string state used as a condition: [null] and [""] are falsy. *)
Definition truthy_str (o : option jsstring) : option jsstring :=
  match o with Some (c :: s) => Some (c :: s) | _ => None end.

(** ** Literals *)

Definition welcomeText : jsstring :=
  str "Hello! " ++ [0x092E; 0x0948; 0x0902] ++ str " Saathi "
  ++ [0x0939; 0x0942; 0x0902; 0x0964]
  ++ str " I understand the pressures you face as an Indian student. Whether it's academic stress, family expectations, or just needing someone to talk to - I'm here for you. What would you like to share today?".

Definition startErrorText : jsstring :=
  str "Failed to start session. Please check if the backend server is running.".

Definition errorText : jsstring :=
  str "I'm sorry, I'm having trouble connecting right now. Please try again in a moment. If you're in crisis, please contact: Vandrevala Foundation: +91-9999-666-555".

Definition fallbackError : jsstring := str "Failed to get response".

(** ** [startSession] (lines 26-52) *)

(** What [await response.json()] gives, or a rejection of [fetch] or of
    [json()] (a network error, a non-JSON body such as the rate limiter's
    text). *)
Inductive StartReply :=
  | StartJson (success : bool) (sid : jsstring)
  | StartRejected.

(** Lines 35-51 after the await: on success set the id, hide the welcome
    screen and arm the one-second timer; a body without [success] does
    nothing; a rejection sets the error. *)
Definition settleStart (r : StartReply) (c : Client) : Client * list Task :=
  match r with
  | StartJson true sid =>
      (mkClient (Some sid) (messages c) (inputMessage c) (isLoading c)
         (isTyping c) (error c) false, [WelcomeTimer])
  | StartJson false _ => (c, [])
  | StartRejected =>
      (mkClient (sessionId c) (messages c) (inputMessage c) (isLoading c)
         (isTyping c) (Some startErrorText) (showWelcome c), [])
  end.

(** The timer's callback (lines 39-46) replaces the whole list. *)
Definition welcomeMessage (now : Z) : UiMessage :=
  mkUiMessage RoleAssistant welcomeText now None false.

Definition fireWelcome (now : Z) (c : Client) : Client :=
  mkClient (sessionId c) [welcomeMessage now] (inputMessage c) (isLoading c)
    (isTyping c) (error c) (showWelcome c).

(** ** [sendMessage] (lines 55-105) *)

(** [!message.trim() || !sessionId || isLoading] *)
Definition sendGuard (message : jsstring) (c : Client) : bool :=
  bool_decide (js_trim message = []) || negb (bool_decide (is_Some (truthy_str (sessionId c))))
  || isLoading c.

(** Lines 56-78 up to the await: append the trimmed user message, clear
    the input, raise both flags, clear the error and issue the request. *)
Definition sendMessage (message : jsstring) (now : Z) (w : World) : World :=
  let c := ui w in
  if sendGuard message c then w else
  match truthy_str (sessionId c) with
  | None => w
  | Some sid =>
      let userMessage := mkUiMessage RoleUser (js_trim message) now None false in
      mkWorld (mkClient (sessionId c) (messages c ++ [userMessage]) [] true true None
                 (showWelcome c))
        (tasks w ++ [ChatFetch sid (js_trim message)])
  end.

(** The parsed body of the chat route. *)
Record ChatData := {
  d_success : bool;
  d_message : jsstring;
  d_crisis : option CrisisInfo;
  d_error : option jsstring
}.

Inductive ChatReply :=
  | ChatJson (d : ChatData)
  | ChatRejected (errMessage : jsstring).

(** [new Error(data.error || 'Failed to get response')].message *)
Definition errorOr (e : option jsstring) : jsstring :=
  default fallbackError (truthy_str e).

(** The body's data on success, or the [message] of the error caught. *)
Definition chatOutcome (r : ChatReply) : jsstring + ChatData :=
  match r with
  | ChatRejected e => inl e
  | ChatJson d => if d_success d then inr d else inl (errorOr (d_error d))
  end.

Definition aiMessage (d : ChatData) (now : Z) : UiMessage :=
  mkUiMessage RoleAssistant (d_message d) now (d_crisis d) false.

Definition errorMessage (now : Z) : UiMessage :=
  mkUiMessage RoleAssistant errorText now None true.

(** Lines 80-104 after the await: [try] appends the answer, [catch] sets
    the error and appends the fallback, [finally] clears both flags. *)
Definition settleChat (r : ChatReply) (now : Z) (c : Client) : Client :=
  match chatOutcome r with
  | inr d =>
      mkClient (sessionId c) (messages c ++ [aiMessage d now]) (inputMessage c)
        false false (error c) (showWelcome c)
  | inl e =>
      mkClient (sessionId c) (messages c ++ [errorMessage now]) (inputMessage c)
        false false (Some e) (showWelcome c)
  end.

(** ** Quick messages (lines 108-113) *)

Record QuickMessage := { text : jsstring; emoji : jsstring; label : jsstring }.

Definition quickMessages : list QuickMessage := [
  {| text := str "I am feeling stressed about exams"; emoji := [0xD83D; 0xDCDA];
     label := str "Exam Stress" |};
  {| text := str "Family pressure ho rahi hai";
     emoji := [0xD83D; 0xDC68; 0x200D; 0xD83D; 0xDC69; 0x200D; 0xD83D; 0xDC67; 0x200D;
               0xD83D; 0xDC66];
     label := str "Family Pressure" |};
  {| text := str "I feel anxious about my future"; emoji := [0xD83D; 0xDE30];
     label := str "Career Anxiety" |};
  {| text := str "Mood theek nahi hai aaj"; emoji := [0xD83D; 0xDE14];
     label := str "Feeling Low" |} ].

(** ** The view (lines 124-324) *)

(** One line of [CrisisAlert]: the name, the [tel:] link, the number. *)
Record HelplineView := { hv_name : jsstring; hv_href : jsstring; hv_phone : jsstring }.

Record AlertView := { av_helplines : list HelplineView; av_message : jsstring }.

(** [CrisisAlert] (lines 166-181): [crisis.resources.slice(0, 2)] and
    [crisis.message]. *)
Definition CrisisAlert (c : CrisisInfo) : AlertView :=
  {| av_helplines := map (λ r, {| hv_name := name r; hv_href := str "tel:" ++ phone r;
                                   hv_phone := phone r |}) (take 2 (resources c));
     av_message := message c |}.

Inductive BubbleStyle := UserBubble | ErrorBubble | AssistantBubble.

(** What [Message] (lines 124-163) shows of a message: the side and
    avatar ([isUser]), the bubble's colours, the text, the crisis alert and
    the time (its locale formatting is not modelled). *)
Record MessageView := {
  mv_isUser : bool;
  mv_style : BubbleStyle;
  mv_content : jsstring;
  mv_alert : option AlertView;
  mv_time : Z
}.

Definition Message (m : UiMessage) : MessageView :=
  let isUser := bool_decide (role m = RoleUser) in
  {| mv_isUser := isUser;
     mv_style := if isUser then UserBubble else if isError m then ErrorBubble
                 else AssistantBubble;
     mv_content := content m;
     mv_alert := CrisisAlert <$> crisis m;
     mv_time := timestamp m |}.

(** The typing indicator (lines 182-203): the avatar letter, the label
    and three bouncing dots keyed 0, 1 and 2 (their animation delays are
    CSS and not modelled). *)
Record TypingView := { tv_avatar : jsstring; tv_label : jsstring; tv_dots : list nat }.

Definition TypingIndicator : TypingView :=
  {| tv_avatar := str "S"; tv_label := str "Saathi is typing"; tv_dots := [0; 1; 2]%nat |}.

(** The chat interface (lines 243-320), rendered when [sessionId] is
    truthy. *)
Record ChatView := {
  cv_messages : list MessageView;
  cv_typing : option TypingView;
  cv_quickEnabled : bool;
  cv_input : jsstring;
  cv_inputEnabled : bool;
  cv_sendEnabled : bool;
  cv_spinner : bool;
  cv_charCount : nat;
  cv_errorBox : option jsstring
}.

Record View := {
  v_session : option jsstring;
  v_welcome : bool;
  v_chat : option ChatView
}.

Definition render (c : Client) : View :=
  {| v_session := js_slice (-8) <$> truthy_str (sessionId c);
     v_welcome := showWelcome c;
     v_chat :=
       match truthy_str (sessionId c) with
       | None => None
       | Some _ => Some {|
           cv_messages := map Message (messages c);
           cv_typing := if isTyping c then Some TypingIndicator else None;
           cv_quickEnabled := negb (isLoading c);
           cv_input := inputMessage c;
           cv_inputEnabled := negb (isLoading c);
           cv_sendEnabled := negb (isLoading c || bool_decide (js_trim (inputMessage c) = []));
           cv_spinner := isLoading c;
           cv_charCount := length (inputMessage c);
           cv_errorBox := truthy_str (error c) |}
       end |}.

(** ** Events *)

(** A user acts on a control the view shows enabled, or a task settles. *)
Inductive UiEvent :=
  | ClickStart
  | StartSettles (i : nat) (r : StartReply)
  | TimerFires (i : nat) (now : Z)
  | TypeInput (value : jsstring)
  | PressKey (key : jsstring) (shiftKey : bool) (now : Z)
  | ClickQuick (k : nat) (now : Z)
  | ClickSend (now : Z)
  | ChatSettles (i : nat) (r : ChatReply) (now : Z).

(** [handleKeyPress] (lines 116-121). *)
Definition handleKeyPress (key : jsstring) (shiftKey : bool) (now : Z) (w : World) : World :=
  if bool_decide (key = str "Enter") && negb shiftKey
  then sendMessage (inputMessage (ui w)) now w else w.

Definition setInputMessage (v : jsstring) (c : Client) : Client :=
  mkClient (sessionId c) (messages c) v (isLoading c) (isTyping c) (error c) (showWelcome c).

Definition chatView (w : World) : option ChatView := v_chat (render (ui w)).

(** The effect of one event, [None] when the control is not rendered or
    disabled, or the task does not exist.  The input's [maxLength={500}]
    bounds what typing can produce. *)
Definition clientEvent (e : UiEvent) (w : World) : option World :=
  let c := ui w in
  match e with
  | ClickStart => if showWelcome c then Some (mkWorld c (tasks w ++ [StartFetch])) else None
  | StartSettles i r =>
      match tasks w !! i with
      | Some StartFetch =>
          let '(c', ts) := settleStart r c in Some (mkWorld c' (delete i (tasks w) ++ ts))
      | _ => None
      end
  | TimerFires i now =>
      match tasks w !! i with
      | Some WelcomeTimer => Some (mkWorld (fireWelcome now c) (delete i (tasks w)))
      | _ => None
      end
  | TypeInput v =>
      match chatView w with
      | Some cv =>
          if cv_inputEnabled cv && (length v <=? 500)%nat
          then Some (mkWorld (setInputMessage v c) (tasks w)) else None
      | None => None
      end
  | PressKey key shiftKey now =>
      match chatView w with
      | Some cv => if cv_inputEnabled cv then Some (handleKeyPress key shiftKey now w) else None
      | None => None
      end
  | ClickQuick k now =>
      match chatView w, quickMessages !! k with
      | Some cv, Some q => if cv_quickEnabled cv then Some (sendMessage (text q) now w) else None
      | _, _ => None
      end
  | ClickSend now =>
      match chatView w with
      | Some cv => if cv_sendEnabled cv then Some (sendMessage (inputMessage c) now w) else None
      | None => None
      end
  | ChatSettles i r now =>
      match tasks w !! i with
      | Some (ChatFetch _ _) => Some (mkWorld (settleChat r now c) (delete i (tasks w)))
      | _ => None
      end
  end.

Definition cstep (w w' : World) : Prop := ∃ e, clientEvent e w = Some w'.

Definition creachable (w : World) : Prop := rtc cstep initWorld w.

(** A run of events; [None] when one of them is not enabled. *)
Fixpoint runUi (es : list UiEvent) (w : World) : option World :=
  match es with
  | [] => Some w
  | e :: es' => clientEvent e w ≫= runUi es'
  end.

(** ** Invariants of the component *)

Definition chatWeight (t : Task) : nat := match t with ChatFetch _ _ => 1 | _ => 0 end.

(** The number of chat requests in flight. *)
Definition inFlight (ts : list Task) : nat := sum_list_with chatWeight ts.

(** The typing indicator and the spinner are up exactly while one chat
    request is in flight. *)
Definition flagsOk (w : World) : Prop :=
  isTyping (ui w) = isLoading (ui w) ∧
  inFlight (tasks w) = if isLoading (ui w) then 1%nat else 0%nat.

(** The shapes of the message objects the component creates. *)
Definition msgShape (m : UiMessage) : Prop :=
  match role m with
  | RoleUser => content m ≠ [] ∧ crisis m = None ∧ isError m = false
  | RoleAssistant => isError m = true → content m = errorText ∧ crisis m = None
  end.

Definition cInv (w : World) : Prop := flagsOk w ∧ Forall msgShape (messages (ui w)).

Lemma cInv_init : cInv initWorld.
Proof. split; [split; reflexivity | constructor]. Qed.

(** [sendMessage] either returns at its guard or issues a request. *)
Lemma sendMessage_cases m now w :
  sendMessage m now w = w ∨
  ∃ sid, truthy_str (sessionId (ui w)) = Some sid ∧ isLoading (ui w) = false ∧
    js_trim m ≠ [] ∧
    sendMessage m now w =
      mkWorld (mkClient (sessionId (ui w))
                 (messages (ui w) ++ [mkUiMessage RoleUser (js_trim m) now None false])
                 [] true true None (showWelcome (ui w)))
        (tasks w ++ [ChatFetch sid (js_trim m)]).
Proof.
  unfold sendMessage, sendGuard.
  destruct (truthy_str (sessionId (ui w))) as [sid|] eqn:Hs;
    [| destruct (_ || _ || _); by left].
  rewrite (bool_decide_eq_true_2 (is_Some (Some sid))) by eauto. simpl.
  destruct (bool_decide (js_trim m = [])) eqn:E1; [by left |].
  destruct (isLoading (ui w)) eqn:E2; [by left |].
  right. exists sid. apply bool_decide_eq_false in E1. auto.
Qed.

Lemma sendMessage_cInv m now w : cInv w → cInv (sendMessage m now w).
Proof.
  intros [[Ht Hf] Hs].
  destruct (sendMessage_cases m now w) as [-> | (sid & _ & Hl & Hne & ->)]; [by split |].
  split; [split |]; simpl; [done | |].
  - unfold inFlight in *. by rewrite sum_list_with_app, Hf, Hl.
  - apply Forall_app; split; [done |]. by repeat constructor.
Qed.

Lemma handleKeyPress_cInv key sh now w : cInv w → cInv (handleKeyPress key sh now w).
Proof.
  unfold handleKeyPress. destruct (_ && _); [apply sendMessage_cInv | done].
Qed.

(** A settled task leaves the others. *)
Lemma inFlight_delete ts i t :
  ts !! i = Some t → (inFlight (delete i ts) + chatWeight t = inFlight ts)%nat.
Proof. apply sum_list_with_delete. Qed.

Lemma settleChat_shape r now c :
  Forall msgShape (messages c) → Forall msgShape (messages (settleChat r now c)).
Proof.
  intros Hs. unfold settleChat. destruct (chatOutcome r);
    simpl; apply Forall_app; split; try done; repeat constructor; done.
Qed.

(** Every event preserves the invariant. *)
Lemma clientEvent_cInv e w w' : cInv w → clientEvent e w = Some w' → cInv w'.
Proof.
  intros HI He. pose proof HI as [[Ht Hf] Hs].
  destruct e as [| i r | i now | v | key sh now | k now | now | i r now]; simpl in He.
  - destruct (showWelcome _); simplify_eq. split; [split |]; simpl; try done.
    unfold inFlight in *. by rewrite sum_list_with_app, Hf, Nat.add_0_r.
  - destruct (tasks w !! i) as [[] |] eqn:Hi; try done.
    pose proof (inFlight_delete _ _ _ Hi) as Hd.
    destruct r as [[] sid |]; simpl in He; simplify_eq; (split; [split |]); simpl; try done;
      unfold inFlight in *; rewrite ?sum_list_with_app; simpl in *;
      destruct (isLoading (ui w)); lia.
  - destruct (tasks w !! i) as [[] |] eqn:Hi; try done.
    pose proof (inFlight_delete _ _ _ Hi) as Hd. simplify_eq.
    split; [split |]; simpl; try done;
      [unfold inFlight in *; simpl in Hd; destruct (isLoading (ui w)); lia |].
    by repeat constructor.
  - destruct (chatView w) as [cv|]; [| done]. destruct (_ && _); simplify_eq; done.
  - destruct (chatView w) as [cv|]; [| done]. destruct (cv_inputEnabled cv); simplify_eq.
    by apply handleKeyPress_cInv.
  - destruct (chatView w), (quickMessages !! k); try done.
    destruct (cv_quickEnabled _); simplify_eq. by apply sendMessage_cInv.
  - destruct (chatView w) as [cv|]; [| done].
    destruct (cv_sendEnabled cv); simplify_eq. by apply sendMessage_cInv.
  - destruct (tasks w !! i) as [[] |] eqn:Hi; try done.
    pose proof (inFlight_delete _ _ _ Hi) as Hd. simplify_eq.
    split; [split | by apply settleChat_shape];
      unfold settleChat; destruct (chatOutcome r); simpl in *; try done;
      destruct (isLoading (ui w)); lia.
Qed.

Lemma creachable_cInv w : creachable w → cInv w.
Proof.
  apply rtc_invariant; [| apply cInv_init].
  intros a b HI [e He]. by eapply clientEvent_cInv.
Qed.

(** ** Progress *)

(** No task in flight and both flags down. *)
Definition quiescent (w : World) : Prop :=
  tasks w = [] ∧ isLoading (ui w) = false ∧ isTyping (ui w) = false.

(** A settlement of the first task that starts no new work. *)
Definition settleHead (t : Task) : UiEvent :=
  match t with
  | StartFetch => StartSettles 0 StartRejected
  | WelcomeTimer => TimerFires 0 0
  | ChatFetch _ _ => ChatSettles 0 (ChatRejected []) 0
  end.

Lemma settleHead_step w t ts :
  tasks w = t :: ts → ∃ w', clientEvent (settleHead t) w = Some w' ∧ tasks w' = ts.
Proof.
  intros Ht. destruct t; simpl; rewrite Ht; simpl; eexists;
    (split; [reflexivity | simpl; by rewrite ?app_nil_r]).
Qed.

(** The events no user performs: a task settles. *)
Definition isSettlement (e : UiEvent) : bool :=
  match e with StartSettles _ _ | TimerFires _ _ | ChatSettles _ _ _ => true | _ => false end.

Definition settleStep (w w' : World) : Prop :=
  ∃ e, isSettlement e = true ∧ clientEvent e w = Some w'.

(** A start request may arm one timer: it weighs two. *)
Definition taskWeight (t : Task) : nat := match t with StartFetch => 2 | _ => 1 end.

(** ** Theorems *)

(** C13. In every reachable state at most one chat request is in flight,
    and the spinner and the typing indicator are shown exactly while one
    is: the [isLoading] guard of [sendMessage] and the [finally] block
    keep the flags and the requests in step. *)
Theorem creachable_one_request w :
  creachable w →
  isTyping (ui w) = isLoading (ui w) ∧
  inFlight (tasks w) = if isLoading (ui w) then 1%nat else 0%nat.
Proof. intros Hr. apply (creachable_cInv w Hr). Qed.

(** C23. Every message the component shows has one of the shapes its code
    creates: a user message is non-empty and carries neither a crisis alert
    nor the error style; a message in the error style is the fallback text
    and carries no alert. *)
Theorem creachable_message_shapes w :
  creachable w → Forall msgShape (messages (ui w)).
Proof. intros Hr. apply (creachable_cInv w Hr). Qed.

(** C21. From every reachable state the component can reach a quiescent
    one: every request and timer settles without starting new work, and
    [finally] lowers both flags. *)
Theorem client_eventually_quiescent w :
  creachable w → eventually cstep quiescent w.
Proof.
  apply (eventually_by_measure cstep (λ w, length (tasks w))).
  intros w' Hr. destruct (tasks w') as [|t ts] eqn:Ht.
  - left. destruct (creachable_cInv _ Hr) as [[Hty Hf] _].
    rewrite Ht in Hf. unfold inFlight in Hf. simpl in Hf. unfold quiescent.
    rewrite Hty. destruct (isLoading (ui w')); [discriminate | done].
  - right. destruct (settleHead_step w' t ts Ht) as (w'' & He & Ht').
    exists w''. split; [by exists (settleHead t) |]. split.
    + eapply rtc_r; [exact Hr | by exists (settleHead t)].
    + cbn beta. rewrite Ht'. simpl. lia.
Qed.

(** C22. Without user input the component comes to rest: there is no
    infinite sequence of settlements, since a settled start request arms
    at most one one-shot timer and nothing else starts new work. *)
Theorem settlements_terminate w : Acc (λ w' w, settleStep w w') w.
Proof.
  apply (Acc_by_measure _ (λ w, sum_list_with taskWeight (tasks w))).
  intros a b (e & Hs & He).
  destruct e as [| i r | i now | | | | | i r now]; try discriminate; simpl in He;
    destruct (tasks a !! i) as [[] |] eqn:Hi; try discriminate;
    pose proof (sum_list_with_delete taskWeight _ _ _ Hi) as Hd; simpl in Hd;
    [destruct r as [[] sid |]; simpl in He |  |]; simplify_eq; simpl;
    rewrite ?sum_list_with_app; simpl; lia.
Qed.

(** C18. A send from a ready client, answered with success: the click
    issues one request for the current session with the trimmed input,
    and its settlement leaves the trimmed user message and the answer
    appended, the input cleared, no error and both flags down. *)
Theorem send_then_answer w sid now now' d :
  truthy_str (sessionId (ui w)) = Some sid → isLoading (ui w) = false →
  js_trim (inputMessage (ui w)) ≠ [] → d_success d = true →
  ∃ w1 w2,
    clientEvent (ClickSend now) w = Some w1 ∧
    tasks w1 = tasks w ++ [ChatFetch sid (js_trim (inputMessage (ui w)))] ∧
    clientEvent (ChatSettles (length (tasks w)) (ChatJson d) now') w1 = Some w2 ∧
    messages (ui w2) = messages (ui w) ++
      [mkUiMessage RoleUser (js_trim (inputMessage (ui w))) now None false; aiMessage d now'] ∧
    inputMessage (ui w2) = [] ∧ error (ui w2) = None ∧
    isLoading (ui w2) = false ∧ isTyping (ui w2) = false ∧ tasks w2 = tasks w.
Proof.
  intros Hs Hl Hne Hd.
  assert (sendGuard (inputMessage (ui w)) (ui w) = false) as Hg.
  { unfold sendGuard. rewrite Hs, Hl, bool_decide_eq_false_2 by done.
    by rewrite bool_decide_eq_true_2 by eauto. }
  unfold clientEvent at 1, chatView, render. rewrite Hs, Hl. simpl.
  rewrite (bool_decide_eq_false_2 _ Hne). simpl.
  unfold sendMessage. rewrite Hg, Hs.
  eexists _, _. split; [reflexivity |]. split; [reflexivity |]. simpl.
  rewrite lookup_app_r, Nat.sub_diag by done. simpl.
  rewrite delete_middle, app_nil_r. unfold settleChat. simpl. rewrite Hd.
  split; [reflexivity |]. simpl. by rewrite <- app_assoc.
Qed.

Lemma send_then_answer_witness :
  truthy_str (Some (str "s1")) = Some (str "s1") ∧ false = false ∧
  js_trim (str " hi ") ≠ [] ∧
  ∃ w1 w2,
    clientEvent (ClickSend 10) (mkWorld (mkClient (Some (str "s1")) [] (str " hi ") false false None false) []) = Some w1 ∧
    tasks w1 = [] ++ [ChatFetch (str "s1") (js_trim (str " hi "))] ∧
    clientEvent (ChatSettles 0 (ChatJson {| d_success := true; d_message := str "hello";
                                            d_crisis := None; d_error := None |}) 20) w1 = Some w2 ∧
    messages (ui w2) = [] ++
      [mkUiMessage RoleUser (js_trim (str " hi ")) 10 None false;
       aiMessage {| d_success := true; d_message := str "hello"; d_crisis := None; d_error := None |} 20] ∧
    inputMessage (ui w2) = [] ∧ error (ui w2) = None ∧
    isLoading (ui w2) = false ∧ isTyping (ui w2) = false ∧ tasks w2 = [].
Proof.
  split; [reflexivity |]. split; [reflexivity |]. split; [vm_compute; discriminate |].
  exact (send_then_answer (mkWorld (mkClient (Some (str "s1")) [] (str " hi ") false false None false) [])
           (str "s1") 10 20
           {| d_success := true; d_message := str "hello"; d_crisis := None; d_error := None |}
           eq_refl eq_refl ltac:(vm_compute; discriminate) eq_refl).
Defined.

(** The fallback text names the first helpline of the server's list,
    with its number. *)
Lemma errorText_helpline :
  ∃ r0, head (resources getCrisisResources) = Some r0 ∧
    name r0 `infix_of` errorText ∧ phone r0 `infix_of` errorText.
Proof.
  eexists. split; [reflexivity |]. split.
  - exists (str "I'm sorry, I'm having trouble connecting right now. Please try again in a moment. If you're in crisis, please contact: "),
      (str ": +91-9999-666-555"). vm_compute. reflexivity.
  - exists (str "I'm sorry, I'm having trouble connecting right now. Please try again in a moment. If you're in crisis, please contact: Vandrevala Foundation: "),
      []. vm_compute. reflexivity.
Qed.

(** The view after a failed request: the error bubble last, the caught
    message in the error box, both flags down. *)
Lemma settleChat_error_view r now c e :
  chatOutcome r = inl e → is_Some (truthy_str (sessionId c)) →
  ∃ cv, v_chat (render (settleChat r now c)) = Some cv ∧
    last (cv_messages cv) = Some (Message (errorMessage now)) ∧
    cv_errorBox cv = truthy_str (Some e) ∧ cv_spinner cv = false ∧ cv_typing cv = None.
Proof.
  intros Ho [sid Hs]. unfold settleChat. rewrite Ho. unfold render. simpl. rewrite Hs.
  eexists. split; [reflexivity |]. simpl. rewrite map_app. simpl. by rewrite last_snoc.
Qed.

(** C14. Whatever the failure (a rejected [fetch] or [json()], or a body
    without [success]), the settled request ends with an error-styled
    bubble as the last message, and its text names the first helpline of
    the server's crisis list with its number; the error box shows the
    caught message and both flags are down. *)
Theorem failure_shows_helpline r now c e :
  chatOutcome r = inl e → is_Some (truthy_str (sessionId c)) →
  ∃ cv mv r0,
    v_chat (render (settleChat r now c)) = Some cv ∧
    last (cv_messages cv) = Some mv ∧ mv_style mv = ErrorBubble ∧
    head (resources getCrisisResources) = Some r0 ∧
    name r0 `infix_of` mv_content mv ∧ phone r0 `infix_of` mv_content mv ∧
    cv_errorBox cv = truthy_str (Some e) ∧ cv_spinner cv = false ∧ cv_typing cv = None.
Proof.
  intros Ho Hs. destruct errorText_helpline as (r0 & Hr0 & Hn & Hp).
  destruct (settleChat_error_view r now c e Ho Hs) as (cv & Hv & Hl & Hb & Hsp & Hty).
  exists cv, (Message (errorMessage now)), r0. by repeat split.
Qed.

Lemma failure_shows_helpline_witness :
  chatOutcome (ChatRejected (str "Failed to fetch")) = inl (str "Failed to fetch") ∧
  is_Some (truthy_str (Some (str "s1"))) ∧
  ∃ cv mv r0,
    v_chat (render (settleChat (ChatRejected (str "Failed to fetch")) 5
                      (mkClient (Some (str "s1")) [] [] true true None false))) = Some cv ∧
    last (cv_messages cv) = Some mv ∧ mv_style mv = ErrorBubble ∧
    head (resources getCrisisResources) = Some r0 ∧
    name r0 `infix_of` mv_content mv ∧ phone r0 `infix_of` mv_content mv ∧
    cv_errorBox cv = truthy_str (Some (str "Failed to fetch")) ∧
    cv_spinner cv = false ∧ cv_typing cv = None.
Proof.
  split; [reflexivity |]. split; [simpl; eauto |].
  exact (failure_shows_helpline (ChatRejected (str "Failed to fetch")) 5
           (mkClient (Some (str "s1")) [] [] true true None false) (str "Failed to fetch")
           eq_refl ltac:(simpl; eauto)).
Defined.

(** A send that passes the guard: the trimmed message is shown, the input
    cleared, both flags raised, the error cleared, and the request issued
    last. *)
Lemma sendMessage_sends m now w sid :
  truthy_str (sessionId (ui w)) = Some sid → isLoading (ui w) = false → js_trim m ≠ [] →
  sendMessage m now w =
    mkWorld (mkClient (sessionId (ui w))
               (messages (ui w) ++ [mkUiMessage RoleUser (js_trim m) now None false])
               [] true true None (showWelcome (ui w)))
      (tasks w ++ [ChatFetch sid (js_trim m)]).
Proof.
  intros Hs Hl Hm. destruct (sendMessage_cases m now w) as [Heq | (sid' & Hs' & _ & _ & ->)].
  - exfalso. revert Heq. unfold sendMessage, sendGuard. rewrite Hs, Hl.
    rewrite bool_decide_false by done. rewrite bool_decide_true by eauto. simpl.
    intros Heq. apply (f_equal (λ w, length (tasks w))) in Heq. simpl in Heq.
    rewrite length_app in Heq. simpl in Heq. lia.
  - rewrite Hs in Hs'. by simplify_eq.
Qed.

(** C24. The welcome timer replaces the message list instead of
    prepending to it.  Whenever a message is sent while the welcome timer
    is still pending (the first second of a session), the message is
    shown, then erased when the timer fires, together with everything
    shown before; its answer then appears under the welcome text with no
    question above it. *)
Theorem welcome_erases_user_message w i sid m t1 t2 t3 d :
  truthy_str (sessionId (ui w)) = Some sid → isLoading (ui w) = false → js_trim m ≠ [] →
  tasks w !! i = Some WelcomeTimer → d_success d = true →
  messages (ui (sendMessage m t1 w)) =
    messages (ui w) ++ [mkUiMessage RoleUser (js_trim m) t1 None false] ∧
  ∃ w2 j w3,
    clientEvent (TimerFires i t2) (sendMessage m t1 w) = Some w2 ∧
    tasks w2 !! j = Some (ChatFetch sid (js_trim m)) ∧
    clientEvent (ChatSettles j (ChatJson d) t3) w2 = Some w3 ∧
    messages (ui w3) = [welcomeMessage t2; aiMessage d t3].
Proof.
  intros Hs Hl Hm Hi Hd. rewrite (sendMessage_sends m t1 w sid Hs Hl Hm).
  split; [done |].
  assert (i < length (tasks w))%nat as Hlt by (by apply lookup_lt_Some in Hi).
  eexists _, (length (tasks w) - 1)%nat, _. split.
  { simpl. by rewrite lookup_app_l, Hi by done. }
  simpl. split; [by apply delete_snoc_lookup |].
  rewrite delete_snoc_lookup by done. split; [reflexivity |].
  unfold settleChat. simpl. by rewrite Hd.
Qed.

(** C25. A failed start is invisible: whenever a start request of a
    client without a session is rejected, the error is set and no retry
    is issued, but the error box is part of the chat interface, which is
    rendered only once a session exists, so the page the user sees is
    exactly the one before. *)
Theorem start_failure_invisible w i w' :
  truthy_str (sessionId (ui w)) = None → tasks w !! i = Some StartFetch →
  clientEvent (StartSettles i StartRejected) w = Some w' →
  error (ui w') = Some startErrorText ∧ tasks w' = delete i (tasks w) ∧
  render (ui w') = render (ui w).
Proof.
  intros Hs Hi He. simpl in He. rewrite Hi in He. simpl in He. simplify_eq. simpl.
  rewrite app_nil_r. split; [done |]. split; [done |].
  unfold render. simpl. by rewrite Hs.
Qed.

(** ** Witnesses over reachable states *)

Lemma runUi_rtc es w w' : runUi es w = Some w' → rtc cstep w w'.
Proof.
  revert w. induction es as [|e es IH]; intros w Hr; simpl in Hr; [simplify_eq; done |].
  destruct (clientEvent e w) as [w1|] eqn:He; [| done]. simpl in Hr.
  eapply rtc_l; [by exists e | by apply IH].
Qed.

(** The world right after the quick message was sent: one request in
    flight and the welcome timer still pending. *)
(** A session id of the form the server issues, and an answer. *)
Definition demoSession : jsstring := str "session_k3j9x2m1qlp0f8k2".

Definition demoAnswer : ChatData :=
  {| d_success := true; d_message := str "Exams can feel overwhelming."; d_crisis := None;
     d_error := None |}.

(** Start a session, then send a quick message before the welcome timer
    fires. *)
Definition earlyTrace : list UiEvent :=
  [ClickStart; StartSettles 0 (StartJson true demoSession); ClickQuick 0 1700000000500].

(** The session just started, its welcome timer pending. *)
Definition startedWorld : World := default initWorld (runUi (take 2 earlyTrace) initWorld).

Definition midWorld : World := default initWorld (runUi earlyTrace initWorld).

Lemma midWorld_reachable : creachable midWorld.
Proof. apply (runUi_rtc earlyTrace). vm_compute. reflexivity. Qed.

Lemma creachable_one_request_witness :
  creachable midWorld ∧ isTyping (ui midWorld) = isLoading (ui midWorld) ∧
  inFlight (tasks midWorld) = if isLoading (ui midWorld) then 1%nat else 0%nat.
Proof.
  split; [exact midWorld_reachable |].
  exact (creachable_one_request midWorld midWorld_reachable).
Defined.

Lemma creachable_message_shapes_witness :
  creachable midWorld ∧ Forall msgShape (messages (ui midWorld)).
Proof.
  split; [exact midWorld_reachable |].
  exact (creachable_message_shapes midWorld midWorld_reachable).
Defined.

Lemma client_eventually_quiescent_witness :
  creachable midWorld ∧ eventually cstep quiescent midWorld.
Proof.
  split; [exact midWorld_reachable |].
  exact (client_eventually_quiescent midWorld midWorld_reachable).
Defined.

Lemma welcome_erases_user_message_witness :
  messages (ui (sendMessage (str "hi") 1700000000500 startedWorld)) =
    messages (ui startedWorld) ++ [mkUiMessage RoleUser (js_trim (str "hi")) 1700000000500 None false] ∧
  ∃ w2 j w3,
    clientEvent (TimerFires 0 1700000001000) (sendMessage (str "hi") 1700000000500 startedWorld) = Some w2 ∧
    tasks w2 !! j = Some (ChatFetch demoSession (js_trim (str "hi"))) ∧
    clientEvent (ChatSettles j (ChatJson demoAnswer) 1700000002000) w2 = Some w3 ∧
    messages (ui w3) = [welcomeMessage 1700000001000; aiMessage demoAnswer 1700000002000].
Proof.
  exact (welcome_erases_user_message startedWorld 0 demoSession (str "hi") 1700000000500
           1700000001000 1700000002000 demoAnswer ltac:(vm_compute; reflexivity)
           ltac:(vm_compute; reflexivity) ltac:(vm_compute; discriminate)
           ltac:(vm_compute; reflexivity) ltac:(vm_compute; reflexivity)).
Defined.

(** The start button clicked: the request is in flight. *)
Definition startingWorld : World := mkWorld initClient [StartFetch].

Lemma start_failure_invisible_witness :
  ∃ w', clientEvent (StartSettles 0 StartRejected) startingWorld = Some w' ∧
    error (ui w') = Some startErrorText ∧ tasks w' = delete 0%nat (tasks startingWorld) ∧
    render (ui w') = render (ui startingWorld).
Proof.
  eexists. split; [reflexivity |].
  exact (start_failure_invisible startingWorld 0 _ eq_refl eq_refl eq_refl).
Defined.

End Client.
