(* ===== verification/System.v ===== *)
(** * The client and the server together

    One browser running [App] against the server's session store.  The
    client's requests are answered by the route handlers of server.js:
    [POST /api/session/start] by [startSession], [POST /api/chat/:id] by
    [chatHandler] run to completion (the client has at most one chat
    request in flight, so the server sees this client's requests one at a
    time), and the answers reach the client as the JSON bodies the routes
    send ([startData], [responseData]).  The sweep is not part of this
    composition: its effect on a session in use is theorem C19 of
    [Server].  The theorems relate what the user sees to what the server
    stores. *)

From S2P Require Import Prelude JsBuiltins Crisis SessionId Store Prompt Chat Routes Client.
From Stdlib Require Strings.String.
Import (notations) Stdlib.Strings.String.
Import Crisis SessionId Store Prompt Chat Routes Client.

Local Open Scope Z_scope.

Module System.

(** The body of the start route (lines 177-181) as [App] reads it. *)
Definition startData (r : StartResponse) : StartReply :=
  StartJson (start_success r) (start_sessionId r).

(** The bodies of the chat route (lines 190-193, 251-257, 262-266) as
    [App] reads them: [data.message] is absent on the error bodies and is
    never read there. *)
Definition responseData (r : ChatResponse) : ChatData :=
  match r with
  | ChatOk msg crisis _ _ =>
      {| d_success := true; d_message := msg; d_crisis := crisis; d_error := None |}
  | ChatEmpty =>
      {| d_success := false; d_message := []; d_crisis := None;
         d_error := Some emptyMessageError |}
  | ChatError _ =>
      {| d_success := false; d_message := []; d_crisis := None;
         d_error := Some apologyMessage |}
  end.

(** ** How App.js reads the bodies (lines 35-37, 78-91) *)

Definition strField (k : jsstring) (j : Json) : jsstring :=
  match field k j with Some (JsonStr s) => s | _ => [] end.

Definition readResource (j : Json) : CrisisResource :=
  {| name := strField (str "name") j; phone := strField (str "phone") j;
     description := strField (str "description") j;
     availability := strField (str "availability") j |}.

Definition readCrisis (j : Json) : CrisisInfo :=
  {| isEmergency := match field (str "isEmergency") j with Some (JsonBool b) => b | _ => false end;
     resources := match field (str "resources") j with
                  | Some (JsonArr xs) => readResource <$> xs | _ => [] end;
     message := strField (str "message") j |}.

(** [data.success], [data.message], [data.crisis || null], [data.error]. *)
Definition readChatData (j : Json) : ChatData :=
  {| d_success := jsonTruthy (field (str "success") j);
     d_message := strField (str "message") j;
     d_crisis := match field (str "crisis") j with
                 | Some c => if jsonTruthy (Some c) then Some (readCrisis c) else None
                 | None => None
                 end;
     d_error := match field (str "error") j with Some (JsonStr e) => Some e | _ => None end |}.

(** [await response.json()] on the chat answer: a body that is not JSON
    (the limiter's text) makes it reject with a [SyntaxError]. *)
Definition readChatReply (syntaxError : jsstring) (r : Response) : ChatReply :=
  match body r with BodyJson j => ChatJson (readChatData j) | _ => ChatRejected syntaxError end.

(** [data.success] and [data.sessionId] of the start answer. *)
Definition readStartReply (r : Response) : StartReply :=
  match body r with
  | BodyJson j => StartJson (jsonTruthy (field (str "success") j)) (strField (str "sessionId") j)
  | _ => StartRejected
  end.

Record Sys := mkSys { cw : World; st : Store }.

Definition sysInit : Sys := mkSys initWorld emptyStore.

Inductive SysEvent :=
  | UserEvent (e : UiEvent)
  | ServeStart (i : nat) (random : jsstring) (t : Z)
  | Timer (i : nat) (t : Z)
  | Serve (i : nat) (outcome : ProviderResult) (t1 t2 : Z).

(** A user event at the client; the server answering the client's task
    [i]; the welcome timer.  [Serve] begins the handler at [t1] and
    settles the provider call at [t2]. *)
Definition sysEvent (env : Env) (e : SysEvent) (s : Sys) : option Sys :=
  match e with
  | UserEvent ue =>
      if isSettlement ue then None else (λ w, mkSys w (st s)) <$> clientEvent ue (cw s)
  | ServeStart i random t =>
      match tasks (cw s) !! i with
      | Some StartFetch =>
          let '(r, st') := startSession random t (st s) in
          (λ w, mkSys w st') <$> clientEvent (StartSettles i (startData r)) (cw s)
      | _ => None
      end
  | Timer i t => (λ w, mkSys w (st s)) <$> clientEvent (TimerFires i t) (cw s)
  | Serve i outcome t1 t2 =>
      match tasks (cw s) !! i with
      | Some (ChatFetch sid msg) =>
          let '(r, st') := chatHandler env sid (JStr msg) t1 outcome t2 (st s) in
          (λ w, mkSys w st') <$> clientEvent (ChatSettles i (ChatJson (responseData r)) t2) (cw s)
      | _ => None
      end
  end.

Definition sysStep (env : Env) (a b : Sys) : Prop := ∃ e, sysEvent env e a = Some b.

Fixpoint runSys (env : Env) (es : list SysEvent) (s : Sys) : option Sys :=
  match es with
  | [] => Some s
  | e :: es' => sysEvent env e s ≫= runSys env es'
  end.

(** ** What the two sides hold of the conversation *)

Abbreviation Turn := (Role * jsstring * option CrisisInfo)%type.

Definition srvTurn (m : ChatMessage) : Turn :=
  match m with
  | UserMessage c _ => (RoleUser, c, None)
  | AiMessage c _ cr => (RoleAssistant, c, cr)
  end.

Definition uiTurn (m : UiMessage) : Turn := (role m, content m, crisis m).

(** The turns the client shows after its welcome bubble, error bubbles
    left out. *)
Definition conversation (c : Client) : list Turn :=
  uiTurn <$> filter (λ m, isError m = false) (drop 1 (messages c)).

(** The user turn of a request in flight. *)
Definition taskTurn (t : Task) : list Turn :=
  match t with ChatFetch _ m => [(RoleUser, m, None)] | _ => [] end.

(** A session just established: the welcome shown, nothing in flight, the
    server's object empty. *)
Definition established (sid : jsstring) (s : Sys) : Prop :=
  sessionId (ui (cw s)) = Some sid ∧ showWelcome (ui (cw s)) = false ∧
  length (messages (ui (cw s))) = 1%nat ∧ isLoading (ui (cw s)) = false ∧
  tasks (cw s) = [] ∧ wf (st s) ∧
  ∃ obj, lookupSession sid (st s) = Some obj ∧ Store.messages obj = [].

(** The invariant of an established conversation. *)
Definition agree (sid : jsstring) (s : Sys) : Prop :=
  sessionId (ui (cw s)) = Some sid ∧ showWelcome (ui (cw s)) = false ∧ wf (st s) ∧
  messages (ui (cw s)) ≠ [] ∧
  ((tasks (cw s) = [] ∧ isLoading (ui (cw s)) = false) ∨
   (∃ m, tasks (cw s) = [ChatFetch sid m] ∧ isLoading (ui (cw s)) = true ∧ ¬ blank m)) ∧
  ∃ obj p, lookupSession sid (st s) = Some obj ∧
    conversation (ui (cw s)) =
      p ++ (srvTurn <$> Store.messages obj) ++ concat (taskTurn <$> tasks (cw s)) ∧
    (p = [] ∨ (20 ≤ length (Store.messages obj))%nat).

Lemma conversation_snoc c c' x :
  messages c ≠ [] → messages c' = messages c ++ [x] →
  conversation c' = conversation c ++ (if isError x then [] else [uiTurn x]).
Proof.
  intros Hne Hc'. unfold conversation. rewrite Hc'.
  rewrite drop_app_le by (destruct (messages c) eqn:E; simpl; [congruence | lia]).
  rewrite filter_app, fmap_app. f_equal.
  destruct (isError x) eqn:E.
  - by rewrite filter_cons_False by (rewrite E; discriminate).
  - by rewrite filter_cons_True by done.
Qed.

(** A user event after the start is an edit of the input, nothing, or a
    call of [sendMessage]. *)
Lemma userEvent_cases ue w w' :
  isSettlement ue = false → showWelcome (ui w) = false → clientEvent ue w = Some w' →
  w' = w ∨ (∃ v, w' = mkWorld (setInputMessage v (ui w)) (tasks w)) ∨
  (∃ m now, w' = sendMessage m now w).
Proof.
  intros Hs Hw He. destruct ue; simpl in Hs, He; try discriminate.
  - by rewrite Hw in He.
  - destruct (chatView w); [| done]. destruct (_ && _); [| done]. simplify_eq. eauto.
  - destruct (chatView w); [| done]. destruct (cv_inputEnabled _); [| done]. simplify_eq.
    unfold handleKeyPress. destruct (_ && _); eauto.
  - destruct (chatView w), (quickMessages !! k); try done.
    destruct (cv_quickEnabled _); [| done]. simplify_eq. eauto.
  - destruct (chatView w); [| done]. destruct (cv_sendEnabled _); [| done]. simplify_eq. eauto.
Qed.

Lemma agree_send sid w st0 m now :
  agree sid (mkSys w st0) → agree sid (mkSys (sendMessage m now w) st0).
Proof.
  intros HA. destruct (sendMessage_cases m now w) as [-> | (sid' & Hs & Hl & Hne & ->)]; [done |].
  destruct HA as (Hsid & Hw & Hwf & Hm & Ht & obj & p & Hobj & Hc & Hp); simpl in *.
  rewrite Hsid in Hs. simpl in Hs.
  destruct Ht as [[Ht _] | (m' & _ & Hl' & _)]; [| congruence].
  assert (sid' = sid) as -> by (destruct sid; simplify_eq; done).
  unfold agree. simpl. split; [done |]. split; [done |]. split; [done |]. split.
  { intros Hnil. apply app_nil in Hnil as [_ Hx]. discriminate. }
  split.
  { right. exists (js_trim m). rewrite Ht. split; [done |]. split; [done |].
    by apply js_trim_not_blank. }
  exists obj, p. split; [done |]. split; [| done].
  rewrite Ht in Hc. simpl in Hc. rewrite app_nil_r in Hc.
  erewrite (conversation_snoc (ui w)); [| exact Hm | reflexivity]. rewrite Hc. simpl.
  rewrite Ht. cbn. by rewrite <- !app_assoc.
Qed.

Lemma agree_serve env sid s s' i out t1 t2 :
  agree sid s → sysEvent env (Serve i out t1 t2) s = Some s' → agree sid s'.
Proof.
  intros HA He. destruct s as [w st0].
  destruct HA as (Hsid & Hw & Hwf & Hm & Ht & obj & p & Hobj & Hc & Hp); simpl in *.
  destruct Ht as [[Ht Hl] | (m & Ht & Hl & Hnb)]; rewrite Ht in He; [by destruct i |].
  destruct i as [|i]; [| by destruct i]. simpl in He.
  destruct (chatHandler_cases env sid m t1 out t2 st0 Hwf Hnb) as (r & st' & Hh & Hwf' & Hcase).
  rewrite Hh in He. simpl in He. simplify_eq.
  assert (resolve sid t1 st0 = obj) as Hres by (unfold resolve; by rewrite Hobj).
  rewrite Hres in Hcase. rewrite Ht in Hc. cbn in Hc.
  destruct Hcase as [(ai & _ & -> & Hl') | (d & -> & Hl')]; unfold agree; simpl;
    do 3 (split; [done |]);
    (split; [intros Hnil; apply app_nil in Hnil as [_ ?]; discriminate |]);
    (split; [by left |]).
  - destruct (window_suffix p ((srvTurn <$> Store.messages obj) ++
                [(RoleUser, m, None); (RoleAssistant, ai, crisisOf m)]) 20) as (p' & Heq & Hp').
    { destruct Hp as [-> | Hp]; [by left | right; rewrite length_app, length_fmap; lia]. }
    eexists _, p'. split; [exact Hl' |]. simpl.
    erewrite (conversation_snoc (ui w)); [| exact Hm | reflexivity]. simpl.
    rewrite trimMessages_drop, app_nil_r. split.
    + rewrite fmap_drop, fmap_app, Hc. cbn [fmap list_fmap srvTurn].
      rewrite <- !app_assoc. cbn [uiTurn aiMessage role content crisis d_message d_crisis app].
      replace (length (Store.messages obj ++ _)) with
        (length ((srvTurn <$> Store.messages obj) ++
                 [(RoleUser, m, None); (RoleAssistant, ai, crisisOf m)]))
        by (rewrite !length_app, length_fmap; done).
      exact Heq.
    + destruct Hp' as [-> | Hp']; [by left | right].
      rewrite length_drop, !length_app, length_fmap in Hp'. rewrite length_drop, length_app.
      simpl in *. lia.
  - eexists _, p. split; [exact Hl' |]. simpl.
    erewrite (conversation_snoc (ui w)); [| exact Hm | reflexivity]. simpl.
    rewrite !app_nil_r, fmap_app, Hc. split; [done |].
    destruct Hp as [-> | Hp]; [by left | right; rewrite length_app; lia].
Qed.

(** While the conversation is established, every task is this session's
    chat request. *)
Lemma agree_task sid s i t :
  agree sid s → tasks (cw s) !! i = Some t → ∃ m, t = ChatFetch sid m.
Proof.
  intros (_ & _ & _ & _ & [[-> _] | (m & -> & _)] & _) Hi; [done |].
  destruct i as [|[|i]]; simpl in Hi; simplify_eq; eauto.
Qed.

Lemma agree_step env sid s s' : agree sid s → sysStep env s s' → agree sid s'.
Proof.
  intros HA [e He]. destruct e as [ue | i r t | i t | i out t1 t2]; simpl in He.
  - destruct (isSettlement ue) eqn:Hs; [done |].
    destruct (clientEvent ue (cw s)) as [w'|] eqn:Hc; [| done]. simpl in He. simplify_eq.
    pose proof HA as (Hsid & Hw & _).
    destruct (userEvent_cases ue (cw s) w' Hs Hw Hc) as [-> | [(v & ->) | (m & now & ->)]].
    + destruct s; exact HA.
    + destruct s; exact HA.
    + destruct s. by apply agree_send.
  - destruct (tasks (cw s) !! i) as [t'|] eqn:Hi; [| done].
    destruct (agree_task sid s i t' HA Hi) as [m ->]. done.
  - destruct (tasks (cw s) !! i) as [t'|] eqn:Hi; simpl in He; [| congruence].
    destruct (agree_task sid s i t' HA Hi) as [m ->]. simpl in He. congruence.
  - by eapply agree_serve.
Qed.

Lemma established_agree sid s : established sid s → agree sid s.
Proof.
  intros (Hsid & Hw & Hlen & Hl & Ht & Hwf & obj & Hobj & Hm).
  split; [done |]. split; [done |]. split; [done |].
  split; [intros Hnil; by rewrite Hnil in Hlen |]. split; [by left |].
  exists obj, []. split; [done |]. split; [| by left].
  unfold conversation. rewrite drop_ge by lia. by rewrite Hm, Ht.
Qed.

Lemma runSys_rtc env es s s' : runSys env es s = Some s' → rtc (sysStep env) s s'.
Proof.
  revert s. induction es as [|e es IH]; intros s Hr; simpl in Hr; [simplify_eq; done |].
  destruct (sysEvent env e s) as [s1|] eqn:He; [| done]. simpl in Hr.
  eapply rtc_l; [by exists e | by apply IH].
Qed.

(** C10. Once a session is established, the server's history of it is
    always a suffix of the conversation the client shows (error bubbles
    and the welcome left out), followed by the request in flight, and it
    is that whole conversation or holds at least 20 messages: the server
    never stores a turn the user does not see, nor drops one it still
    needs for its window. *)
Theorem conversation_agreement env sid s0 s :
  established sid s0 → rtc (sysStep env) s0 s →
  ∃ obj p, lookupSession sid (st s) = Some obj ∧
    conversation (ui (cw s)) =
      p ++ (srvTurn <$> Store.messages obj) ++ concat (taskTurn <$> tasks (cw s)) ∧
    (p = [] ∨ (20 ≤ length (Store.messages obj))%nat).
Proof.
  intros He Hr.
  assert (agree sid s) as (_ & _ & _ & _ & _ & H); [| exact H].
  apply (rtc_invariant (sysStep env) (agree sid) s0 s); [| by apply established_agree | done].
  intros a b Ha Hab. by eapply agree_step.
Qed.

(** C15. A failed request reaches the user with the helpline: whatever the
    configuration, when the provider fails the server answers 500 with its
    apology only, and the client shows its error bubble, which names the
    first helpline of the server's list with its number, and puts the
    server's apology in its error box. *)
Theorem server_failure_fallback env s s' i sid m e t1 t2 :
  wf (st s) → tasks (cw s) !! i = Some (ChatFetch sid m) → ¬ blank m →
  is_Some (truthy_str (sessionId (ui (cw s)))) →
  sysEvent env (Serve i (ProviderFailure e) t1 t2) s = Some s' →
  ∃ cv mv r0,
    v_chat (render (ui (cw s'))) = Some cv ∧ last (cv_messages cv) = Some mv ∧
    mv_style mv = ErrorBubble ∧ head (resources getCrisisResources) = Some r0 ∧
    phone r0 `infix_of` mv_content mv ∧ cv_errorBox cv = Some apologyMessage.
Proof.
  intros Hwf Hi Hnb Hs He. simpl in He. rewrite Hi in He.
  destruct (chatHandler_cases env sid m t1 (ProviderFailure e) t2 (st s) Hwf Hnb)
    as (r & st' & Hh & _ & [(ai & Hai & _) | (d & -> & _)]); [discriminate |].
  rewrite Hh in He. simpl in He. simplify_eq. simpl.
  destruct errorText_helpline as (r0 & Hr0 & _ & Hp).
  destruct (settleChat_error_view (ChatJson (responseData (ChatError d))) t2 (ui (cw s))
              apologyMessage eq_refl Hs) as (cv & Hv & Hl & Hb & _).
  exists cv, (Message (errorMessage t2)), r0. by repeat split.
Qed.

(** C33. The header's "Session:" label is [sessionId.slice(-8)]: for a
    session started between 1972 and 2059 it is exactly the start time in
    base 36 and never shows the random part, so sessions started in the
    same millisecond carry the same label. *)
Theorem header_shows_start_time random t st0 c :
  36 ^ 7 <= t < 36 ^ 8 →
  v_session (render (settleStart (startData (startSession random t st0).1) c).1) =
    Some (js_toString36 t).
Proof.
  intros Ht. unfold startSession. remember (generateSessionId random t) as sid eqn:Hsid.
  destruct (sessions_set _ _ _). simpl. unfold render. simpl.
  assert (∃ x l, sid = x :: l) as (x & l' & Hxl) by (rewrite Hsid; by eexists _, _).
  rewrite Hxl. simpl. f_equal. rewrite <- Hxl. rewrite Hsid. unfold generateSessionId. rewrite app_assoc.
  apply js_slice_last. by rewrite (length_toString36 7 t).
Qed.

Lemma header_shows_start_time_witness :
  36 ^ 7 <= 1700000000000 < 36 ^ 8 ∧
  v_session (render (settleStart (startData (startSession (str "0.k3j9x2m1qz")
     1700000000000 emptyStore).1) initClient).1) = Some (js_toString36 1700000000000).
Proof.
  split; [lia |].
  exact (header_shows_start_time (str "0.k3j9x2m1qz") 1700000000000 emptyStore initClient
           ltac:(lia)).
Defined.

Lemma readResource_resourceJson r : readResource (resourceJson r) = r.
Proof. by destruct r. Qed.

Lemma readCrisis_crisisJson c : readCrisis (crisisJson c) = c.
Proof.
  destruct c as [e rs msg].
  transitivity {| isEmergency := e; resources := readResource <$> (resourceJson <$> rs);
                  message := msg |}; [reflexivity |].
  f_equal. rewrite <- list_fmap_compose. rewrite <- (list_fmap_id rs) at 2.
  apply list_fmap_ext. intros _ r _. apply readResource_resourceJson.
Qed.

Lemma readChatReply_chatJson syntaxError r :
  readChatReply syntaxError (chatJson r) = ChatJson (responseData r).
Proof.
  destruct r as [msg [c|] sid n | | d]; [| reflexivity | reflexivity |].
  - transitivity (ChatJson {| d_success := true; d_message := msg;
                              d_crisis := Some (readCrisis (crisisJson c)); d_error := None |});
      [reflexivity | by rewrite readCrisis_crisisJson].
  - by destruct d.
Qed.

(** C31. App.js reads back what the server sends: on each of the chat
    route's three answers the client gets [success], the message, the
    crisis payload with every helpline and the error text the abstraction
    [responseData] assumes, and on the start answer the id and the
    success flag of [startData]. *)
Theorem client_reads_server_bodies syntaxError r rs :
  readChatReply syntaxError (chatJson r) = ChatJson (responseData r) ∧
  readStartReply (mkResponse 200 (BodyJson (startJson rs))) = startData rs.
Proof. split; [apply readChatReply_chatJson | reflexivity]. Qed.

(** ** Concrete runs *)

Definition demoEnv : Env :=
  {| GEMINI_API_KEY := Some (str "key"); NODE_ENV_is_development := false |}.

Definition demoSid : jsstring := generateSessionId (str "0.k3j9x2m1qz") 1700000000000.

(** A double click on the start button before the first answer: the
    button stays enabled while the request is in flight, both requests
    are served, the server holds two sessions, the client ends on the
    second and two welcome timers are armed. *)
Example double_start :
  match runSys demoEnv [UserEvent ClickStart; UserEvent ClickStart;
                        ServeStart 0 (str "0.aaaa") 1000; ServeStart 0 (str "0.bbbb") 1200]
          sysInit with
  | Some s =>
      sessionId (ui (cw s)) = Some (generateSessionId (str "0.bbbb") 1200) ∧
      tasks (cw s) = [WelcomeTimer; WelcomeTimer] ∧
      is_Some (lookupSession (generateSessionId (str "0.aaaa") 1000) (st s)) ∧
      is_Some (lookupSession (generateSessionId (str "0.bbbb") 1200) (st s))
  | None => False
  end.
Proof. vm_compute. repeat split; eexists; reflexivity. Qed.

(** The state after the start request was served and the welcome shown. *)
Definition demoStart : Sys :=
  mkSys (mkWorld (mkClient (Some demoSid) [welcomeMessage 1700000001000] [] false false None
                    false) [])
    (startSession (str "0.k3j9x2m1qz") 1700000000000 emptyStore).2.

(** A typed message answered, then a quick message whose provider call
    fails. *)
Definition demoExchange : list SysEvent :=
  [UserEvent (TypeInput (str "exams are close")); UserEvent (ClickSend 1700000002000);
   Serve 0 (ProviderText (str "Let us plan the week together.")) 1700000002100 1700000003000;
   UserEvent (ClickQuick 1 1700000004000);
   Serve 0 (ProviderFailure (str "timeout")) 1700000004100 1700000005000].

Definition demoAfter : Sys := default demoStart (runSys demoEnv demoExchange demoStart).

Lemma demoStart_established : established demoSid demoStart.
Proof.
  do 5 (split; [reflexivity |]). split.
  - unfold demoStart, startSession. cbn [st].
    destruct (sessions_set _ _ _) as [st1 l] eqn:E. simpl.
    change st1 with (st1, l).1. rewrite <- E.
    apply sessions_set_wf; [apply wf_emptyStore | done].
  - exists (newSession demoSid 1700000000000). split; [vm_compute; reflexivity | done].
Qed.

Lemma conversation_agreement_witness :
  established demoSid demoStart ∧
  ∃ obj p, lookupSession demoSid (st demoAfter) = Some obj ∧
    conversation (ui (cw demoAfter)) =
      p ++ (srvTurn <$> Store.messages obj) ++ concat (taskTurn <$> tasks (cw demoAfter)) ∧
    (p = [] ∨ (20 ≤ length (Store.messages obj))%nat).
Proof.
  split; [exact demoStart_established |].
  exact (conversation_agreement demoEnv demoSid demoStart demoAfter demoStart_established
           (runSys_rtc demoEnv demoExchange demoStart demoAfter ltac:(vm_compute; reflexivity))).
Defined.

Definition waitingSys : Sys :=
  mkSys (mkWorld (mkClient (Some (str "s1")) [] [] true true None false)
           [ChatFetch (str "s1") (str "hello")]) emptyStore.

Definition failedSys : Sys :=
  default waitingSys (sysEvent demoEnv (Serve 0 (ProviderFailure (str "timeout")) 10 20)
                        waitingSys).

Lemma server_failure_fallback_witness :
  wf (st waitingSys) ∧ tasks (cw waitingSys) !! 0%nat = Some (ChatFetch (str "s1") (str "hello")) ∧
  ∃ cv mv r0,
    v_chat (render (ui (cw failedSys))) = Some cv ∧ last (cv_messages cv) = Some mv ∧
    mv_style mv = ErrorBubble ∧ head (resources getCrisisResources) = Some r0 ∧
    phone r0 `infix_of` mv_content mv ∧ cv_errorBox cv = Some apologyMessage.
Proof.
  split; [apply wf_emptyStore |]. split; [reflexivity |].
  exact (server_failure_fallback demoEnv waitingSys failedSys 0 (str "s1") (str "hello")
           (str "timeout") 10 20 wf_emptyStore eq_refl hello_not_blank
           ltac:(simpl; eauto) ltac:(vm_compute; reflexivity)).
Defined.

End System.
