(* ===== verification/Network.v ===== *)
(** * The network between App.js and server.js

    What lies between App.js's [fetch] calls and the handlers of
    server.js.  The client builds its URLs from [API_BASE_URL] (App.js
    lines 14, 28, 71); the URL parser and Express's router turn them into
    path segments; on the server a request meets CORS, the JSON body
    parser and the rate limiter mounted on [/api] (server.js lines 11-25)
    before the routes.  The limiter's counting is express-rate-limit's: a
    fixed window per client address ([req.ip]) that opens at the
    address's first request and lasts [windowMs].  The middleware reaches
    its store through the library's store interface ([HitCounter]), whose
    fixed-window laws ([FixedWindow]) the library's in-memory store
    ([MemoryStore]) satisfies; the counting theorem is proved against the
    laws.  [Net] is the composition of [System] with these layers: each
    request of the client goes through the whole application
    ([Routes.appHandle]) behind the limiter, and the theorems relate it to
    [System]. *)

From S2P Require Import Prelude JsBuiltins Crisis SessionId Store Prompt Chat Routes Client System.
From Stdlib Require Strings.String.
Import (notations) Stdlib.Strings.String.
Import Crisis SessionId Store Prompt Chat Routes Client System.

Local Open Scope Z_scope.

Module Network.

(** ** The URLs of App.js *)

(** [process.env.REACT_APP_API_URL || 'http://localhost:5000/api'] *)
Definition API_BASE_URL (REACT_APP_API_URL : option jsstring) : jsstring :=
  orDefault REACT_APP_API_URL (str "http://localhost:5000/api").

(** [`${API_BASE_URL}/session/start`] *)
Definition startUrl (base : jsstring) : jsstring := base ++ str "/session/start".

(** [`${API_BASE_URL}/chat/${sessionId}`]: the id is put in the path as
    it is, not encoded. *)
Definition chatUrl (base sid : jsstring) : jsstring := base ++ str "/chat/" ++ sid.

(** ** Paths, as the URL parser and the router see them *)

Fixpoint stripPrefix (p s : jsstring) : option jsstring :=
  match p, s with
  | [], _ => Some s
  | c :: p', d :: s' => if bool_decide (c = d) then stripPrefix p' s' else None
  | _ :: _, [] => None
  end.

(** [s.split(sep)] *)
Fixpoint splitOn (sep : Z) (s : jsstring) : list jsstring :=
  match s with
  | [] => [[]]
  | c :: s' =>
      if bool_decide (c = sep) then [] :: splitOn sep s'
      else match splitOn sep s' with
           | seg :: segs => (c :: seg) :: segs
           | [] => [[c]]
           end
  end.

(** The segments of the path of an absolute [http:] or [https:] URL (the
    authority dropped) or of an absolute path.  Queries, fragments and
    percent-encoding are not modelled: the URLs App.js builds have none
    for session ids made of [idChar]s, which the parser keeps as they
    are. *)
Definition urlPath (u : jsstring) : option (list jsstring) :=
  match stripPrefix (str "http://") u with
  | Some rest => Some (tail (splitOn 47 rest))
  | None =>
      match stripPrefix (str "https://") u with
      | Some rest => Some (tail (splitOn 47 rest))
      | None => match u with 47 :: p => Some (splitOn 47 p) | _ => None end
      end
  end.

(** The characters of a generated session id: lowercase letters, digits
    and [_]. *)
Definition idChar (c : Z) : Prop := (97 ≤ c ≤ 122) ∨ (48 ≤ c ≤ 57) ∨ c = 95.

(** ** The rate limiter (express-rate-limit) *)

(** A client's record: the hits in its current window and when the
    window ends. *)
Record ClientHits := mkHits { totalHits : Z; resetTime : Z }.

(** The library's store interface as the middleware uses it:
    [increment t key] counts a hit at time [t] and answers the client's
    record; [hitsOf] is the record the store holds for a key. *)
Class HitCounter (HS : Type) := {
  increment : Z → jsstring → HS → ClientHits * HS;
  hitsOf : HS → jsstring → option ClientHits
}.

(** A fixed window of [w] ms: a hit inside the client's window adds one;
    the first hit, or one at or after the window's end, opens a new one. *)
Definition windowHit (w t : Z) (o : option ClientHits) : ClientHits :=
  match o with
  | Some c =>
      if bool_decide (t < resetTime c) then mkHits (totalHits c + 1) (resetTime c)
      else mkHits 1 (t + w)
  | None => mkHits 1 (t + w)
  end.

Class FixedWindow (w : Z) (HS : Type) `{HitCounter HS} : Prop := {
  increment_hits t k s : (increment t k s).1 = windowHit w t (hitsOf s k);
  increment_view t k s : hitsOf (increment t k s).2 k = Some (increment t k s).1;
  increment_frame t k k' s : k' ≠ k → hitsOf (increment t k s).2 k' = hitsOf s k'
}.

(** The library's [MemoryStore]: client records by key.  [increment]
    gets the client (a new one has no hits and a window ending [windowMs]
    from now), resets it when its window has ended, and adds the hit. *)
Abbreviation MemoryStore := (gmap jsstring ClientHits).

Definition getClient (w t : Z) (k : jsstring) (s : MemoryStore) : ClientHits :=
  match s !! k with Some c => c | None => mkHits 0 (t + w) end.

Definition resetClient (w t : Z) (c : ClientHits) : ClientHits :=
  if bool_decide (resetTime c ≤ t) then mkHits 0 (t + w) else c.

Definition memIncrement (w t : Z) (k : jsstring) (s : MemoryStore) : ClientHits * MemoryStore :=
  let c := resetClient w t (getClient w t k s) in
  let c' := mkHits (totalHits c + 1) (resetTime c) in
  (c', <[k := c']> s).

#[export] Instance memoryStore_counter : HitCounter MemoryStore :=
  {| increment := memIncrement (windowMs limiter); hitsOf s k := s !! k |}.

(** The middleware (lines 20-25): count the hit under the client's
    address, the default key, and refuse once it is over [max]. *)
Definition rateLimit `{HitCounter HS} (cfg : RateLimitConfig) (t : Z) (ip : jsstring)
    (s : HS) : bool * HS :=
  let '(c, s') := increment t ip s in (bool_decide (max cfg < totalHits c), s').

(** ** One request through the server *)

(** Whether a request gets as far as the limiter: CORS answers a
    preflight (line 13), a body the parser rejects skips to the error
    middleware (line 17), and the limiter is mounted on [/api] (line 25). *)
Definition reachesLimiter (req : Request) : bool :=
  negb (bool_decide (method req = MOptions)) &&
  match payload req with BadBody _ => false | _ => true end && apiPath (path req).

Definition withVerdict (b : bool) (inp : Inputs) : Inputs :=
  mkInputs b (random inp) (outcome inp) (now inp) (later inp).

(** The application of lines 11-357 on a request from address [ip], the
    limiter's verdict taken from its store at the request's arrival. *)
Definition httpHandle `{HitCounter HS} (env : Env) (ip : jsstring) (req : Request)
    (inp : Inputs) (hs : HS) (st : Store) : Response * HS * Store :=
  if reachesLimiter req then
    let '(lim, hs') := rateLimit limiter (now inp) ip hs in
    let '(r, st') := appHandle env req (withVerdict lim inp) st in (r, hs', st')
  else
    let '(r, st') := appHandle env req (withVerdict false inp) st in (r, hs, st).

(** A sequence of requests, each from an address, answered one after the
    other. *)
Abbreviation Arrival := (jsstring * Request * Inputs)%type.

Fixpoint httpRun `{HitCounter HS} (env : Env) (xs : list Arrival) (hs : HS) (st : Store)
    : list Response * HS * Store :=
  match xs with
  | [] => ([], hs, st)
  | (ip, req, inp) :: xs' =>
      let '(r, hs', st') := httpHandle env ip req inp hs st in
      let '(rs, hs'', st'') := httpRun env xs' hs' st' in (r :: rs, hs'', st'')
  end.

(** The requests from [ip] the limiter sees, and those of them answered
    by something other than its 429. *)
Definition fromAt (ip : jsstring) (x : Arrival) : bool :=
  bool_decide (x.1.1 = ip) && reachesLimiter x.1.2.

Definition reaching (ip : jsstring) (xs : list Arrival) : nat :=
  length (filter (λ x, fromAt ip x = true) xs).

Definition served (ip : jsstring) (xs : list Arrival) (rs : list Response) : nat :=
  length (filter (λ p, fromAt ip p.1 = true ∧ status p.2 ≠ 429) (zip xs rs)).

(** ** The client's requests, and the composed system *)

(** The request App.js sends for a task: both are POSTs with a JSON
    content type; the start request has no body, so the parser leaves
    [req.body] empty, and the chat request's body
    [JSON.stringify({ message: message.trim() })] is parsed back to the
    string. *)
Definition taskRequest (base : jsstring) (t : Task) : option Request :=
  match t with
  | StartFetch => (λ p, mkRequest MPost p NoBody) <$> urlPath (startUrl base)
  | ChatFetch sid m => (λ p, mkRequest MPost p (MessageField (JStr m))) <$> urlPath (chatUrl base sid)
  | WelcomeTimer => None
  end.

(** How the answer settles the task at the client (App.js lines 35-37,
    79): [response.json()] and what follows. *)
Definition settlement (i : nat) (t : Task) (jsonError : jsstring) (r : Response) (t2 : Z)
    : UiEvent :=
  match t with
  | StartFetch => StartSettles i (readStartReply r)
  | _ => ChatSettles i (readChatReply jsonError r) t2
  end.

(** The browser at address [ip], the limiter's store and the session
    store. *)
Record Net := mkNet { nw : World; hits : MemoryStore; nst : Store }.

Inductive NetEvent :=
  | NUser (e : UiEvent)
  | NTimer (i : nat) (t : Z)
  | NServe (i : nat) (inp : Inputs) (jsonError : jsstring).

(** A user event, the welcome timer, or the server answering the
    client's request [i] through the whole application; [jsonError] is
    the message of the [SyntaxError] [response.json()] raises on a body
    that is not JSON. *)
Definition netEvent (env : Env) (base ip : jsstring) (e : NetEvent) (n : Net) : option Net :=
  match e with
  | NUser ue =>
      if isSettlement ue then None else (λ w, mkNet w (hits n) (nst n)) <$> clientEvent ue (nw n)
  | NTimer i t => (λ w, mkNet w (hits n) (nst n)) <$> clientEvent (TimerFires i t) (nw n)
  | NServe i inp jsonError =>
      match tasks (nw n) !! i with
      | Some t =>
          match taskRequest base t with
          | Some req =>
              let '(r, hs', st') := httpHandle env ip req inp (hits n) (nst n) in
              (λ w, mkNet w hs' st') <$>
                clientEvent (settlement i t jsonError r (later inp)) (nw n)
          | None => None
          end
      | None => None
      end
  end.

(** The event of [System] that serving task [t] is meant to be. *)
Definition sysOf (i : nat) (t : Task) (inp : Inputs) : SysEvent :=
  match t with
  | StartFetch => ServeStart i (random inp) (now inp)
  | ChatFetch _ _ => Serve i (outcome inp) (now inp) (later inp)
  | WelcomeTimer => Timer i (now inp)
  end.

(** A request whose URL carries a session id made of [idChar]s. *)
Definition requestOk (t : Task) : Prop :=
  match t with
  | StartFetch => True
  | ChatFetch sid _ => sid ≠ [] ∧ Forall idChar sid
  | WelcomeTimer => False
  end.

(** The state of [System] a network state shows: the browser and the
    session store. *)
Definition sysProj (n : Net) : Sys := mkSys (nw n) (nst n).

(** A step of [Net] in which the limiter lets the served request
    through. *)
Definition netStep (env : Env) (ip : jsstring) (n n' : Net) : Prop :=
  ∃ e, netEvent env (API_BASE_URL None) ip e n = Some n' ∧
    match e with
    | NServe _ inp _ => (rateLimit limiter (now inp) ip (hits n)).1 = false
    | _ => True
    end.

#[export] Instance idChar_dec c : Decision (idChar c).
Proof. unfold idChar. apply _. Defined.

(** ** Paths of the client's URLs *)

Lemma splitOn_id s : Forall idChar s → splitOn 47 s = [s].
Proof.
  induction 1 as [| c s Hc _ IH]; [done |]. simpl. rewrite IH.
  rewrite bool_decide_false by (unfold idChar in Hc; lia). done.
Qed.

Lemma urlPath_chatUrl sid :
  urlPath (chatUrl (API_BASE_URL None) sid) = Some (str "api" :: str "chat" :: splitOn 47 sid).
Proof. reflexivity. Qed.

Lemma urlPath_startUrl :
  urlPath (startUrl (API_BASE_URL None)) = Some [str "api"; str "session"; str "start"].
Proof. reflexivity. Qed.

(** ** The client's requests at the server *)

Lemma chatRequest_reaches sid m :
  reachesLimiter (mkRequest MPost (str "api" :: str "chat" :: splitOn 47 sid)
                    (MessageField (JStr m))) = true.
Proof. reflexivity. Qed.

(** A chat request the limiter lets through is answered by the chat route. *)
Lemma httpHandle_chat env ip sid m inp hs st :
  sid ≠ [] → Forall idChar sid →
  (rateLimit limiter (now inp) ip hs).1 = false →
  httpHandle env ip (mkRequest MPost [str "api"; str "chat"; sid] (MessageField (JStr m))) inp hs st =
    let '(r, st') := chatHandler env sid (JStr m) (now inp) (outcome inp) (later inp) st in
    (chatJson r, (rateLimit limiter (now inp) ip hs).2, st').
Proof.
  intros Hne Hid Hl. pose proof (splitOn_id sid Hid) as Hs.
  pose proof (chatRequest_reaches sid m) as R. rewrite Hs in R.
  unfold httpHandle. rewrite R.
  destruct (rateLimit limiter (now inp) ip hs) as [lim hs'] eqn:E. simpl in Hl. subst lim.
  destruct sid as [| c sid']; [done |]. unfold appHandle. simpl.
  destruct (chatHandler env (c :: sid') (JStr m) (now inp) (outcome inp) (later inp) st). done.
Qed.

(** A start request the limiter lets through is answered by the start
    route. *)
Lemma httpHandle_start env ip inp hs st :
  (rateLimit limiter (now inp) ip hs).1 = false →
  httpHandle env ip (mkRequest MPost [str "api"; str "session"; str "start"] NoBody) inp hs st =
    let '(r, st') := startSession (random inp) (now inp) st in
    (mkResponse 200 (BodyJson (startJson r)), (rateLimit limiter (now inp) ip hs).2, st').
Proof.
  intros Hl. unfold httpHandle. change (reachesLimiter _) with true. cbv iota.
  destruct (rateLimit limiter (now inp) ip hs) as [lim hs'] eqn:E. simpl in Hl. subst lim.
  unfold appHandle. simpl. destruct (startSession (random inp) (now inp) st). done.
Qed.

(** ** The in-memory store keeps a fixed window *)

#[export] Instance memoryStore_fixedWindow : FixedWindow (windowMs limiter) MemoryStore.
Proof.
  split; cbn -[windowMs].
  - intros t k s. unfold memIncrement, getClient, resetClient, windowHit.
    assert (0 < windowMs limiter) by (cbn; lia).
    destruct (s !! k) as [c |]; simpl.
    + destruct (bool_decide (t < resetTime c)) eqn:E1; destruct (bool_decide (resetTime c ≤ t)) eqn:E2;
        revert E1 E2; rewrite ?bool_decide_eq_true, ?bool_decide_eq_false; intros; simpl; f_equal; lia.
    + rewrite bool_decide_false by lia. reflexivity.
  - intros t k s. apply lookup_insert_eq.
  - intros t k k' s Hne. by apply lookup_insert_ne.
Qed.

(** ** Counting in a window *)

(** The request arrives in the fifteen minutes from [t0]. *)
Definition inWindow (t0 : Z) (x : Arrival) : Prop := t0 ≤ now x.2 < t0 + windowMs limiter.

Section Window.
Context {HS : Type} `{FixedWindow (windowMs limiter) HS}.
Context (env : Env) (ip : jsstring) (t0 : Z).

(** [ip] has [k] hits counting toward a window that holds all of
    [t0 .. t0 + windowMs): none yet, or a window opened inside it. *)
Definition windowAt (hs : HS) (k : nat) : Prop :=
  match hitsOf hs ip with
  | None => k = 0%nat
  | Some c => (resetTime c ≤ t0 ∧ k = 0%nat) ∨
              (t0 + windowMs limiter ≤ resetTime c ∧ totalHits c = Z.of_nat k)
  end.

Lemma rateLimit_window hs k t :
  t0 ≤ t < t0 + windowMs limiter → windowAt hs k →
  windowAt (rateLimit limiter t ip hs).2 (S k) ∧
  (rateLimit limiter t ip hs).1 = bool_decide (100 ≤ k)%nat.
Proof.
  intros Ht Hw. unfold rateLimit, windowAt in *.
  pose proof (increment_hits t ip hs) as Hh. pose proof (increment_view t ip hs) as Hv.
  destruct (increment t ip hs) as [c s'] eqn:E. simpl in *. rewrite Hv. subst c.
  unfold windowHit. destruct (hitsOf hs ip) as [c |]; [destruct Hw as [[? ->] | [? Hk]] |].
  all: repeat case_bool_decide; simpl in *; first [exfalso; lia | split; [right; split; lia | done]].
Qed.

Lemma rateLimit_frame hs k t ip' :
  ip' ≠ ip → windowAt (rateLimit limiter t ip' hs).2 k ↔ windowAt hs k.
Proof.
  intros Hne. unfold rateLimit, windowAt.
  pose proof (increment_frame t ip' ip hs ltac:(done)) as Hf.
  destruct (increment t ip' hs) as [c s'] eqn:E. simpl in *. by rewrite Hf.
Qed.

Lemma httpHandle_window x hs st k :
  inWindow t0 x → windowAt hs k →
  let res := httpHandle env x.1.1 x.1.2 x.2 hs st in
  windowAt res.1.2 (if fromAt ip x then S k else k) ∧
  (fromAt ip x = true → (status res.1.1 = 429 ↔ (100 ≤ k)%nat)).
Proof.
  destruct x as [[ip' req] inp]. unfold inWindow, fromAt, httpHandle. simpl. intros Ht Hw.
  destruct (reachesLimiter req) eqn:R; [| rewrite andb_false_r; split; [| done];
    by destruct (appHandle _ _ _ _)].
  destruct (decide (ip' = ip)) as [-> | Hne].
  - rewrite bool_decide_true by done. simpl.
    destruct (rateLimit_window hs k (now inp) Ht Hw) as [Hw' Hl].
    destruct (rateLimit limiter (now inp) ip hs) as [lim hs'] eqn:E. simpl in *.
    destruct (appHandle env req (withVerdict lim inp) st) as [r st'] eqn:A. simpl.
    split; [done | intros _]. subst lim.
    destruct (bool_decide (100 ≤ k)%nat) eqn:B.
    + apply bool_decide_eq_true in B. split; [done | intros _].
      apply andb_prop in R as [R Ha]. apply andb_prop in R as [Ho Hp].
      rewrite appHandle_limited in A; [by simplify_eq | | | done | done].
      * by apply negb_true_iff, bool_decide_eq_false in Ho.
      * intros e' Hb. by rewrite Hb in Hp.
    + apply bool_decide_eq_false in B. split; [| lia]. intros H429.
      pose proof (appHandle_status_429 env req (withVerdict false inp) st) as Hs.
      rewrite A in Hs. by specialize (Hs H429).
  - rewrite bool_decide_false by done. simpl.
    destruct (rateLimit limiter (now inp) ip' hs) as [lim hs'] eqn:E.
    destruct (appHandle env req (withVerdict lim inp) st) as [r st'] eqn:A. simpl.
    split; [| done]. pose proof (rateLimit_frame hs k (now inp) ip' Hne) as Hf.
    rewrite E in Hf. by apply Hf.
Qed.

Lemma httpRun_window xs hs st k :
  Forall (inWindow t0) xs → windowAt hs k →
  served ip xs (httpRun env xs hs st).1.1 =
    (Nat.min (k + reaching ip xs) 100 - Nat.min k 100)%nat.
Proof.
  revert hs st k. induction xs as [| x xs IH]; intros hs st k Hx Hw; [by rewrite Nat.add_0_r, Nat.sub_diag |].
  apply Forall_cons in Hx as [Hx Hxs].
  pose proof (httpHandle_window x hs st k Hx Hw) as [Hw' Hs].
  destruct x as [[ip' req] inp]. simpl in Hw', Hs |- *.
  destruct (httpHandle env ip' req inp hs st) as [[r hs'] st'] eqn:Eh. simpl in Hw', Hs.
  specialize (IH hs' st' _ Hxs Hw').
  destruct (httpRun env xs hs' st') as [[rs hs''] st''] eqn:Er. simpl in IH |- *.
  unfold served, reaching in *. simpl. rewrite !filter_cons. cbn [fst snd].
  destruct (fromAt ip (ip', req, inp)) eqn:F.
  - specialize (Hs eq_refl).
    rewrite (decide_True (P := true = true)) by done.
    destruct (decide (true = true ∧ status r ≠ 429)) as [[_ Hn] | Hn]; cbn [length]; rewrite IH.
    + assert (k < 100)%nat by (destruct (decide (100 ≤ k)%nat); [exfalso; apply Hn; tauto | lia]).
      lia.
    + assert (100 ≤ k)%nat by (apply Hs; destruct (decide (status r = 429)); [done | tauto]).
      lia.
  - rewrite (decide_False (P := false = true)) by discriminate.
    rewrite decide_False by (intros [? _]; discriminate). rewrite IH. lia.
Qed.

End Window.

(** ** Theorems *)

(** C17. The limiter keeps the promise of line 22: whatever requests of
    other addresses, preflights and malformed bodies are interleaved,
    and whether or not the address was served before, if its last window
    ended by [t0] then of its [n] requests under [/api] arriving within
    fifteen minutes of [t0] exactly the first [min n 100] reach the
    application, and the rest get the limiter's 429. *)
Theorem limiter_window_served (env : Env) (ip : jsstring) (t0 : Z) (xs : list Arrival)
    (hs : MemoryStore) (st : Store) :
  (∀ c, hs !! ip = Some c → resetTime c ≤ t0) →
  Forall (inWindow t0) xs →
  served ip xs (httpRun env xs hs st).1.1 = Nat.min (reaching ip xs) 100.
Proof.
  intros Hfresh Hxs. rewrite (httpRun_window env ip t0 xs hs st 0); [lia | done |].
  unfold windowAt. simpl. destruct (hs !! ip) eqn:E; [left; split; [by apply Hfresh | done] | done].
Qed.

(** Serving a request the limiter lets through, through the network. *)
Lemma netEvent_serve env ip i inp jsonError n t :
  tasks (nw n) !! i = Some t → requestOk t →
  (rateLimit limiter (now inp) ip (hits n)).1 = false →
  netEvent env (API_BASE_URL None) ip (NServe i inp jsonError) n =
    (λ s, mkNet (cw s) (rateLimit limiter (now inp) ip (hits n)).2 (st s))
      <$> sysEvent env (sysOf i t inp) (mkSys (nw n) (nst n)).
Proof.
  intros Ht Hok Hl. unfold netEvent, sysEvent, sysOf. cbn [cw st]. rewrite Ht.
  destruct t as [| | sid m]; [| done |]; simpl in Hok; unfold taskRequest.
  - rewrite urlPath_startUrl. cbn -[httpHandle str startSession clientEvent rateLimit].
    rewrite Ht.
    rewrite (httpHandle_start env ip inp (hits n) (nst n) Hl).
    destruct (startSession (random inp) (now inp) (nst n)) as [r st']. cbn [settlement].
    change (readStartReply (mkResponse 200 (BodyJson (startJson r)))) with (startData r).
    by destruct (clientEvent (StartSettles i (startData r)) (nw n)).
  - destruct Hok as [Hne Hid]. rewrite urlPath_chatUrl, splitOn_id by done.
    cbn -[httpHandle str chatHandler clientEvent rateLimit]. rewrite Ht. rewrite (httpHandle_chat env ip sid m inp (hits n) (nst n) Hne Hid Hl).
    destruct (chatHandler env sid (JStr m) (now inp) (outcome inp) (later inp) (nst n)) as [r st'].
    cbn [settlement]. rewrite readChatReply_chatJson.
    by destruct (clientEvent (ChatSettles i (ChatJson (responseData r)) (later inp)) (nw n)).
Qed.

(** C11. Through the network the composition behaves as [System] says.
    With App.js's default base URL, a session id made of the characters
    of generated ids, and a verdict of the limiter that lets the request
    through, serving the client's request [i] through CORS, the body
    parser, the limiter, the router and the route's JSON, and reading the
    answer as App.js does, takes exactly the step [System.sysEvent] takes,
    the limiter's store having counted the hit. *)
Theorem netServe_refines env ip i inp jsonError n t :
  tasks (nw n) !! i = Some t → requestOk t →
  (rateLimit limiter (now inp) ip (hits n)).1 = false →
  netEvent env (API_BASE_URL None) ip (NServe i inp jsonError) n =
    (λ s, mkNet (cw s) (rateLimit limiter (now inp) ip (hits n)).2 (st s))
      <$> sysEvent env (sysOf i t inp) (mkSys (nw n) (nst n)).
Proof. exact (netEvent_serve env ip i inp jsonError n t). Qed.

(** Within an established conversation, a step of [Net] the limiter
    does not refuse shows a step of [System]. *)
Lemma netStep_sysStep env ip sid n n' :
  sid ≠ [] → Forall idChar sid → agree sid (sysProj n) → netStep env ip n n' →
  sysStep env (sysProj n) (sysProj n').
Proof.
  intros Hne Hid HA [e [He Hv]]. destruct e as [ue | i t | i inp err].
  - exists (UserEvent ue). unfold netEvent in He. simpl. destruct (isSettlement ue); [discriminate |].
    destruct (clientEvent ue (nw n)); simpl in *; simplify_eq; done.
  - exists (Timer i t). unfold netEvent in He. unfold sysEvent, sysProj. cbn [cw st].
    destruct (clientEvent (TimerFires i t) (nw n)); simpl in *; simplify_eq; done.
  - destruct (tasks (nw n) !! i) as [t|] eqn:Ht;
      [| unfold netEvent in He; rewrite Ht in He; discriminate].
    destruct (agree_task sid (sysProj n) i t HA Ht) as [m ->].
    rewrite (netEvent_serve env ip i inp err n (ChatFetch sid m) Ht (conj Hne Hid) Hv) in He.
    exists (sysOf i (ChatFetch sid m) inp).
    change (sysProj n) with (mkSys (nw n) (nst n)).
    destruct (sysEvent env (sysOf i (ChatFetch sid m) inp) (mkSys (nw n) (nst n))) as [s'|];
      simpl in He; simplify_eq. by destruct s'.
Qed.

(** C12. Through the network, as long as the limiter lets every request
    through, the conversation the user sees and the server's history stay
    in the agreement of [System]: for a session with a generated-form id,
    once established, the server's history is a suffix of the turns the
    client shows followed by the request in flight, and it is that whole
    conversation or holds at least 20 messages. *)
Theorem net_conversation_agreement env ip sid n0 n :
  sid ≠ [] → Forall idChar sid → established sid (sysProj n0) →
  rtc (netStep env ip) n0 n →
  ∃ obj p, lookupSession sid (nst n) = Some obj ∧
    conversation (ui (nw n)) =
      p ++ (srvTurn <$> Store.messages obj) ++ concat (taskTurn <$> tasks (nw n)) ∧
    (p = [] ∨ (20 ≤ length (Store.messages obj))%nat).
Proof.
  intros Hne Hid He Hr.
  assert (agree sid (sysProj n)) as (_ & _ & _ & _ & _ & H); [| exact H].
  apply (rtc_invariant (netStep env ip) (λ n, agree sid (sysProj n)) n0 n);
    [| by apply established_agree | done].
  intros a b Ha Hab. eapply agree_step; [exact Ha |].
  exact (netStep_sysStep env ip sid a b Hne Hid Ha Hab).
Qed.

(** C16. A chat request over the limit never reaches the chat route: the
    session store is unchanged, the client reads the limiter's text as a
    failed [response.json()], and it shows the fallback bubble under the
    user's message, which the server has not recorded, with the JSON
    error in the error box and both flags down. *)
Theorem throttled_send_fallback env ip i inp jsonError n sid m :
  tasks (nw n) !! i = Some (ChatFetch sid m) →
  (rateLimit limiter (now inp) ip (hits n)).1 = true →
  ∃ n', netEvent env (API_BASE_URL None) ip (NServe i inp jsonError) n = Some n' ∧
    nst n' = nst n ∧ hits n' = (rateLimit limiter (now inp) ip (hits n)).2 ∧
    messages (ui (nw n')) = messages (ui (nw n)) ++ [errorMessage (later inp)] ∧
    error (ui (nw n')) = Some jsonError ∧
    isLoading (ui (nw n')) = false ∧ isTyping (ui (nw n')) = false.
Proof.
  intros Ht Hl. unfold netEvent. rewrite Ht. unfold taskRequest. rewrite urlPath_chatUrl.
  cbn -[str rateLimit appHandle clientEvent httpHandle].
  unfold httpHandle. rewrite chatRequest_reaches.
  destruct (rateLimit limiter (now inp) ip (hits n)) as [lim hs'] eqn:E. simpl in Hl. subst lim.
  rewrite appHandle_limited; [| cbn; first [discriminate | intros ? ?; discriminate | reflexivity] ..].
  simpl. rewrite Ht. eexists. split; [reflexivity |]. simpl. by repeat split.
Qed.

(** ** Concrete runs *)

Definition demoIp : jsstring := str "203.0.113.7".

(** Requests at one second: the health check, answered without touching
    the session store. *)
Definition healthAt (t : Z) : Arrival :=
  (demoIp, mkRequest MGet [str "api"; str "health"] NoBody,
   mkInputs false [] (ProviderText []) t t).

(** 102 health checks, a preflight and a malformed body inside one window. *)
Definition burst : list Arrival :=
  replicate 102 (healthAt 1000) ++
  [(demoIp, mkRequest MOptions [str "api"; str "chat"; str "x"] NoBody,
    mkInputs false [] (ProviderText []) 2000 2000);
   (demoIp, mkRequest MPost [str "api"; str "chat"; str "x"] (BadBody (str "Unexpected token")),
    mkInputs false [] (ProviderText []) 3000 3000)].

Lemma limiter_window_served_witness :
  served demoIp burst (httpRun demoEnv burst ∅ emptyStore).1.1 = 100%nat.
Proof.
  rewrite (limiter_window_served demoEnv demoIp 0 burst ∅ emptyStore).
  - vm_compute. reflexivity.
  - intros c Hc. by rewrite lookup_empty in Hc.
  - apply Forall_app. split; [apply Forall_replicate |]; repeat constructor; cbn; lia.
Defined.

(** The established session of [System] with a message sent, and the
    answer the provider gives a second later. *)
Definition demoNet (hs : MemoryStore) : Net :=
  mkNet (sendMessage (str "hi") 1700000002000 (cw demoStart)) hs (st demoStart).

Definition demoInputs : Inputs :=
  mkInputs false [] (ProviderText (str "Main samajh sakta hun")) 1700000002000 1700000003000.

Lemma netServe_refines_witness :
  netEvent demoEnv (API_BASE_URL None) demoIp (NServe 0 demoInputs []) (demoNet ∅) =
    (λ s, mkNet (cw s) (rateLimit limiter (now demoInputs) demoIp ∅).2 (st s))
      <$> sysEvent demoEnv (sysOf 0 (ChatFetch demoSid (str "hi")) demoInputs)
            (mkSys (nw (demoNet ∅)) (nst (demoNet ∅))).
Proof.
  apply (netServe_refines demoEnv demoIp 0 demoInputs [] (demoNet ∅) (ChatFetch demoSid (str "hi"))).
  - reflexivity.
  - change (demoSid ≠ [] ∧ Forall idChar demoSid). decide_by_vm.
  - reflexivity.
Defined.

(** The address has used its hundred requests of the window that ends
    fifteen minutes after the session started. *)
Definition spentHits : MemoryStore := {[demoIp := mkHits 100 1700000900000]}.

Lemma throttled_send_fallback_witness :
  ∃ n', netEvent demoEnv (API_BASE_URL None) demoIp
          (NServe 0 demoInputs (str "Unexpected token 'T'")) (demoNet spentHits) = Some n' ∧
    nst n' = nst (demoNet spentHits) ∧
    hits n' = (rateLimit limiter (now demoInputs) demoIp spentHits).2 ∧
    messages (ui (nw n')) = messages (ui (nw (demoNet spentHits))) ++ [errorMessage 1700000003000] ∧
    error (ui (nw n')) = Some (str "Unexpected token 'T'") ∧
    isLoading (ui (nw n')) = false ∧ isTyping (ui (nw n')) = false.
Proof.
  exact (throttled_send_fallback demoEnv demoIp 0 demoInputs (str "Unexpected token 'T'")
           (demoNet spentHits) demoSid (str "hi") eq_refl eq_refl).
Defined.

(** The established session of [System] behind the network: a quick
    message sent and answered through the limiter and the chat route. *)
Definition netStart : Net := mkNet (cw demoStart) ∅ (st demoStart).

Definition netSent : Net :=
  default netStart (netEvent demoEnv (API_BASE_URL None) demoIp
                      (NUser (ClickQuick 0 1700000002000)) netStart).

Definition netAnswered : Net :=
  default netSent (netEvent demoEnv (API_BASE_URL None) demoIp (NServe 0 demoInputs []) netSent).

Lemma net_conversation_agreement_witness :
  ∃ obj p, lookupSession demoSid (nst netAnswered) = Some obj ∧
    conversation (ui (nw netAnswered)) =
      p ++ (srvTurn <$> Store.messages obj) ++ concat (taskTurn <$> tasks (nw netAnswered)) ∧
    (p = [] ∨ (20 ≤ length (Store.messages obj))%nat).
Proof.
  apply (net_conversation_agreement demoEnv demoIp demoSid netStart netAnswered).
  - vm_compute. discriminate.
  - decide_by_vm.
  - exact demoStart_established.
  - eapply rtc_l; [exists (NUser (ClickQuick 0 1700000002000)); split; [vm_compute; reflexivity | exact I] |].
    eapply rtc_l; [exists (NServe 0 demoInputs []); split; vm_compute; reflexivity |].
    apply rtc_refl.
Defined.

End Network.
